(** * A row store over a keyed table with secondary indexes

    Shallow embedding of the [dynamodb] storage package of the tree
    provider (the row model, the identifier generator and the row store
    operations), written against an explicit interface of the backing
    datastore, together with a small in-memory reference datastore, and
    of the [Configure] step of the example provider, which constructs
    the store.

    Conventions.
    - A Go function returning [(T, error)] is a computation [St W T]: it
      takes the world [W] (the datastore and the random source) and
      returns a [result] and the next world.
    - [tflog] calls only write to the host's log and never influence
      control flow; they are left out.  [context.Context] is not modelled.
    - Expression strings handed to the datastore
      ([KeyConditionExpression], [FilterExpression], [ConditionExpression],
      [UpdateExpression]) are kept as small syntax trees; the placeholder
      maps [ExpressionAttributeNames] / [ExpressionAttributeValues] are
      kept as the code builds them. *)

From stdpp Require Import gmap strings list fin_maps.
From Stdlib Require Import ZArith Ascii.

Open Scope string_scope.

(** ** Errors and results *)

(** [http.Response], reduced to the one field the code reads. *)
Record http_Response := { StatusCode : Z }.

Definition http_StatusBadRequest : Z := 400.

(** Go [error] values.  The six sentinels are the package's [errors.New]
    variables; [Errorf] is [fmt.Errorf] with exactly one [%w] verb (the
    other operands are kept unformatted); [ResponseError] is smithy's
    [*smithyhttp.ResponseError]; [APIError] is a service error code;
    [TransportError] is any failure that never produced an HTTP response
    (also configuration loading); [UnmarshalTypeError] is the decoder's;
    [Panic] stands for a run-time panic. *)
Inductive error : Type :=
| ErrCannotDeleteRow
| ErrCollisionParentLabel
| ErrCollisionTypeLabel
| ErrNilQueryOutput
| ErrNotFoundRow
| ErrTooManyFound
| Errorf (format : string) (args : list string) (wrapped : error)
| ResponseError (Response : option http_Response) (Err : error)
| APIError (code : string)
| TransportError (msg : string)
| UnmarshalTypeError (Value : string) (field : string)
| Panic (msg : string).

#[global] Instance http_Response_eq_dec : EqDecision http_Response.
Proof. solve_decision. Defined.

#[global] Instance error_eq_dec : EqDecision error.
Proof. solve_decision. Defined.

(** [errors.Is]: the error itself or anything it wraps. *)
Fixpoint errors_Is (err target : error) : bool :=
  bool_decide (err = target) ||
  match err with
  | Errorf _ _ wrapped => errors_Is wrapped target
  | ResponseError _ inner => errors_Is inner target
  | _ => false
  end.

(** [errors.As(err, &respErr)] for [*smithyhttp.ResponseError]: the first
    response error on the unwrap chain, with its (possibly nil)
    [Response]. *)
Fixpoint errors_As_ResponseError (err : error) : option (option http_Response) :=
  match err with
  | ResponseError resp _ => Some resp
  | Errorf _ _ wrapped => errors_As_ResponseError wrapped
  | _ => None
  end.

Inductive result (A : Type) : Type :=
| Ok (a : A)
| Err (e : error).
Arguments Ok {A} a.
Arguments Err {A} e.

Definition is_Ok {A} (r : result A) : bool :=
  match r with Ok _ => true | Err _ => false end.

(** State-and-error computations. *)
Definition St (W A : Type) : Type := W → result A * W.

Definition ret {W A} (a : A) : St W A := λ w, (Ok a, w).
Definition fail {W A} (e : error) : St W A := λ w, (Err e, w).
Definition bind {W A B} (c : St W A) (k : A → St W B) : St W B :=
  λ w, match c w with
       | (Ok a, w') => k a w'
       | (Err e, w') => (Err e, w')
       end.
(** Runs [c] and hands its outcome, error included, to the continuation:
    the shape of [x, err := f(); if err == nil {...}]. *)
Definition attempt {W A} (c : St W A) : St W (result A) :=
  λ w, let '(r, w') := c w in (Ok r, w').
(** Lifts a pure fallible step. *)
Definition lift {W A} (r : result A) : St W A := λ w, (r, w).

Notation "'do' x <~ c ;; k" := (bind c (λ x, k))
  (at level 10, x name, c at level 99, k at level 200).

(** ** Package [slug] *)

Module slug.

Definition letters : string := "abcdefghijklmnopqrstuvwxyz".

(** [letters[v % int64(len(letters))]]; Go's [%] truncates ([Z.rem]).
    [rand.Int63] is non-negative, so the index is in range; out of range
    (where Go would panic) the model yields ["?"]. *)
Definition letter_at (v : Z) : ascii :=
  match String.get (Z.to_nat (Z.rem v (Z.of_nat (String.length letters)))) letters with
  | Some c => if (0 <=? v)%Z then c else "?"%char
  | None => "?"%char
  end.

Section WithRand.
Context {W : Type}.
(** [math/rand.Int63]. *)
Variable rand_Int63 : W → Z * W.

(** [randSeq]: one [rand.Int63] draw per byte, left to right. *)
Fixpoint randSeq (n : nat) (w : W) : string * W :=
  match n with
  | O => (EmptyString, w)
  | S n' =>
      let '(v, w1) := rand_Int63 w in
      let '(rest, w2) := randSeq n' w1 in
      (String (letter_at v) rest, w2)
  end.

(** [Generate]: [fmt.Sprintf("%s_%s", prefix, randSeq(10))]. *)
Definition Generate (prefix : string) : St W string :=
  λ w, let '(suffix, w') := randSeq 10 w in
       (Ok (prefix ++ "_" ++ suffix), w').
End WithRand.

End slug.

(** ** Attribute values, items and rows *)

(** [types.AttributeValue], with the members the package builds;
    [AttributeValueNil] is the nil interface value. *)
#[warning="-register-all"]
Inductive AttributeValue : Type :=
| AttributeValueNil
| AttributeValueMemberS (Value : string)
| AttributeValueMemberSS (Value : list string)
| AttributeValueMemberM (Value : gmap string AttributeValue).

(** Go [interface{}] values as they occur in a columns mapping. *)
#[warning="-register-all"]
Inductive iface : Type :=
| iface_nil
| iface_string (s : string)
| iface_strings (l : list string)           (* []string *)
| iface_int (z : Z)
| iface_bool (b : bool)
| iface_list (l : list iface)               (* []interface{} *)
| iface_map (m : gmap string iface).        (* map[string]interface{} *)

Abbreviation Item := (gmap string AttributeValue).

(** The [row] struct; a nil and an empty [RowColumns] map are both [∅]. *)
Record row := {
  RowType : string;
  RowID : string;
  RowLabel : string;
  RowParentID : string;
  RowColumns : gmap string iface;
}.

(** The [storage.Row] view of a [row]. *)
Definition Type_ (r : row) : string := RowType r.
Definition ID (r : row) : string := RowID r.
Definition Label (r : row) : string := RowLabel r.
Definition ParentID (r : row) : string := RowParentID r.
Definition Columns_ (r : row) : gmap string iface := RowColumns r.

Definition storageKeyType := "type".
Definition storageKeyID := "id".
Definition storageAttrParentID := "parent_id".
Definition storageAttrLabel := "label".
Definition storageAttrColumns := "columns".
Definition storageGSIByParentAndLabel := "ByParentAndLabel".
Definition storageGSIByParent := "ByParent".
Definition storageGSIByType := "ByType".
Definition storageLSIByTypeAndLabel := "ByTypeAndLabel".
Definition storageLSIByTypeAndParent := "ByTypeAndParent".

(** *** [attributevalue.UnmarshalMap] into a [row]

    The decoder of the SDK, for the members above: a missing or nil
    attribute leaves the field at its zero value; a member of the wrong
    shape is a type error. *)

Fixpoint decode_iface (av : AttributeValue) : iface :=
  match av with
  | AttributeValueNil => iface_nil
  | AttributeValueMemberS s => iface_string s
  | AttributeValueMemberSS l => iface_strings l
  | AttributeValueMemberM m => iface_map (decode_iface <$> m)
  end.

Definition decode_string (field : string) (item : Item) : result string :=
  match item !! field with
  | None | Some AttributeValueNil => Ok ""
  | Some (AttributeValueMemberS s) => Ok s
  | Some (AttributeValueMemberSS _) => Err (UnmarshalTypeError "string set" field)
  | Some (AttributeValueMemberM _) => Err (UnmarshalTypeError "map" field)
  end.

Definition decode_columns (field : string) (item : Item) : result (gmap string iface) :=
  match item !! field with
  | None | Some AttributeValueNil => Ok ∅
  | Some (AttributeValueMemberM m) => Ok (decode_iface <$> m)
  | Some (AttributeValueMemberS _) => Err (UnmarshalTypeError "string" field)
  | Some (AttributeValueMemberSS _) => Err (UnmarshalTypeError "string set" field)
  end.

Definition attributevalue_UnmarshalMap (item : Item) : result row :=
  match decode_string "type" item, decode_string "id" item,
        decode_string "label" item, decode_string "parent_id" item,
        decode_columns "columns" item with
  | Ok t, Ok i, Ok l, Ok p, Ok c =>
      Ok {| RowType := t; RowID := i; RowLabel := l; RowParentID := p; RowColumns := c |}
  | Err e, _, _, _, _ => Err e
  | _, Err e, _, _, _ => Err e
  | _, _, Err e, _, _ => Err e
  | _, _, _, Err e, _ => Err e
  | _, _, _, _, Err e => Err e
  end.

Definition itemToRow (item : Item) : result row :=
  match attributevalue_UnmarshalMap item with
  | Err err => Err err
  | Ok r => Ok r
  end.

(** [ifaceToAttributeValue]: [out] starts as the nil interface and is
    assigned only for a string or a [[]string]. *)
Definition ifaceToAttributeValue (v : iface) : AttributeValue :=
  let out := AttributeValueNil in
  let out := match v with iface_string vString => AttributeValueMemberS vString | _ => out end in
  let out := match v with iface_strings vStringList => AttributeValueMemberSS vStringList | _ => out end in
  out.

(** [columnsToMap]: a fresh map with one entry per key of [columns]. *)
Definition columnsToMap (columns : gmap string iface) : gmap string AttributeValue :=
  ifaceToAttributeValue <$> columns.

(** ** The datastore interface (package [service/dynamodb])

    Expressions.  The strings of the package translate as follows.
    - ["#a = :v"] is [EEq "#a" ":v"];
    - ["contains(#a, :v)"] is [EContains "#a" ":v"];
    - ["attribute_exists(#a)"] is [EAttributeExists "#a"];
    - ["attribute_not_exists(#a)"] is [EAttributeNotExists "#a"];
    - ["e1 AND e2"] (and ["e1 and e2"]) is [EAnd e1 e2];
    - ["SET #a = :v, #b.#c = :u"] is the action list
      [[(["#a"], ":v"); (["#b"; "#c"], ":u")]]. *)

Inductive Expr : Type :=
| EEq (name value : string)
| EContains (name value : string)
| EAttributeExists (name : string)
| EAttributeNotExists (name : string)
| EAnd (e1 e2 : Expr).

Abbreviation UpdateExpr := (list (list string * string)).

(** [strings.Join(exprs, " AND ")] on a non-empty list of expressions. *)
Definition strings_Join_AND (e : Expr) (es : list Expr) : Expr :=
  foldl EAnd e es.

Inductive KeyType := KeyTypeHash | KeyTypeRange.
Inductive ScalarAttributeType := ScalarAttributeTypeS.
Inductive ProjectionType := ProjectionTypeAll.
Inductive BillingMode := BillingModePayPerRequest.
Inductive SSEType := SSETypeKms.
Inductive ReturnValue := ReturnValueNone | ReturnValueAllNew.

Record AttributeDefinition := {
  ad_AttributeName : string;
  ad_AttributeType : ScalarAttributeType;
}.

Record KeySchemaElement := {
  AttributeName : string;
  KeyType_ : KeyType;
}.

(** [types.GlobalSecondaryIndex] and [types.LocalSecondaryIndex] carry the
    same three fields here. *)
Record SecondaryIndex := {
  IndexName : string;
  ix_KeySchema : list KeySchemaElement;
  Projection : ProjectionType;
}.

Record SSESpecification := {
  Enabled : bool;
  SSEType_ : SSEType;
  KMSMasterKeyId : string;
}.

Record DescribeTableInput := { dt_TableName : string }.

Record CreateTableInput := {
  ct_TableName : string;
  AttributeDefinitions : list AttributeDefinition;
  ct_KeySchema : list KeySchemaElement;
  GlobalSecondaryIndexes : list SecondaryIndex;
  LocalSecondaryIndexes : list SecondaryIndex;
  BillingMode_ : BillingMode;
  SSESpecification_ : SSESpecification;
}.

Record GetItemInput := {
  gi_TableName : string;
  gi_Key : gmap string AttributeValue;
  ConsistentRead : bool;
}.

(** [Item] is [None] for a nil map. *)
Record GetItemOutput := { go_Item : option (gmap string AttributeValue) }.

Record QueryInput := {
  q_TableName : string;
  q_IndexName : string;
  KeyConditionExpression : Expr;
  FilterExpression : option Expr;
  q_ExpressionAttributeNames : gmap string string;
  q_ExpressionAttributeValues : gmap string AttributeValue;
}.

(** [Items] is [None] for a nil slice. *)
Record QueryOutput := { Items : option (list (gmap string AttributeValue)) }.

Record PutItemInput := {
  pi_TableName : string;
  pi_Item : gmap string AttributeValue;
  pi_ExpressionAttributeNames : gmap string string;
  pi_ConditionExpression : Expr;
}.

Record UpdateItemInput := {
  ui_TableName : string;
  ui_Key : gmap string AttributeValue;
  UpdateExpression : UpdateExpr;
  ui_ExpressionAttributeNames : gmap string string;
  ui_ExpressionAttributeValues : gmap string AttributeValue;
  ui_ConditionExpression : Expr;
  ReturnValues : ReturnValue;
}.

(** [Attributes] is [None] for a nil map. *)
Record UpdateItemOutput := { Attributes : option (gmap string AttributeValue) }.

Record DeleteItemInput := {
  di_TableName : string;
  di_Key : gmap string AttributeValue;
  di_ExpressionAttributeNames : gmap string string;
  di_ConditionExpression : Expr;
}.

(** [*dynamodb.Client]: the operations the package calls.  An output is an
    [option] where the package tests the returned pointer against nil. *)
Record dynamodb_Client (W : Type) := {
  DescribeTable : DescribeTableInput → St W unit;
  CreateTable : CreateTableInput → St W unit;
  GetItem : GetItemInput → St W GetItemOutput;
  Query : QueryInput → St W (option QueryOutput);
  PutItem : PutItemInput → St W unit;
  UpdateItem : UpdateItemInput → St W (option UpdateItemOutput);
  DeleteItem : DeleteItemInput → St W unit;
}.
Arguments DescribeTable {W}.
Arguments CreateTable {W}.
Arguments GetItem {W}.
Arguments Query {W}.
Arguments PutItem {W}.
Arguments UpdateItem {W}.
Arguments DeleteItem {W}.

(** The [Client] struct. *)
Record Client (W : Type) := {
  region : string;
  tableName : string;
  keyARN : string;
  ddb : dynamodb_Client W;
}.
Arguments region {W}.
Arguments tableName {W}.
Arguments keyARN {W}.
Arguments ddb {W}.

(** ** The row store (package [dynamodb]) *)

Abbreviation S_ := AttributeValueMemberS.

(** The test [output == nil || output.Items == nil] that follows every
    query. *)
Definition queryItems (output : option QueryOutput) : result (list Item) :=
  match output with
  | None => Err ErrNilQueryOutput
  | Some output =>
      match Items output with
      | None => Err ErrNilQueryOutput
      | Some items => Ok items
      end
  end.

(** The test [output == nil || output.Attributes == nil] that follows the
    label and parent updates. *)
Definition updateAttributes (output : option UpdateItemOutput) : result Item :=
  match output with
  | None => Err ErrNilQueryOutput
  | Some output =>
      match Attributes output with
      | None => Err ErrNilQueryOutput
      | Some attrs => Ok attrs
      end
  end.

(** The loop of [ListRows]: items are converted in order and the first
    conversion error is returned. *)
Fixpoint itemsToRows (items : list Item) : result (list row) :=
  match items with
  | [] => Ok []
  | item :: rest =>
      match itemToRow item with
      | Err err => Err err
      | Ok r =>
          match itemsToRows rest with
          | Err err => Err err
          | Ok rows => Ok (r :: rows)
          end
      end
  end.

Definition keySchemaElement (name : string) (kt : KeyType) : KeySchemaElement :=
  {| AttributeName := name; KeyType_ := kt |}.

Definition attributeDefinition (name : string) : AttributeDefinition :=
  {| ad_AttributeName := name; ad_AttributeType := ScalarAttributeTypeS |}.

Section RowStore.
Context {W Config : Type}.
(** [math/rand.Int63], [config.LoadDefaultConfig] with its profile and
    region options, and [dynamodb.NewFromConfig]. *)
Variable rand_Int63 : W → Z * W.
Variable config_LoadDefaultConfig : string → string → result Config.
Variable dynamodb_NewFromConfig : Config → dynamodb_Client W.

(** The [CreateTableInput] literal of [createTableIfNotExists]. *)
Definition createTableInput (client : Client W) : CreateTableInput :=
  {| ct_TableName := tableName client;
     AttributeDefinitions :=
       [ attributeDefinition storageKeyType;
         attributeDefinition storageKeyID;
         attributeDefinition storageAttrParentID;
         attributeDefinition storageAttrLabel ];
     ct_KeySchema :=
       [ keySchemaElement storageKeyType KeyTypeHash;
         keySchemaElement storageKeyID KeyTypeRange ];
     GlobalSecondaryIndexes :=
       [ {| IndexName := storageGSIByParentAndLabel;
            ix_KeySchema :=
              [ keySchemaElement storageAttrParentID KeyTypeHash;
                keySchemaElement storageAttrLabel KeyTypeRange ];
            Projection := ProjectionTypeAll |};
         {| IndexName := storageGSIByType;
            ix_KeySchema := [ keySchemaElement storageKeyType KeyTypeHash ];
            Projection := ProjectionTypeAll |} ];
     LocalSecondaryIndexes :=
       [ {| IndexName := storageLSIByTypeAndLabel;
            ix_KeySchema :=
              [ keySchemaElement storageKeyType KeyTypeHash;
                keySchemaElement storageAttrLabel KeyTypeRange ];
            Projection := ProjectionTypeAll |};
         {| IndexName := storageLSIByTypeAndParent;
            ix_KeySchema :=
              [ keySchemaElement storageKeyType KeyTypeHash;
                keySchemaElement storageAttrParentID KeyTypeRange ];
            Projection := ProjectionTypeAll |} ];
     BillingMode_ := BillingModePayPerRequest;
     SSESpecification_ :=
       {| Enabled := true; SSEType_ := SSETypeKms; KMSMasterKeyId := keyARN client |} |}.

Definition createTableIfNotExists (client : Client W) : St W unit :=
  do described <~ attempt (DescribeTable (ddb client) {| dt_TableName := tableName client |}) ;;
  match described with
  | Ok _ =>
      (* table already exists *)
      ret tt
  | Err err =>
      match errors_As_ResponseError err with
      | Some (Some response) =>
          (* ok && respErr.Response != nil: a status other than
             http.StatusBadRequest is logged as a warning, and the
             function goes on in either case *)
          let statusCode := StatusCode response in
          let _warned := negb (statusCode =? http_StatusBadRequest)%Z in
          CreateTable (ddb client) (createTableInput client)
      | _ =>
          (* unexpected error during DescribeTable *)
          fail err
      end
  end.

Definition NewClient (profile region tableName keyARN : string) : St W (Client W) :=
  do cfg <~ lift (config_LoadDefaultConfig profile region) ;;
  let this :=
    {| region := region; tableName := tableName; keyARN := keyARN;
       ddb := dynamodb_NewFromConfig cfg |} in
  do _ <~ createTableIfNotExists this ;;
  ret this.

Definition primaryKey (rowType id : string) : gmap string AttributeValue :=
  {[ storageKeyType := S_ rowType; storageKeyID := S_ id ]}.

Definition GetRowByID (client : Client W) (rowType id : string) : St W row :=
  do output <~ GetItem (ddb client)
    {| gi_TableName := tableName client;
       gi_Key := primaryKey rowType id;
       ConsistentRead := true |} ;;
  match go_Item output with
  | None => fail (Errorf "%w: %q" [id] ErrNotFoundRow)
  | Some item => lift (itemToRow item)
  end.

(** The query of [GetRow] and [CreateRow] on the type/label index. *)
Definition queryByTypeAndLabel (client : Client W) (rowType label : string) : QueryInput :=
  {| q_TableName := tableName client;
     q_IndexName := storageLSIByTypeAndLabel;
     KeyConditionExpression := EAnd (EEq "#type" ":type") (EEq "#label" ":label");
     FilterExpression := None;
     q_ExpressionAttributeNames :=
       {[ "#type" := storageKeyType; "#label" := storageAttrLabel ]};
     q_ExpressionAttributeValues :=
       {[ ":type" := S_ rowType; ":label" := S_ label ]} |}.

(** The query of [GetChild] and [CreateChild] on the parent/label index. *)
Definition queryByParentAndLabel (client : Client W) (parentID label : string) : QueryInput :=
  {| q_TableName := tableName client;
     q_IndexName := storageGSIByParentAndLabel;
     KeyConditionExpression := EAnd (EEq "#parent_id" ":parent_id") (EEq "#label" ":label");
     FilterExpression := None;
     q_ExpressionAttributeNames :=
       {[ "#parent_id" := storageAttrParentID; "#label" := storageAttrLabel ]};
     q_ExpressionAttributeValues :=
       {[ ":parent_id" := S_ parentID; ":label" := S_ label ]} |}.

Definition keyNames : gmap string string :=
  {[ "#type" := storageKeyType; "#id" := storageKeyID ]}.

Definition GetRow (client : Client W) (rowType label : string) : St W row :=
  do output <~ Query (ddb client) (queryByTypeAndLabel client rowType label) ;;
  do items <~ lift (queryItems output) ;;
  if (length items =? 0)%nat then
    fail (Errorf "%w: type %q and label %q" [rowType; label] ErrNotFoundRow)
  else if (1 <? length items)%nat then
    fail (Errorf "%w: type %q and label %q" [rowType; label] ErrTooManyFound)
  else
    match items !! 0%nat with
    | Some item => lift (itemToRow item)
    | None => fail (Panic "index out of range")
    end.

Definition CreateRow (client : Client W) (rowType label : string) : St W row :=
  (* make sure type+name doesn't collide *)
  do output <~ Query (ddb client) (queryByTypeAndLabel client rowType label) ;;
  do items <~ lift (queryItems output) ;;
  if (0 <? length items)%nat then fail ErrCollisionTypeLabel else
  do id <~ slug.Generate rand_Int63 rowType ;;
  (* create item as long as type+ID doesn't collide *)
  do _ <~ PutItem (ddb client)
    {| pi_TableName := tableName client;
       pi_Item :=
         {[ storageKeyType := S_ rowType;
            storageKeyID := S_ id;
            storageAttrLabel := S_ label ]};
       pi_ExpressionAttributeNames := keyNames;
       pi_ConditionExpression :=
         EAnd (EAttributeNotExists "#type") (EAttributeNotExists "#id") |} ;;
  ret {| RowType := rowType; RowID := id; RowLabel := label;
         RowParentID := ""; RowColumns := ∅ |}.

Definition CreateChild (client : Client W)
    (rowType label parentType parentID : string) (columns : gmap string iface) : St W row :=
  do id <~ slug.Generate rand_Int63 rowType ;;
  let object :=
    {| RowType := rowType; RowID := id; RowLabel := label;
       RowParentID := ""; RowColumns := columns |} in
  (* make sure parent exists *)
  do parent <~ GetRowByID client parentType parentID ;;
  let object :=
    {| RowType := RowType object; RowID := RowID object; RowLabel := RowLabel object;
       RowParentID := ID parent; RowColumns := RowColumns object |} in
  (* make sure label is unique within the parent *)
  do output <~ Query (ddb client) (queryByParentAndLabel client parentID label) ;;
  do items <~ lift (queryItems output) ;;
  if (0 <? length items)%nat then fail ErrCollisionParentLabel else
  do _ <~ PutItem (ddb client)
    {| pi_TableName := tableName client;
       pi_Item :=
         {[ storageKeyType := S_ rowType;
            storageKeyID := S_ id;
            storageAttrLabel := S_ label;
            storageAttrParentID := S_ parentID;
            storageAttrColumns := AttributeValueMemberM (columnsToMap columns) ]};
       pi_ExpressionAttributeNames := keyNames;
       pi_ConditionExpression :=
         EAnd (EAttributeNotExists "#type") (EAttributeNotExists "#id") |} ;;
  ret object.

Definition GetChild (client : Client W) (label parentID : string) : St W row :=
  do output <~ Query (ddb client) (queryByParentAndLabel client parentID label) ;;
  do items <~ lift (queryItems output) ;;
  if (length items =? 0)%nat then
    fail (Errorf "%w with parent ID %q and label %q" [parentID; label] ErrNotFoundRow)
  else if (1 <? length items)%nat then
    fail (Errorf "%w: parent ID %q and label %q" [parentID; label] ErrTooManyFound)
  else
    match items !! 0%nat with
    | Some item => lift (itemToRow item)
    | None => fail (Panic "index out of range")
    end.

Definition ListRows (client : Client W)
    (rowType labelFilter parentIDFilter : string) : St W (list row) :=
  let names : gmap string string := {[ "#type" := storageKeyType ]} in
  let values : gmap string AttributeValue := {[ ":type" := S_ rowType ]} in
  let filterExprs : list Expr := [] in
  let '(filterExprs, names, values) :=
    if bool_decide (labelFilter ≠ "") then
      ((filterExprs ++ [EContains "#label" ":label"])%list,
       <["#label" := storageAttrLabel]> names,
       <[":label" := S_ labelFilter]> values)
    else (filterExprs, names, values) in
  let '(filterExprs, names, values) :=
    if bool_decide (parentIDFilter ≠ "") then
      ((filterExprs ++ [EEq "#parent_id" ":parent_id"])%list,
       <["#parent_id" := storageAttrParentID]> names,
       <[":parent_id" := S_ parentIDFilter]> values)
    else (filterExprs, names, values) in
  let filterExpression :=
    match filterExprs with
    | [] => None
    | e :: es => Some (strings_Join_AND e es)
    end in
  let input :=
    {| q_TableName := tableName client;
       q_IndexName := storageGSIByType;
       KeyConditionExpression := EEq "#type" ":type";
       FilterExpression := filterExpression;
       q_ExpressionAttributeNames := names;
       q_ExpressionAttributeValues := values |} in
  do output <~ Query (ddb client) input ;;
  do items <~ lift (queryItems output) ;;
  lift (itemsToRows items).

Definition UpdateRow (client : Client W) (rowType id newLabel : string) : St W row :=
  (* ensure new label is available *)
  do this <~ GetRowByID client rowType id ;;
  do found <~ attempt (GetChild client newLabel (ParentID this)) ;;
  match found with
  | Ok _ => fail ErrCollisionParentLabel
  | Err err =>
      if negb (errors_Is err ErrNotFoundRow) then fail err else
      do output <~ UpdateItem (ddb client)
        {| ui_TableName := tableName client;
           ui_Key := primaryKey rowType id;
           UpdateExpression := [ (["#label"], ":new_label") ];
           ui_ExpressionAttributeNames :=
             {[ "#label" := storageAttrLabel;
                "#type" := storageKeyType;
                "#id" := storageKeyID ]};
           ui_ExpressionAttributeValues := {[ ":new_label" := S_ newLabel ]};
           ui_ConditionExpression :=
             EAnd (EAttributeNotExists "#type") (EAttributeNotExists "#id");
           ReturnValues := ReturnValueAllNew |} ;;
      do attrs <~ lift (updateAttributes output) ;;
      lift (itemToRow attrs)
  end.

Definition UpdateChild (client : Client W)
    (childType childID newChildLabel parentType newParentID : string) : St W row :=
  (* ensure new parent exists *)
  do _ <~ GetRowByID client parentType newParentID ;;
  (* ensure new label is available *)
  do found <~ attempt (GetChild client newChildLabel newParentID) ;;
  match found with
  | Ok _ => fail ErrCollisionParentLabel
  | Err err =>
      if negb (errors_Is err ErrNotFoundRow) then fail err else
      (* update the item *)
      do output <~ UpdateItem (ddb client)
        {| ui_TableName := tableName client;
           ui_Key := primaryKey childType childID;
           UpdateExpression :=
             [ (["#label"], ":new_label"); (["#parent_id"], ":new_parent_id") ];
           ui_ExpressionAttributeNames :=
             {[ "#label" := storageAttrLabel;
                "#parent_id" := storageAttrParentID;
                "#type" := storageKeyType;
                "#id" := storageKeyID ]};
           ui_ExpressionAttributeValues :=
             {[ ":new_label" := S_ newChildLabel;
                ":new_parent_id" := S_ newParentID ]};
           ui_ConditionExpression :=
             EAnd (EAttributeNotExists "#type") (EAttributeNotExists "#id");
           ReturnValues := ReturnValueAllNew |} ;;
      do attrs <~ lift (updateAttributes output) ;;
      lift (itemToRow attrs)
  end.

Definition UpdateColumn (client : Client W)
    (rowType rowID columnName : string) (columnValue : iface) : St W unit :=
  let value := ifaceToAttributeValue columnValue in
  do _ <~ UpdateItem (ddb client)
    {| ui_TableName := tableName client;
       ui_Key := primaryKey rowType rowID;
       UpdateExpression := [ (["#columns"; "#key"], ":value") ];
       ui_ExpressionAttributeNames :=
         {[ "#columns" := storageAttrColumns;
            "#key" := columnName;
            "#type" := storageKeyType;
            "#id" := storageKeyID ]};
       ui_ExpressionAttributeValues := {[ ":value" := value ]};
       ui_ConditionExpression :=
         EAnd (EAttributeExists "#type") (EAttributeExists "#id");
       ReturnValues := ReturnValueNone |} ;;
  ret tt.

Definition UpdateColumns (client : Client W)
    (rowType rowID : string) (columns : gmap string iface) : St W unit :=
  do _ <~ UpdateItem (ddb client)
    {| ui_TableName := tableName client;
       ui_Key := primaryKey rowType rowID;
       UpdateExpression := [ (["#columns"], ":new_columns") ];
       ui_ExpressionAttributeNames :=
         {[ "#columns" := storageAttrColumns;
            "#type" := storageKeyType;
            "#id" := storageKeyID ]};
       ui_ExpressionAttributeValues :=
         {[ ":new_columns" := AttributeValueMemberM (columnsToMap columns) ]};
       ui_ConditionExpression :=
         EAnd (EAttributeExists "#type") (EAttributeExists "#id");
       ReturnValues := ReturnValueNone |} ;;
  ret tt.

(** The query of [DeleteRow] on the type/parent index. *)
Definition queryByTypeAndParent (client : Client W) (childType id : string) : QueryInput :=
  {| q_TableName := tableName client;
     q_IndexName := storageLSIByTypeAndParent;
     KeyConditionExpression := EAnd (EEq "#type" ":type") (EEq "#parent_id" ":parent_id");
     FilterExpression := None;
     q_ExpressionAttributeNames :=
       {[ "#type" := storageKeyType; "#parent_id" := storageAttrParentID ]};
     q_ExpressionAttributeValues :=
       {[ ":type" := S_ childType; ":parent_id" := S_ id ]} |}.

Definition DeleteRow (client : Client W) (rowType childType id : string) : St W unit :=
  (* ensure this row does not have any children *)
  do _ <~
    (if (0 <? String.length childType)%nat then
       (do output <~ Query (ddb client) (queryByTypeAndParent client childType id) ;;
        do items <~ lift (queryItems output) ;;
        if (0 <? length items)%nat then
          fail (Errorf "%s %s has children: %w" [rowType; id] ErrCannotDeleteRow)
        else ret tt)
     else ret tt) ;;
  DeleteItem (ddb client)
    {| di_TableName := tableName client;
       di_Key := primaryKey rowType id;
       di_ExpressionAttributeNames := keyNames;
       di_ConditionExpression :=
         EAnd (EAttributeExists "#type") (EAttributeExists "#id") |}.

End RowStore.

(** What [ListRows] asks the datastore. *)
Definition listRowsInput {W} (client : Client W) (rowType labelFilter parentIDFilter : string) : QueryInput :=
  {| q_TableName := tableName client;
     q_IndexName := storageGSIByType;
     KeyConditionExpression := EEq "#type" ":type";
     FilterExpression :=
       match bool_decide (labelFilter ≠ ""), bool_decide (parentIDFilter ≠ "") with
       | true, true =>
           Some (EAnd (EContains "#label" ":label") (EEq "#parent_id" ":parent_id"))
       | true, false => Some (EContains "#label" ":label")
       | false, true => Some (EEq "#parent_id" ":parent_id")
       | false, false => None
       end;
     q_ExpressionAttributeNames :=
       (if bool_decide (parentIDFilter ≠ "")
        then <["#parent_id" := storageAttrParentID]> else id)
         ((if bool_decide (labelFilter ≠ "")
           then <["#label" := storageAttrLabel]> else id)
            {[ "#type" := storageKeyType ]});
     q_ExpressionAttributeValues :=
       (if bool_decide (parentIDFilter ≠ "")
        then <[":parent_id" := S_ parentIDFilter]> else id)
         ((if bool_decide (labelFilter ≠ "")
           then <[":label" := S_ labelFilter]> else id)
            {[ ":type" := S_ rowType ]}) |}.

(** ** A reference datastore

    An in-memory model of the backing service, as far as the row store
    uses it: tables of items under a primary key, secondary indexes that
    hold exactly the items carrying all of the index's key attributes as
    strings, index queries with a key condition and a filter, and
    single-item writes under a condition evaluated on the item currently
    stored under the same primary key (on an empty item when there is
    none).  [UpdateItem] on a missing key creates the item from the key
    (an upsert), as the service does.

    Reads see all earlier writes, a query answers in one page, and the
    service's request validation is reduced to unresolved placeholders,
    unknown tables or indexes and malformed keys.  Attribute values are
    stored as they are handed over, the nil value included. *)

(** [contains(a, b)] on strings: [sub] occurs in [s]. *)
Fixpoint is_substring (sub s : string) : bool :=
  String.prefix sub s ||
  match s with
  | EmptyString => false
  | String _ s' => is_substring sub s'
  end.

(** Equality of attribute values, as the service's [=] comparator. *)
Fixpoint av_eqb (a b : AttributeValue) : bool :=
  match a, b with
  | AttributeValueNil, AttributeValueNil => true
  | AttributeValueMemberS x, AttributeValueMemberS y => bool_decide (x = y)
  | AttributeValueMemberSS x, AttributeValueMemberSS y => bool_decide (x = y)
  | AttributeValueMemberM m1, AttributeValueMemberM m2 =>
      bool_decide (dom m1 = dom m2) &&
      map_fold (λ k v acc,
                  acc && match m2 !! k with
                         | Some v' => av_eqb v v'
                         | None => false
                         end) true m1
  | _, _ => false
  end.

Module refstore.

Record Table := {
  tKeySchema : list KeySchemaElement;
  tIndexes : list SecondaryIndex;
  tItems : gmap (list string) Item;
}.

(** The service ([tables]) and the state of [math/rand] (a raw source
    of 64-bit words and the number of words drawn). *)
Record World := {
  tables : gmap string Table;
  randSrc : nat → Z;
  randPos : nat;
}.

Definition setTables (w : World) (ts : gmap string Table) : World :=
  {| tables := ts; randSrc := randSrc w; randPos := randPos w |}.

Definition setItems (t : Table) (items : gmap (list string) Item) : Table :=
  {| tKeySchema := tKeySchema t; tIndexes := tIndexes t; tItems := items |}.

Definition rngMask : Z := 2 ^ 63 - 1.

(** [rand.Int63]: the next word of the source, masked to 63 bits. *)
Definition rand_Int63 (w : World) : Z * World :=
  (Z.land (randSrc w (randPos w)) rngMask,
   {| tables := tables w; randSrc := randSrc w; randPos := S (randPos w) |}).

Definition serviceError (code : string) : error :=
  ResponseError (Some {| StatusCode := 400 |}) (APIError code).

Definition ResourceNotFoundException := serviceError "ResourceNotFoundException".
Definition ResourceInUseException := serviceError "ResourceInUseException".
Definition ValidationException := serviceError "ValidationException".
Definition ConditionalCheckFailedException :=
  serviceError "ConditionalCheckFailedException".

(** The values of the key attributes of [item], when all are strings. *)
Fixpoint keyOf (ks : list KeySchemaElement) (item : Item) : option (list string) :=
  match ks with
  | [] => Some []
  | e :: ks' =>
      match item !! AttributeName e, keyOf ks' item with
      | Some (AttributeValueMemberS s), Some rest => Some (s :: rest)
      | _, _ => None
      end
  end.

(** Every placeholder of [e] is declared. *)
Fixpoint resolves (names : gmap string string) (values : gmap string AttributeValue)
    (e : Expr) : bool :=
  match e with
  | EEq n v | EContains n v =>
      bool_decide (is_Some (names !! n)) && bool_decide (is_Some (values !! v))
  | EAttributeExists n | EAttributeNotExists n => bool_decide (is_Some (names !! n))
  | EAnd e1 e2 => resolves names values e1 && resolves names values e2
  end.

Definition attr (names : gmap string string) (item : Item) (n : string)
    : option AttributeValue :=
  match names !! n with
  | Some name => item !! name
  | None => None
  end.

Fixpoint evalExpr (names : gmap string string) (values : gmap string AttributeValue)
    (item : Item) (e : Expr) : bool :=
  match e with
  | EEq n v =>
      match attr names item n, values !! v with
      | Some a, Some b => av_eqb a b
      | _, _ => false
      end
  | EContains n v =>
      match attr names item n, values !! v with
      | Some (AttributeValueMemberS s), Some (AttributeValueMemberS sub) =>
          is_substring sub s
      | Some (AttributeValueMemberSS l), Some (AttributeValueMemberS x) =>
          bool_decide (x ∈ l)
      | _, _ => false
      end
  | EAttributeExists n => bool_decide (is_Some (attr names item n))
  | EAttributeNotExists n => negb (bool_decide (is_Some (attr names item n)))
  | EAnd e1 e2 => evalExpr names values item e1 && evalExpr names values item e2
  end.

Definition evalFilter (names : gmap string string) (values : gmap string AttributeValue)
    (item : Item) (f : option Expr) : bool :=
  match f with
  | None => true
  | Some e => evalExpr names values item e
  end.

Definition findIndex (name : string) (t : Table) : option SecondaryIndex :=
  list_find (λ ix, IndexName ix = name) (tIndexes t) ≫= λ p, Some p.2.

(** What a query selects: the item is in the index and passes the key
    condition and the filter. *)
Definition selected (ix : SecondaryIndex) (input : QueryInput) (item : Item) : bool :=
  bool_decide (is_Some (keyOf (ix_KeySchema ix) item)) &&
  evalExpr (q_ExpressionAttributeNames input) (q_ExpressionAttributeValues input)
    item (KeyConditionExpression input) &&
  evalFilter (q_ExpressionAttributeNames input) (q_ExpressionAttributeValues input)
    item (FilterExpression input).

Definition select (ix : SecondaryIndex) (input : QueryInput)
    (items : gmap (list string) Item) : list Item :=
  (map_to_list (filter (λ kv, selected ix input kv.2 = true) items)).*2.

(** One [SET] action. *)
Definition applySet (names : gmap string string) (values : gmap string AttributeValue)
    (item : Item) (action : list string * string) : option Item :=
  match values !! action.2, action.1 with
  | Some val, [n] =>
      match names !! n with
      | Some name => Some (<[name := val]> item)
      | None => None
      end
  | Some val, [n1; n2] =>
      match names !! n1, names !! n2 with
      | Some name1, Some name2 =>
          match item !! name1 with
          | Some (AttributeValueMemberM m) =>
              Some (<[name1 := AttributeValueMemberM (<[name2 := val]> m)]> item)
          | _ => None
          end
      | _, _ => None
      end
  | _, _ => None
  end.

Fixpoint applyUpdate (names : gmap string string) (values : gmap string AttributeValue)
    (item : Item) (actions : list (list string * string)) : option Item :=
  match actions with
  | [] => Some item
  | action :: rest =>
      match applySet names values item action with
      | Some item' => applyUpdate names values item' rest
      | None => None
      end
  end.

Definition withTable {A} (name : string) (k : Table → St World A) : St World A :=
  λ w, match tables w !! name with
       | Some t => k t w
       | None => (Err ResourceNotFoundException, w)
       end.

Definition putTable (name : string) (t : Table) : St World unit :=
  λ w, (Ok tt, setTables w (<[name := t]> (tables w))).

Definition DescribeTable (input : DescribeTableInput) : St World unit :=
  withTable (dt_TableName input) (λ _, ret tt).

Definition CreateTable (input : CreateTableInput) : St World unit :=
  λ w, match tables w !! ct_TableName input with
       | Some _ => (Err ResourceInUseException, w)
       | None =>
           putTable (ct_TableName input)
             {| tKeySchema := ct_KeySchema input;
                tIndexes := GlobalSecondaryIndexes input ++ LocalSecondaryIndexes input;
                tItems := ∅ |} w
       end.

Definition GetItem (input : GetItemInput) : St World GetItemOutput :=
  withTable (gi_TableName input) (λ t,
    match keyOf (tKeySchema t) (gi_Key input) with
    | None => fail ValidationException
    | Some key => ret {| go_Item := tItems t !! key |}
    end).

Definition Query (input : QueryInput) : St World (option QueryOutput) :=
  withTable (q_TableName input) (λ t,
    match findIndex (q_IndexName input) t with
    | None => fail ValidationException
    | Some ix =>
        let names := q_ExpressionAttributeNames input in
        let values := q_ExpressionAttributeValues input in
        if resolves names values (KeyConditionExpression input) &&
           from_option (resolves names values) true (FilterExpression input)
        then ret (Some {| Items := Some (select ix input (tItems t)) |})
        else fail ValidationException
    end).

Definition PutItem (input : PutItemInput) : St World unit :=
  withTable (pi_TableName input) (λ t,
    match keyOf (tKeySchema t) (pi_Item input) with
    | None => fail ValidationException
    | Some key =>
        let names := pi_ExpressionAttributeNames input in
        if negb (resolves names ∅ (pi_ConditionExpression input))
        then fail ValidationException
        else if evalExpr names ∅ (default ∅ (tItems t !! key)) (pi_ConditionExpression input)
        then putTable (pi_TableName input) (setItems t (<[key := pi_Item input]> (tItems t)))
        else fail ConditionalCheckFailedException
    end).

Definition UpdateItem (input : UpdateItemInput) : St World (option UpdateItemOutput) :=
  withTable (ui_TableName input) (λ t,
    match keyOf (tKeySchema t) (ui_Key input) with
    | None => fail ValidationException
    | Some key =>
        let names := ui_ExpressionAttributeNames input in
        let values := ui_ExpressionAttributeValues input in
        let stored := tItems t !! key in
        if negb (resolves names values (ui_ConditionExpression input))
        then fail ValidationException
        else if evalExpr names values (default ∅ stored) (ui_ConditionExpression input)
        then
          match applyUpdate names values (default (ui_Key input) stored)
                  (UpdateExpression input) with
          | None => fail ValidationException
          | Some item =>
              if bool_decide (keyOf (tKeySchema t) item = Some key) then
                do _ <~ putTable (ui_TableName input)
                          (setItems t (<[key := item]> (tItems t))) ;;
                ret (Some {| Attributes :=
                               match ReturnValues input with
                               | ReturnValueAllNew => Some item
                               | ReturnValueNone => None
                               end |})
              else fail ValidationException
          end
        else fail ConditionalCheckFailedException
    end).

Definition DeleteItem (input : DeleteItemInput) : St World unit :=
  withTable (di_TableName input) (λ t,
    match keyOf (tKeySchema t) (di_Key input) with
    | None => fail ValidationException
    | Some key =>
        let names := di_ExpressionAttributeNames input in
        if negb (resolves names ∅ (di_ConditionExpression input))
        then fail ValidationException
        else if evalExpr names ∅ (default ∅ (tItems t !! key)) (di_ConditionExpression input)
        then putTable (di_TableName input) (setItems t (delete key (tItems t)))
        else fail ConditionalCheckFailedException
    end).

Definition api : dynamodb_Client World :=
  Build_dynamodb_Client World
    DescribeTable CreateTable GetItem Query PutItem UpdateItem DeleteItem.

End refstore.

(** ** The row store on the reference datastore *)

(** A client of the reference datastore. *)
Definition refClient (region tableName keyARN : string) : Client refstore.World :=
  {| region := region; tableName := tableName; keyARN := keyARN; ddb := refstore.api |}.

(** The table that [createTableIfNotExists] creates, holding [items]. *)
Definition provisionedTable {W} (client : Client W)
    (items : gmap (list string) Item) : refstore.Table :=
  {| refstore.tKeySchema := ct_KeySchema (createTableInput client);
     refstore.tIndexes :=
       GlobalSecondaryIndexes (createTableInput client) ++
       LocalSecondaryIndexes (createTableInput client);
     refstore.tItems := items |}.

(** The primary key of the table and its four secondary indexes, as
    [createTableIfNotExists] declares them. *)
Definition tableKeySchema : list KeySchemaElement :=
  [keySchemaElement storageKeyType KeyTypeHash;
   keySchemaElement storageKeyID KeyTypeRange].

Definition indexByTypeAndLabel : SecondaryIndex :=
  {| IndexName := storageLSIByTypeAndLabel;
     ix_KeySchema :=
       [keySchemaElement storageKeyType KeyTypeHash;
        keySchemaElement storageAttrLabel KeyTypeRange];
     Projection := ProjectionTypeAll |}.

Definition indexByParentAndLabel : SecondaryIndex :=
  {| IndexName := storageGSIByParentAndLabel;
     ix_KeySchema :=
       [keySchemaElement storageAttrParentID KeyTypeHash;
        keySchemaElement storageAttrLabel KeyTypeRange];
     Projection := ProjectionTypeAll |}.

Definition indexByType : SecondaryIndex :=
  {| IndexName := storageGSIByType;
     ix_KeySchema := [keySchemaElement storageKeyType KeyTypeHash];
     Projection := ProjectionTypeAll |}.

Definition indexByTypeAndParent : SecondaryIndex :=
  {| IndexName := storageLSIByTypeAndParent;
     ix_KeySchema :=
       [keySchemaElement storageKeyType KeyTypeHash;
        keySchemaElement storageAttrParentID KeyTypeRange];
     Projection := ProjectionTypeAll |}.

(** The identifier [slug.Generate] draws in [w], and the world after the
    draw. *)
Definition drawID (rowType : string) (w : refstore.World) : string :=
  rowType ++ "_" ++ (slug.randSeq refstore.rand_Int63 10 w).1.

Definition afterDraw (w : refstore.World) : refstore.World :=
  (slug.randSeq refstore.rand_Int63 10 w).2.

(** The items [CreateRow] and [CreateChild] write. *)
Definition rootItem (rowType id label : string) : Item :=
  {[ storageKeyType := S_ rowType;
     storageKeyID := S_ id;
     storageAttrLabel := S_ label ]}.

Definition childItem (rowType id label parentID : string)
    (columns : gmap string iface) : Item :=
  {[ storageKeyType := S_ rowType;
     storageKeyID := S_ id;
     storageAttrLabel := S_ label;
     storageAttrParentID := S_ parentID;
     storageAttrColumns := AttributeValueMemberM (columnsToMap columns) ]}.

(** Some stored item carries the two given string attributes. *)
Definition someItemWith (items : gmap (list string) Item)
    (a1 v1 a2 v2 : string) : Prop :=
  ∃ key item, items !! key = Some item ∧
    item !! a1 = Some (S_ v1) ∧ item !! a2 = Some (S_ v2).

(** The world [w] with the table of [client] holding [items]. *)
Definition storeItems (client : Client refstore.World) (w : refstore.World)
    (items : gmap (list string) Item) : refstore.World :=
  refstore.setTables w
    (<[tableName client := provisionedTable client items]> (refstore.tables w)).

(** The two conditions of the single-item writes. *)
Definition keyAbsent : Expr :=
  EAnd (EAttributeNotExists "#type") (EAttributeNotExists "#id").
Definition keyPresent : Expr :=
  EAnd (EAttributeExists "#type") (EAttributeExists "#id").

(** The client talks to the reference datastore and its table exists with
    the layout of [createTableIfNotExists]. *)
Definition provisioned (client : Client refstore.World) (w : refstore.World)
    (items : gmap (list string) Item) : Prop :=
  ddb client = refstore.api ∧
  refstore.tables w !! tableName client = Some (provisionedTable client items).

(** Every item is stored under its own primary key and converts to a row:
    the shape of everything the row store writes (lemma
    [afterCalls_keeps_wellFormed]). *)
Definition wellFormedItem (key : list string) (item : Item) : Prop :=
  refstore.keyOf tableKeySchema item = Some key ∧
  is_Ok (itemToRow item) = true.

Definition wellFormed (items : gmap (list string) Item) : Prop :=
  map_Forall wellFormedItem items.

#[global] Instance wellFormedItem_dec key item : Decision (wellFormedItem key item).
Proof. unfold wellFormedItem. apply _. Defined.

#[global] Instance wellFormed_dec items : Decision (wellFormed items).
Proof. unfold wellFormed. apply _. Defined.

(** The items of the table of [client] in [w] ([∅] without a table). *)
Definition itemsOf (client : Client refstore.World) (w : refstore.World)
    : gmap (list string) Item :=
  from_option refstore.tItems ∅ (refstore.tables w !! tableName client).

(** The two kinds of column value [ifaceToAttributeValue] recognises. *)
Definition supportedKind (v : iface) : bool :=
  match v with
  | iface_string _ | iface_strings _ => true
  | _ => false
  end.

(** The reference datastore behind an existence check that always fails
    with [err]. *)
Definition failingDescribe (err : error) : dynamodb_Client refstore.World :=
  Build_dynamodb_Client refstore.World
    (λ _, fail err) refstore.CreateTable refstore.GetItem refstore.Query
    refstore.PutItem refstore.UpdateItem refstore.DeleteItem.

(** The rows a [ListRows] call is to return. *)
Definition rowSelected (rowType labelFilter parentIDFilter : string) (r : row) : Prop :=
  RowType r = rowType ∧
  (labelFilter ≠ "" → is_substring labelFilter (RowLabel r) = true) ∧
  (parentIDFilter ≠ "" → RowParentID r = parentIDFilter).

(** The item [UpdateItem] builds from the key when [UpdateChild] reaches
    it with no item stored. *)
Definition childUpdated (childType childID newChildLabel newParentID : string) : Item :=
  <[storageAttrParentID := S_ newParentID]>
    (<[storageAttrLabel := S_ newChildLabel]> (primaryKey childType childID)).

(** The writing operations of the row store, as calls, and the world a
    sequence of calls leaves behind (results are dropped). *)
Inductive Call : Type :=
| CallCreateRow (rowType label : string)
| CallCreateChild (rowType label parentType parentID : string)
    (columns : gmap string iface)
| CallUpdateRow (rowType id newLabel : string)
| CallUpdateChild (childType childID newChildLabel parentType newParentID : string)
| CallUpdateColumn (rowType rowID columnName : string) (columnValue : iface)
| CallUpdateColumns (rowType rowID : string) (columns : gmap string iface)
| CallDeleteRow (rowType childType id : string).

Definition afterCall (client : Client refstore.World) (w : refstore.World)
    (call : Call) : refstore.World :=
  match call with
  | CallCreateRow rowType label =>
      (CreateRow refstore.rand_Int63 client rowType label w).2
  | CallCreateChild rowType label parentType parentID columns =>
      (CreateChild refstore.rand_Int63 client rowType label parentType parentID columns w).2
  | CallUpdateRow rowType id newLabel =>
      (UpdateRow client rowType id newLabel w).2
  | CallUpdateChild childType childID newChildLabel parentType newParentID =>
      (UpdateChild client childType childID newChildLabel parentType newParentID w).2
  | CallUpdateColumn rowType rowID columnName columnValue =>
      (UpdateColumn client rowType rowID columnName columnValue w).2
  | CallUpdateColumns rowType rowID columns =>
      (UpdateColumns client rowType rowID columns w).2
  | CallDeleteRow rowType childType id =>
      (DeleteRow client rowType childType id w).2
  end.

Definition afterCalls (client : Client refstore.World) (w : refstore.World)
    (calls : list Call) : refstore.World :=
  foldl (afterCall client) w calls.

(** *** The writes as transitions of the table

    How one call of a writing operation may change the items of the
    table (lemma [afterCall_step]). *)
Inductive step (items : gmap (list string) Item) : gmap (list string) Item → Prop :=
| step_none : step items items
| step_CreateRow rowType id label :
    items !! [rowType; id] = None →
    ¬ someItemWith items "type" rowType "label" label →
    step items (<[[rowType; id] := rootItem rowType id label]> items)
| step_CreateChild rowType id label parentType parentID columns :
    items !! [rowType; id] = None →
    is_Some (items !! [parentType; parentID]) →
    ¬ someItemWith items "parent_id" parentID "label" label →
    step items (<[[rowType; id] := childItem rowType id label parentID columns]> items)
| step_UpdateChild childType childID newChildLabel parentType newParentID :
    items !! [childType; childID] = None →
    is_Some (items !! [parentType; newParentID]) →
    ¬ someItemWith items "parent_id" newParentID "label" newChildLabel →
    step items (<[[childType; childID] :=
                    childUpdated childType childID newChildLabel newParentID]> items)
| step_columns rowType rowID item m :
    items !! [rowType; rowID] = Some item →
    step items (<[[rowType; rowID] :=
                    <[storageAttrColumns := AttributeValueMemberM m]> item]> items)
| step_DeleteRow rowType id :
    is_Some (items !! [rowType; id]) →
    step items (delete [rowType; id] items).

(** No two stored items carry the same parent and label. *)
Definition uniqueChildLabels (items : gmap (list string) Item) : Prop :=
  ∀ key1 key2 item1 item2 parentID label,
    items !! key1 = Some item1 → items !! key2 = Some item2 →
    item1 !! "parent_id" = Some (S_ parentID) → item1 !! "label" = Some (S_ label) →
    item2 !! "parent_id" = Some (S_ parentID) → item2 !! "label" = Some (S_ label) →
    key1 = key2.

(** Every value of a columns mapping is a string or a [[]string]. *)
Definition supportedColumns (columns : gmap string iface) : Prop :=
  map_Forall (λ _ v, supportedKind v = true) columns.

(** The row [r] with other columns. *)
Definition withColumns (r : row) (columns : gmap string iface) : row :=
  {| RowType := RowType r; RowID := RowID r; RowLabel := RowLabel r;
     RowParentID := RowParentID r; RowColumns := columns |}.

(** *** A worked scenario *)

Module demo.

Definition client : Client refstore.World :=
  refClient "us-west-2" "tree" "arn:aws:kms:us-west-2:000000000000:key/k".

(** No tables yet; the random source yields 3, 10, 17, ... *)
Definition w0 : refstore.World :=
  {| refstore.tables := ∅;
     refstore.randSrc := λ n, Z.of_nat (7 * n + 3);
     refstore.randPos := 0 |}.

Definition run {A} (c : St refstore.World A) (w : refstore.World) : refstore.World :=
  (c w).2.

(** After [NewClient]. *)
Definition w1 : refstore.World :=
  run (NewClient (Config := unit) (λ _ _, Ok tt) (λ _, refstore.api)
         "default" "us-west-2" "tree" "arn:aws:kms:us-west-2:000000000000:key/k") w0.

(** After [CreateRow("organization", "acme")]. *)
Definition w2 : refstore.World :=
  run (CreateRow refstore.rand_Int63 client "organization" "acme") w1.

Definition orgID : string := "organization_dkryfmtaho".

Definition teamColumns : gmap string iface :=
  {[ "owner" := iface_string "ops";
     "tags" := iface_strings ["a"; "b"];
     "size" := iface_int 5 ]}.

(** After [CreateChild("team", "product", "organization", orgID, teamColumns)]. *)
Definition w3 : refstore.World :=
  run (CreateChild refstore.rand_Int63 client "team" "product" "organization" orgID
         teamColumns) w2.

Definition teamID : string := "team_vcjqxelszg".

(** The two items stored by then, and the table contents after [w2] and
    after [w3]. *)
Definition orgItem : Item := rootItem "organization" orgID "acme".

Definition teamItem : Item := childItem "team" teamID "product" orgID teamColumns.

Definition items2 : gmap (list string) Item :=
  {[ ["organization"; orgID] := orgItem ]}.

Definition items3 : gmap (list string) Item :=
  <[ ["team"; teamID] := teamItem ]> items2.

(** An existence check refused for lack of permission: an HTTP 400
    response that is not a table-not-found response. *)
Definition accessDenied : error := refstore.serviceError "AccessDeniedException".

End demo.

(** *** The scenario, continued *)

Module tour.

(** The team's columns, of supported kinds only. *)
Definition ownerColumns : gmap string iface :=
  {[ "owner" := iface_string "ops"; "tags" := iface_strings ["a"; "b"] ]}.



(** Calls on the freshly provisioned table, some of which fail. *)
Definition calls : list Call :=
  [ CallCreateRow "organization" "acme";
    CallCreateChild "team" "product" "organization" demo.orgID demo.teamColumns;
    CallCreateChild "team" "product" "organization" demo.orgID ∅;
    CallUpdateRow "team" demo.teamID "billing";
    CallUpdateChild "team" "team_ghost" "billing" "organization" demo.orgID;
    CallUpdateColumn "team" demo.teamID "owner" (iface_string "dev");
    CallUpdateColumns "team" "team_ghost" {[ "tags" := iface_strings ["x"] ]};
    CallDeleteRow "organization" "team" demo.orgID;
    CallDeleteRow "team" "" "team_ghost" ].

End tour.

(** ** The provider (package [provider])

    [Configure], the one caller of [NewClient].  Of the plugin framework
    it uses: [types.String] with its unknown and null states;
    [diag.Diagnostics], a list to which [Append] adds a diagnostic unless
    an equal one is already there, and whose [HasError] looks for one of
    error severity; and [req.Config.Get], which decodes the configuration
    into the model and returns diagnostics (its outcome is an input
    here).  [tflog.SetField] only decorates the logging context and is
    left out. *)

Module provider.

Definition providerAttrAWSProfile := "profile".
Definition providerAttrAWSRegion := "region".
Definition providerAttrTableName := "table_name".
Definition providerAttrKeyARN := "kms_key_arn".

Inductive types_String : Type :=
| StringNull
| StringUnknown
| StringValue (value : string).

Definition IsUnknown (s : types_String) : bool :=
  match s with StringUnknown => true | _ => false end.

(** [ValueString]: the empty string for a null or unknown value. *)
Definition ValueString (s : types_String) : string :=
  match s with StringValue value => value | _ => "" end.

Record treeProviderModel := {
  AWSProfile : types_String;
  AWSRegion : types_String;
  TableName : types_String;
  KMSKeyARN : types_String;
}.

Inductive Severity := SeverityError | SeverityWarning.

(** A diagnostic; [AttributePath] is [path.Root(name)] for an attribute
    diagnostic. *)
Record Diagnostic := {
  Severity_ : Severity;
  Summary : string;
  Detail : string;
  AttributePath : option string;
}.

#[global] Instance Severity_eq_dec : EqDecision Severity.
Proof. solve_decision. Defined.

#[global] Instance Diagnostic_eq_dec : EqDecision Diagnostic.
Proof. solve_decision. Defined.

Abbreviation Diagnostics := (list Diagnostic).

Definition HasError (diags : Diagnostics) : bool :=
  existsb (λ d, bool_decide (Severity_ d = SeverityError)) diags.

Definition Append (diags new : Diagnostics) : Diagnostics :=
  foldl (λ acc d, if bool_decide (d ∈ acc) then acc else (acc ++ [d])%list) diags new.

Definition AddAttributeError (diags : Diagnostics) (path summary detail : string)
    : Diagnostics :=
  Append diags [ {| Severity_ := SeverityError; Summary := summary; Detail := detail;
                    AttributePath := Some path |} ].

Definition AddError (diags : Diagnostics) (summary detail : string) : Diagnostics :=
  Append diags [ {| Severity_ := SeverityError; Summary := summary; Detail := detail;
                    AttributePath := None |} ].

(** [provider.ConfigureRequest], as far as [Configure] reads it: what
    [req.Config.Get(ctx, &config)] yields. *)
Record ConfigureRequest := {
  Config_Get : treeProviderModel * Diagnostics;
}.

Record ConfigureResponse (C : Type) := {
  DataSourceData : option C;
  ResourceData : option C;
  resp_Diagnostics : Diagnostics;
}.
Arguments DataSourceData {C}.
Arguments ResourceData {C}.
Arguments resp_Diagnostics {C}.

Definition newline : string := String (ascii_of_nat 10) EmptyString.

Section Configure.
Context {W Config : Type}.
Variable config_LoadDefaultConfig : string → string → result Config.
Variable dynamodb_NewFromConfig : Config → dynamodb_Client W.
(** [err.Error()]. *)
Variable error_Error : error → string.

Definition setDiagnostics (resp : ConfigureResponse (Client W)) (diags : Diagnostics)
    : ConfigureResponse (Client W) :=
  {| DataSourceData := DataSourceData resp;
     ResourceData := ResourceData resp;
     resp_Diagnostics := diags |}.

Definition Configure (req : ConfigureRequest) (resp : ConfigureResponse (Client W))
    : W → ConfigureResponse (Client W) * W :=
  λ w,
  let '(config, diags) := Config_Get req in
  let d := Append (resp_Diagnostics resp) diags in
  if HasError d then (setDiagnostics resp d, w) else
  let d :=
    if IsUnknown (AWSProfile config) then
      AddAttributeError d providerAttrAWSProfile "Unknown profile"
        "Cannot configure the provider client with an unknown profile."
    else d in
  let d :=
    if IsUnknown (AWSRegion config) then
      AddAttributeError d providerAttrAWSRegion "Unknown region"
        "Cannot configure the provider client with an unknown region."
    else d in
  let d :=
    if IsUnknown (TableName config) then
      AddAttributeError d providerAttrTableName "Unknown table name"
        "Cannot configure the provider client with an unknown DynamoDB storage table name."
    else d in
  let d :=
    if IsUnknown (KMSKeyARN config) then
      AddAttributeError d providerAttrKeyARN "Unknown KMS Key ARN"
        "Cannot configure the provider client with an unknown KMS Key ARN."
    else d in
  if HasError d then (setDiagnostics resp d, w) else
  let '(created, w') :=
    NewClient config_LoadDefaultConfig dynamodb_NewFromConfig
      (ValueString (AWSProfile config)) (ValueString (AWSRegion config))
      (ValueString (TableName config)) (ValueString (KMSKeyARN config)) w in
  let '(client, d) :=
    match created with
    | Ok client => (Some client, d)
    | Err err =>
        (None,
         AddError d "Unable to create provider client"
           ("An unexpected error occurred when creating the provider client."
            ++ newline ++ newline ++ error_Error err))
    end in
  if HasError d then (setDiagnostics resp d, w') else
  ({| DataSourceData := client; ResourceData := client; resp_Diagnostics := d |}, w').

End Configure.

End provider.

(** * Proofs *)

(** Closed goals over the worked scenario are settled by evaluation. *)
Ltac by_computation := vm_compute; reflexivity.
Ltac decide_by_computation := apply (bool_decide_unpack _); vm_compute; exact I.

(** ** Properties of the row store, for any datastore *)

Section AnyDatastore.
Context {W : Type}.
Implicit Types (client : Client W) (w : W).

Lemma bind_Ok {A B} (c : St W A) (k : A → St W B) w a w1 :
  c w = (Ok a, w1) → bind c k w = k a w1.
Proof. intros H. unfold bind. by rewrite H. Qed.

Lemma bind_Err {A B} (c : St W A) (k : A → St W B) w e w1 :
  c w = (Err e, w1) → bind c k w = (Err e, w1).
Proof. intros H. unfold bind. by rewrite H. Qed.

Lemma attempt_run {A} (c : St W A) w r w1 :
  c w = (r, w1) → attempt c w = (Ok r, w1).
Proof. intros H. unfold attempt. by rewrite H. Qed.

(** What [GetRow] makes of the answer of its index query. *)
Lemma GetRow_of_items client rowType label w out items w1 :
  Query (ddb client) (queryByTypeAndLabel client rowType label) w = (Ok out, w1) →
  queryItems out = Ok items →
  GetRow client rowType label w =
    (match items with
     | [] => Err (Errorf "%w: type %q and label %q" [rowType; label] ErrNotFoundRow)
     | [item] => itemToRow item
     | _ => Err (Errorf "%w: type %q and label %q" [rowType; label] ErrTooManyFound)
     end, w1).
Proof.
  intros HQ Hitems. unfold GetRow.
  rewrite (bind_Ok _ _ _ _ _ HQ).
  unfold bind at 1, lift. rewrite Hitems.
  destruct items as [|item [|item' rest]]; reflexivity.
Qed.

(** What [GetChild] makes of the answer of its index query. *)
Lemma GetChild_of_items client label parentID w out items w1 :
  Query (ddb client) (queryByParentAndLabel client parentID label) w = (Ok out, w1) →
  queryItems out = Ok items →
  GetChild client label parentID w =
    (match items with
     | [] => Err (Errorf "%w with parent ID %q and label %q" [parentID; label] ErrNotFoundRow)
     | [item] => itemToRow item
     | _ => Err (Errorf "%w: parent ID %q and label %q" [parentID; label] ErrTooManyFound)
     end, w1).
Proof.
  intros HQ Hitems. unfold GetChild.
  rewrite (bind_Ok _ _ _ _ _ HQ).
  unfold bind at 1, lift. rewrite Hitems.
  destruct items as [|item [|item' rest]]; reflexivity.
Qed.

Lemma ListRows_unfold client rowType labelFilter parentIDFilter :
  ListRows client rowType labelFilter parentIDFilter =
    (do output <~ Query (ddb client)
                    (listRowsInput client rowType labelFilter parentIDFilter) ;;
     do items <~ lift (queryItems output) ;;
     lift (itemsToRows items)).
Proof.
  unfold ListRows, listRowsInput.
  destruct (bool_decide (labelFilter ≠ "")), (bool_decide (parentIDFilter ≠ ""));
    reflexivity.
Qed.

Lemma ListRows_of_items client rowType labelFilter parentIDFilter w out items w1 :
  Query (ddb client) (listRowsInput client rowType labelFilter parentIDFilter) w
    = (Ok out, w1) →
  queryItems out = Ok items →
  ListRows client rowType labelFilter parentIDFilter w = (itemsToRows items, w1).
Proof.
  intros HQ Hitems. rewrite ListRows_unfold.
  rewrite (bind_Ok _ _ _ _ _ HQ).
  unfold bind, lift. rewrite Hitems. by destruct (itemsToRows items).
Qed.

(** The three ways [createTableIfNotExists] ends. *)
Lemma createTableIfNotExists_exists client w w1 :
  DescribeTable (ddb client) {| dt_TableName := tableName client |} w = (Ok tt, w1) →
  createTableIfNotExists client w = (Ok tt, w1).
Proof.
  intros HD. unfold createTableIfNotExists.
  by rewrite (bind_Ok _ _ _ _ _ (attempt_run _ _ _ _ HD)).
Qed.

Lemma createTableIfNotExists_no_response client w err w1 :
  DescribeTable (ddb client) {| dt_TableName := tableName client |} w = (Err err, w1) →
  errors_As_ResponseError err = None ∨ errors_As_ResponseError err = Some None →
  createTableIfNotExists client w = (Err err, w1).
Proof.
  intros HD Has. unfold createTableIfNotExists.
  rewrite (bind_Ok _ _ _ _ _ (attempt_run _ _ _ _ HD)).
  by destruct Has as [-> | ->].
Qed.

Lemma createTableIfNotExists_response client w err response w1 :
  DescribeTable (ddb client) {| dt_TableName := tableName client |} w = (Err err, w1) →
  errors_As_ResponseError err = Some (Some response) →
  createTableIfNotExists client w =
    CreateTable (ddb client) (createTableInput client) w1.
Proof.
  intros HD Has. unfold createTableIfNotExists.
  rewrite (bind_Ok _ _ _ _ _ (attempt_run _ _ _ _ HD)).
  by rewrite Has.
Qed.

(** The outcome of a single-row getter as a function of the matches. *)
Lemma one_match_cases (notFound tooMany : error) (matches : list Item) w1
    (run : result row * W) :
  run = (match matches with
         | [] => Err notFound
         | [item] => itemToRow item
         | _ => Err tooMany
         end, w1) →
  (length matches = 0%nat → run = (Err notFound, w1)) ∧
  ((1 < length matches)%nat → run = (Err tooMany, w1)) ∧
  (∀ item, matches = [item] → run = (itemToRow item, w1)) ∧
  (∀ r w', run = (Ok r, w') → ∃ item, matches = [item] ∧ itemToRow item = Ok r).
Proof.
  intros ->. destruct matches as [|item [|item' rest]]; cbn [length].
  - split; [done|]. split; [lia|]. split; discriminate.
  - split; [discriminate|]. split; [lia|]. split.
    + by intros ? [= <-].
    + intros r w' [= Hr _]. eauto.
  - split; [discriminate|]. split; [done|]. split; discriminate.
Qed.

End AnyDatastore.

Lemma errors_Is_Errorf format args target :
  errors_Is (Errorf format args target) target = true.
Proof.
  cbn [errors_Is]. apply orb_true_iff. right.
  destruct target; cbn [errors_Is]; by rewrite bool_decide_eq_true_2.
Qed.

(** C8.  [GetRow] and [GetChild] return a row exactly when their index
    query answers with exactly one item (the row is that item, converted);
    with no item they fail with an error wrapping [ErrNotFoundRow], with
    more than one with an error wrapping [ErrTooManyFound].  This holds
    for every datastore: [matches1] and [matches2] are whatever the
    type/label and the parent/label queries return. *)
Theorem C8_exactly_one {W} (client : Client W) rowType label childLabel parentID
    (w w1 w2 : W) out1 out2 matches1 matches2 :
  Query (ddb client) (queryByTypeAndLabel client rowType label) w = (Ok out1, w1) →
  queryItems out1 = Ok matches1 →
  Query (ddb client) (queryByParentAndLabel client parentID childLabel) w = (Ok out2, w2) →
  queryItems out2 = Ok matches2 →
  ((length matches1 = 0%nat →
      ∃ e, GetRow client rowType label w = (Err e, w1) ∧ errors_Is e ErrNotFoundRow = true) ∧
   ((1 < length matches1)%nat →
      ∃ e, GetRow client rowType label w = (Err e, w1) ∧ errors_Is e ErrTooManyFound = true) ∧
   (∀ item, matches1 = [item] → GetRow client rowType label w = (itemToRow item, w1)) ∧
   (∀ r w', GetRow client rowType label w = (Ok r, w') →
      ∃ item, matches1 = [item] ∧ itemToRow item = Ok r))
  ∧
  ((length matches2 = 0%nat →
      ∃ e, GetChild client childLabel parentID w = (Err e, w2) ∧
           errors_Is e ErrNotFoundRow = true) ∧
   ((1 < length matches2)%nat →
      ∃ e, GetChild client childLabel parentID w = (Err e, w2) ∧
           errors_Is e ErrTooManyFound = true) ∧
   (∀ item, matches2 = [item] →
      GetChild client childLabel parentID w = (itemToRow item, w2)) ∧
   (∀ r w', GetChild client childLabel parentID w = (Ok r, w') →
      ∃ item, matches2 = [item] ∧ itemToRow item = Ok r)).
Proof.
  intros HQ1 Hm1 HQ2 Hm2. split.
  - destruct (one_match_cases _ _ _ _ _ (GetRow_of_items _ _ _ _ _ _ _ HQ1 Hm1))
      as (H0 & Hmany & H1 & Hok).
    split; [|split; [|by split]].
    + intros Hlen. eexists. split; [by apply H0 | apply errors_Is_Errorf].
    + intros Hlen. eexists. split; [by apply Hmany | apply errors_Is_Errorf].
  - destruct (one_match_cases _ _ _ _ _ (GetChild_of_items _ _ _ _ _ _ _ HQ2 Hm2))
      as (H0 & Hmany & H1 & Hok).
    split; [|split; [|by split]].
    + intros Hlen. eexists. split; [by apply H0 | apply errors_Is_Errorf].
    + intros Hlen. eexists. split; [by apply Hmany | apply errors_Is_Errorf].
Qed.

Lemma C8_exactly_one_witness :
  GetRow demo.client "organization" "acme" demo.w3 = (itemToRow demo.orgItem, demo.w3) ∧
  GetChild demo.client "product" demo.orgID demo.w3 = (itemToRow demo.teamItem, demo.w3).
Proof.
  assert (Query (ddb demo.client)
            (queryByTypeAndLabel demo.client "organization" "acme") demo.w3
          = (Ok (Some {| Items := Some [demo.orgItem] |}), demo.w3)) as HQ1 by by_computation.
  assert (Query (ddb demo.client)
            (queryByParentAndLabel demo.client demo.orgID "product") demo.w3
          = (Ok (Some {| Items := Some [demo.teamItem] |}), demo.w3)) as HQ2 by by_computation.
  pose proof (C8_exactly_one demo.client "organization" "acme" "product" demo.orgID
                demo.w3 demo.w3 demo.w3 _ _ [demo.orgItem] [demo.teamItem]
                HQ1 eq_refl HQ2 eq_refl) as [(_ & _ & H1 & _) (_ & _ & H2 & _)].
  split; [exact (H1 _ eq_refl) | exact (H2 _ eq_refl)].
Defined.

(** *** Store construction *)

Section StoreConstruction.
Context {W Config : Type}.
Variable config_LoadDefaultConfig : string → string → result Config.
Variable dynamodb_NewFromConfig : Config → dynamodb_Client W.

Lemma NewClient_run profile region tableName keyARN cfg w :
  config_LoadDefaultConfig profile region = Ok cfg →
  NewClient config_LoadDefaultConfig dynamodb_NewFromConfig profile region tableName keyARN w
  = match createTableIfNotExists
            {| region := region; tableName := tableName; keyARN := keyARN;
               ddb := dynamodb_NewFromConfig cfg |} w with
    | (Ok _, w1) =>
        (Ok {| region := region; tableName := tableName; keyARN := keyARN;
               ddb := dynamodb_NewFromConfig cfg |}, w1)
    | (Err e, w1) => (Err e, w1)
    end.
Proof.
  intros Hcfg. unfold NewClient, bind, lift, ret. rewrite Hcfg.
  by destruct (createTableIfNotExists _ w) as [[[]|e] w1].
Qed.

End StoreConstruction.

(** C6, amended.  During store construction the ensure-table-exists
    operation returns successfully without creating anything when the
    existence check succeeds; a failure of the existence check that
    carries no HTTP response is fatal: it aborts store construction
    without attempting to create the table (the world is the one the
    check left); a failure with HTTP status 400 is taken for a missing
    table, whatever its error code, and is followed by the attempt to
    create the table. *)
Theorem C6_ensure_table {W Config : Type}
    (config_LoadDefaultConfig : string → string → result Config)
    (dynamodb_NewFromConfig : Config → dynamodb_Client W)
    (profile region tableName keyARN : string) (cfg : Config) (w : W) :
  config_LoadDefaultConfig profile region = Ok cfg →
  let client := {| region := region; tableName := tableName; keyARN := keyARN;
                   ddb := dynamodb_NewFromConfig cfg |} in
  let describe := DescribeTable (ddb client) {| dt_TableName := tableName |} w in
  let construct :=
    NewClient config_LoadDefaultConfig dynamodb_NewFromConfig
      profile region tableName keyARN w in
  (∀ w1, describe = (Ok tt, w1) →
         createTableIfNotExists client w = (Ok tt, w1) ∧ construct = (Ok client, w1))
  ∧ (∀ err w1, describe = (Err err, w1) →
       errors_As_ResponseError err = None ∨ errors_As_ResponseError err = Some None →
       createTableIfNotExists client w = (Err err, w1) ∧ construct = (Err err, w1))
  ∧ (∀ err w1 response, describe = (Err err, w1) →
       errors_As_ResponseError err = Some (Some response) →
       StatusCode response = http_StatusBadRequest →
       createTableIfNotExists client w
       = CreateTable (ddb client) (createTableInput client) w1).
Proof.
  intros Hcfg client describe construct. subst construct describe.
  rewrite (NewClient_run _ _ _ _ _ _ _ _ Hcfg). fold client. split; [|split].
  - intros w1 HD. by rewrite (createTableIfNotExists_exists client _ _ HD).
  - intros err w1 HD Has.
    by rewrite (createTableIfNotExists_no_response client _ _ _ HD Has).
  - intros err w1 response HD Has _.
    apply (createTableIfNotExists_response client _ _ _ _ HD Has).
Qed.

Lemma C6_ensure_table_witness :
  createTableIfNotExists demo.client demo.w1 = (Ok tt, demo.w1) ∧
  NewClient (Config := unit) (λ _ _, Ok tt) (λ _, refstore.api)
    "default" "us-west-2" "tree" "arn:aws:kms:us-west-2:000000000000:key/k" demo.w1
  = (Ok demo.client, demo.w1).
Proof.
  refine (proj1 (C6_ensure_table (Config := unit) (λ _ _, Ok tt) (λ _, refstore.api)
            "default" "us-west-2" "tree" "arn:aws:kms:us-west-2:000000000000:key/k"
            tt demo.w1 eq_refl) demo.w1 _).
  vm_compute. reflexivity.
Defined.

(** C6 as stated fails: an existence check refused with HTTP 400
    [AccessDeniedException], which is not a table-not-found response, does
    not abort store construction; the table is created and the store is
    returned. *)
Lemma C6_other_failure_still_creates :
  errors_Is demo.accessDenied refstore.ResourceNotFoundException = false ∧
  refstore.tables demo.w0 !! "tree" = None ∧
  let '(r, w') :=
    NewClient (Config := unit) (λ _ _, Ok tt) (λ _, failingDescribe demo.accessDenied)
      "default" "us-west-2" "tree" "arn:aws:kms:us-west-2:000000000000:key/k" demo.w0 in
  is_Ok r = true ∧ is_Some (refstore.tables w' !! "tree").
Proof.
  split; [vm_compute; reflexivity|]. split; [vm_compute; reflexivity|].
  vm_compute. split; [reflexivity | eexists; reflexivity].
Qed.

(** ** Properties of the reference datastore *)

Lemma av_eqb_S a s : av_eqb a (S_ s) = true ↔ a = S_ s.
Proof.
  destruct a; simpl; try (split; [discriminate | congruence]).
  rewrite bool_decide_eq_true. split; congruence.
Qed.

Lemma append_nil_l (s : string) : "" ++ s = s.
Proof. reflexivity. Qed.

Lemma append_cons (c : ascii) (s t : string) : String c s ++ t = String c (s ++ t).
Proof. reflexivity. Qed.

Lemma prefix_nil (s : string) : String.prefix "" s = true.
Proof. by destruct s. Qed.

Lemma prefix_cons (c d : ascii) (sub s : string) :
  String.prefix (String c sub) (String d s) =
  if Ascii.ascii_dec c d then String.prefix sub s else false.
Proof. reflexivity. Qed.

Lemma prefix_spec sub s : String.prefix sub s = true ↔ ∃ post, s = sub ++ post.
Proof.
  revert s. induction sub as [|c sub IH]; intros s.
  - rewrite prefix_nil. split; [intros _; by exists s | done].
  - destruct s as [|d s].
    + split; [discriminate | intros [post H]; discriminate].
    + rewrite prefix_cons. destruct (Ascii.ascii_dec c d) as [->|Hne].
      * rewrite IH. split; intros [post H]; exists post.
        -- by rewrite append_cons, H.
        -- rewrite append_cons in H. by injection H.
      * split; [discriminate |].
        intros [post H]. rewrite append_cons in H. injection H. congruence.
Qed.

Lemma is_substring_spec sub s :
  is_substring sub s = true ↔ ∃ pre post, s = pre ++ sub ++ post.
Proof.
  induction s as [|c s IH]; cbn [is_substring].
  - rewrite orb_false_r, prefix_spec. split.
    + intros [post H]. by exists "", post.
    + intros [pre [post H]]. destruct pre; [by exists post | discriminate].
  - rewrite orb_true_iff, prefix_spec, IH. split.
    + intros [[post H] | [pre [post H]]].
      * by exists "", post.
      * exists (String c pre), post. by rewrite append_cons, H.
    + intros [pre [post H]]. destruct pre as [|d pre].
      * left. by exists post.
      * right. exists pre, post. rewrite append_cons in H. by injection H.
Qed.

Lemma elem_of_select ix input items item :
  item ∈ refstore.select ix input items ↔
  ∃ key, items !! key = Some item ∧ refstore.selected ix input item = true.
Proof.
  unfold refstore.select. rewrite list_elem_of_fmap. split.
  - intros [[key v] [-> Hin]]. apply elem_of_map_to_list in Hin.
    apply map_lookup_filter_Some in Hin as [Hl Hs]. by exists key.
  - intros [key [Hl Hs]]. exists (key, item). split; [done|].
    apply elem_of_map_to_list, map_lookup_filter_Some. done.
Qed.

Lemma select_nil ix input items :
  refstore.select ix input items = [] ↔
  ∀ key item, items !! key = Some item → refstore.selected ix input item = false.
Proof.
  split.
  - intros Hnil key item Hl. destruct (refstore.selected ix input item) eqn:Hs; [|done].
    assert (item ∈ refstore.select ix input items) as Hin
      by (apply elem_of_select; eauto).
    rewrite Hnil in Hin. by apply elem_of_nil in Hin.
  - intros Hall. destruct (refstore.select ix input items) as [|item rest] eqn:Hsel; [done|].
    assert (item ∈ refstore.select ix input items) as Hin by (rewrite Hsel; left).
    apply elem_of_select in Hin as [key [Hl Hs]]. rewrite (Hall _ _ Hl) in Hs. done.
Qed.

Lemma select_insert_fresh ix input items key item :
  refstore.select ix input items = [] →
  refstore.selected ix input item = true →
  refstore.select ix input (<[key := item]> items) = [item].
Proof.
  intros Hnil Hs. unfold refstore.select in *.
  apply fmap_nil_inv in Hnil. apply map_to_list_empty_iff in Hnil.
  rewrite map_filter_insert_True by done. rewrite Hnil.
  rewrite insert_empty, map_to_list_singleton. done.
Qed.

Lemma keyOf_primaryKey rowType id :
  refstore.keyOf tableKeySchema (primaryKey rowType id) = Some [rowType; id].
Proof. vm_compute. reflexivity. Qed.

Lemma keyOf_table_spec item key :
  refstore.keyOf tableKeySchema item = Some key ↔
  ∃ t i, key = [t; i] ∧ item !! "type" = Some (S_ t) ∧ item !! "id" = Some (S_ i).
Proof.
  unfold tableKeySchema. cbn [refstore.keyOf keySchemaElement AttributeName].
  unfold storageKeyType, storageKeyID.
  destruct (item !! "type") as [[| t | |]|], (item !! "id") as [[| i | |]|];
    split; try discriminate; try (intros (? & ? & ? & ? & ?); discriminate).
  - intros [= <-]. eauto.
  - intros (t' & i' & -> & [= ->] & [= ->]). done.
Qed.

Section Provisioned.
Variables (client : Client refstore.World) (w : refstore.World).
Variable items : gmap (list string) Item.
Hypothesis Hprov : provisioned client w items.

Lemma GetItem_run rowType id :
  GetItem (ddb client)
    {| gi_TableName := tableName client;
       gi_Key := primaryKey rowType id;
       ConsistentRead := true |} w
  = (Ok {| go_Item := items !! [rowType; id] |}, w).
Proof.
  destruct Hprov as [Hapi Htab]. rewrite Hapi. cbn [GetItem refstore.api].
  unfold refstore.GetItem, refstore.withTable. cbn [gi_TableName gi_Key].
  rewrite Htab. cbn [provisionedTable refstore.tKeySchema refstore.tItems
    createTableInput ct_KeySchema].
  fold tableKeySchema. by rewrite keyOf_primaryKey.
Qed.

Lemma Query_run input ix :
  q_TableName input = tableName client →
  refstore.findIndex (q_IndexName input) (provisionedTable client items) = Some ix →
  refstore.resolves (q_ExpressionAttributeNames input) (q_ExpressionAttributeValues input)
    (KeyConditionExpression input) = true →
  from_option (refstore.resolves (q_ExpressionAttributeNames input)
                 (q_ExpressionAttributeValues input)) true (FilterExpression input) = true →
  Query (ddb client) input w
  = (Ok (Some {| Items := Some (refstore.select ix input items) |}), w).
Proof.
  intros Hname Hix Hkc Hf.
  destruct Hprov as [Hapi Htab]. rewrite Hapi. cbn [Query refstore.api].
  unfold refstore.Query, refstore.withTable. rewrite Hname, Htab, Hix, Hkc, Hf.
  reflexivity.
Qed.

End Provisioned.

Lemma evalExpr_EEq names values item n v name s :
  names !! n = Some name → values !! v = Some (S_ s) →
  refstore.evalExpr names values item (EEq n v) = true ↔ item !! name = Some (S_ s).
Proof.
  intros Hn Hv. cbn [refstore.evalExpr]. unfold refstore.attr. rewrite Hn, Hv.
  destruct (item !! name) as [a|]; [|split; discriminate].
  rewrite av_eqb_S. split; congruence.
Qed.

Lemma evalExpr_EAnd names values item e1 e2 :
  refstore.evalExpr names values item (EAnd e1 e2) = true ↔
  refstore.evalExpr names values item e1 = true ∧
  refstore.evalExpr names values item e2 = true.
Proof. cbn [refstore.evalExpr]. apply andb_true_iff. Qed.

Lemma keyOf_one a kt item x :
  item !! a = Some (S_ x) →
  refstore.keyOf [keySchemaElement a kt] item = Some [x].
Proof. intros H. cbn [refstore.keyOf keySchemaElement AttributeName]. by rewrite H. Qed.

Lemma keyOf_two a b kt1 kt2 item x y :
  item !! a = Some (S_ x) → item !! b = Some (S_ y) →
  refstore.keyOf [keySchemaElement a kt1; keySchemaElement b kt2] item = Some [x; y].
Proof.
  intros Ha Hb. cbn [refstore.keyOf keySchemaElement AttributeName]. by rewrite Ha, Hb.
Qed.

Lemma selected_ByTypeAndLabel (client : Client refstore.World) rowType label item :
  refstore.selected indexByTypeAndLabel (queryByTypeAndLabel client rowType label) item = true ↔
  item !! "type" = Some (S_ rowType) ∧ item !! "label" = Some (S_ label).
Proof.
  unfold refstore.selected.
  cbn [queryByTypeAndLabel indexByTypeAndLabel ix_KeySchema q_ExpressionAttributeNames
       q_ExpressionAttributeValues KeyConditionExpression FilterExpression
       refstore.evalFilter].
  rewrite andb_true_r, andb_true_iff, bool_decide_eq_true, evalExpr_EAnd.
  rewrite (evalExpr_EEq _ _ _ "#type" ":type" "type" rowType) by by_computation.
  rewrite (evalExpr_EEq _ _ _ "#label" ":label" "label" label) by by_computation.
  split; [tauto|]. intros [Ht Hl]. split; [|done].
  by rewrite (keyOf_two _ _ _ _ _ _ _ Ht Hl).
Qed.

Lemma selected_ByParentAndLabel (client : Client refstore.World) parentID label item :
  refstore.selected indexByParentAndLabel (queryByParentAndLabel client parentID label) item
    = true ↔
  item !! "parent_id" = Some (S_ parentID) ∧ item !! "label" = Some (S_ label).
Proof.
  unfold refstore.selected.
  cbn [queryByParentAndLabel indexByParentAndLabel ix_KeySchema q_ExpressionAttributeNames
       q_ExpressionAttributeValues KeyConditionExpression FilterExpression
       refstore.evalFilter].
  rewrite andb_true_r, andb_true_iff, bool_decide_eq_true, evalExpr_EAnd.
  rewrite (evalExpr_EEq _ _ _ "#parent_id" ":parent_id" "parent_id" parentID)
    by by_computation.
  rewrite (evalExpr_EEq _ _ _ "#label" ":label" "label" label) by by_computation.
  split; [tauto|]. intros [Hp Hl]. split; [|done].
  by rewrite (keyOf_two _ _ _ _ _ _ _ Hp Hl).
Qed.

Lemma selected_ByTypeAndParent (client : Client refstore.World) childType id item :
  refstore.selected indexByTypeAndParent (queryByTypeAndParent client childType id) item
    = true ↔
  item !! "type" = Some (S_ childType) ∧ item !! "parent_id" = Some (S_ id).
Proof.
  unfold refstore.selected.
  cbn [queryByTypeAndParent indexByTypeAndParent ix_KeySchema q_ExpressionAttributeNames
       q_ExpressionAttributeValues KeyConditionExpression FilterExpression
       refstore.evalFilter].
  rewrite andb_true_r, andb_true_iff, bool_decide_eq_true, evalExpr_EAnd.
  rewrite (evalExpr_EEq _ _ _ "#type" ":type" "type" childType) by by_computation.
  rewrite (evalExpr_EEq _ _ _ "#parent_id" ":parent_id" "parent_id" id)
    by by_computation.
  split; [tauto|]. intros [Ht Hp]. split; [|done].
  by rewrite (keyOf_two _ _ _ _ _ _ _ Ht Hp).
Qed.

Section ProvisionedQueries.
Variables (client : Client refstore.World) (w : refstore.World).
Variable items : gmap (list string) Item.
Hypothesis Hprov : provisioned client w items.

Lemma Query_ByTypeAndLabel rowType label :
  Query (ddb client) (queryByTypeAndLabel client rowType label) w
  = (Ok (Some {| Items := Some (refstore.select indexByTypeAndLabel
                                   (queryByTypeAndLabel client rowType label) items) |}), w).
Proof. apply (Query_run _ _ _ Hprov); by_computation. Qed.

Lemma Query_ByParentAndLabel parentID label :
  Query (ddb client) (queryByParentAndLabel client parentID label) w
  = (Ok (Some {| Items := Some (refstore.select indexByParentAndLabel
                                   (queryByParentAndLabel client parentID label) items) |}), w).
Proof. apply (Query_run _ _ _ Hprov); by_computation. Qed.

Lemma Query_ByTypeAndParent childType id :
  Query (ddb client) (queryByTypeAndParent client childType id) w
  = (Ok (Some {| Items := Some (refstore.select indexByTypeAndParent
                                   (queryByTypeAndParent client childType id) items) |}), w).
Proof. apply (Query_run _ _ _ Hprov); by_computation. Qed.

Lemma Query_ByType rowType labelFilter parentIDFilter :
  Query (ddb client) (listRowsInput client rowType labelFilter parentIDFilter) w
  = (Ok (Some {| Items := Some (refstore.select indexByType
                   (listRowsInput client rowType labelFilter parentIDFilter) items) |}), w).
Proof.
  apply (Query_run _ _ _ Hprov); unfold listRowsInput;
    cbn [q_TableName q_IndexName q_ExpressionAttributeNames q_ExpressionAttributeValues
         KeyConditionExpression FilterExpression];
    destruct (bool_decide (labelFilter ≠ "")), (bool_decide (parentIDFilter ≠ ""));
    by_computation.
Qed.

End ProvisionedQueries.

Lemma provisioned_storeItems client w items items' :
  provisioned client w items → provisioned client (storeItems client w items') items'.
Proof.
  intros [Hapi _]. split; [done|]. unfold storeItems. cbn. apply lookup_insert_eq.
Qed.

Lemma wellFormed_lookup items key item :
  wellFormed items → items !! key = Some item →
  ∃ t i, key = [t; i] ∧ item !! "type" = Some (S_ t) ∧ item !! "id" = Some (S_ i).
Proof.
  intros Hwf Hl. destruct (Hwf _ _ Hl) as [Hk _]. by apply keyOf_table_spec.
Qed.

Lemma attr_lookup names item n name :
  names !! n = Some name → refstore.attr names item n = item !! name.
Proof. intros H. unfold refstore.attr. by rewrite H. Qed.

Section Conditions.
Variables (names : gmap string string) (values : gmap string AttributeValue).
Hypothesis Htype : names !! "#type" = Some "type".
Hypothesis Hid : names !! "#id" = Some "id".

Lemma resolves_keyAbsent : refstore.resolves names values keyAbsent = true.
Proof.
  cbn [keyAbsent refstore.resolves]. rewrite Htype, Hid.
  by rewrite !bool_decide_eq_true_2 by eauto.
Qed.

Lemma resolves_keyPresent : refstore.resolves names values keyPresent = true.
Proof.
  cbn [keyPresent refstore.resolves]. rewrite Htype, Hid.
  by rewrite !bool_decide_eq_true_2 by eauto.
Qed.

Lemma evalExpr_keyAbsent items key :
  wellFormed items →
  refstore.evalExpr names values (default ∅ (items !! key)) keyAbsent
  = bool_decide (items !! key = None).
Proof.
  intros Hwf. cbn [keyAbsent refstore.evalExpr].
  rewrite !(attr_lookup _ _ _ _ Htype), !(attr_lookup _ _ _ _ Hid). destruct (items !! key) as [item|] eqn:Hl; cbn [default from_option id].
  - destruct (wellFormed_lookup _ _ _ Hwf Hl) as (t & i & _ & Ht & Hi).
    rewrite Ht, Hi. rewrite !bool_decide_eq_true_2 by eauto.
    by rewrite bool_decide_eq_false_2.
  - rewrite !lookup_empty. rewrite !bool_decide_eq_false_2 by (intros [? ?]; done).
    by rewrite bool_decide_eq_true_2.
Qed.

Lemma evalExpr_keyPresent items key :
  wellFormed items →
  refstore.evalExpr names values (default ∅ (items !! key)) keyPresent
  = bool_decide (is_Some (items !! key)).
Proof.
  intros Hwf. cbn [keyPresent refstore.evalExpr].
  rewrite !(attr_lookup _ _ _ _ Htype), !(attr_lookup _ _ _ _ Hid). destruct (items !! key) as [item|] eqn:Hl; cbn [default from_option id].
  - destruct (wellFormed_lookup _ _ _ Hwf Hl) as (t & i & _ & Ht & Hi).
    rewrite Ht, Hi. by rewrite !bool_decide_eq_true_2 by eauto.
  - rewrite !lookup_empty. by rewrite !bool_decide_eq_false_2 by (intros [? ?]; done).
Qed.

End Conditions.

Lemma keyNames_type : keyNames !! "#type" = Some "type".
Proof. by_computation. Qed.
Lemma keyNames_id : keyNames !! "#id" = Some "id".
Proof. by_computation. Qed.

Section ProvisionedWrites.
Variables (client : Client refstore.World) (w : refstore.World).
Variable items : gmap (list string) Item.
Hypothesis Hprov : provisioned client w items.
Hypothesis Hwf : wellFormed items.

Lemma PutItem_run item key :
  refstore.keyOf tableKeySchema item = Some key →
  PutItem (ddb client)
    {| pi_TableName := tableName client;
       pi_Item := item;
       pi_ExpressionAttributeNames := keyNames;
       pi_ConditionExpression := keyAbsent |} w
  = if bool_decide (items !! key = None)
    then (Ok tt, storeItems client w (<[key := item]> items))
    else (Err refstore.ConditionalCheckFailedException, w).
Proof.
  intros Hkey. destruct Hprov as [Hapi Htab]. rewrite Hapi. cbn [PutItem refstore.api].
  unfold refstore.PutItem, refstore.withTable.
  cbn [pi_TableName pi_Item pi_ExpressionAttributeNames pi_ConditionExpression].
  rewrite Htab.
  cbn [provisionedTable refstore.tKeySchema refstore.tItems createTableInput ct_KeySchema].
  fold tableKeySchema. rewrite Hkey.
  rewrite (resolves_keyAbsent _ _ keyNames_type keyNames_id). cbn [negb].
  rewrite (evalExpr_keyAbsent _ _ keyNames_type keyNames_id _ _ Hwf).
  by destruct (bool_decide (items !! key = None)).
Qed.

Lemma DeleteItem_run rowType id :
  DeleteItem (ddb client)
    {| di_TableName := tableName client;
       di_Key := primaryKey rowType id;
       di_ExpressionAttributeNames := keyNames;
       di_ConditionExpression := keyPresent |} w
  = if bool_decide (is_Some (items !! [rowType; id]))
    then (Ok tt, storeItems client w (delete [rowType; id] items))
    else (Err refstore.ConditionalCheckFailedException, w).
Proof.
  destruct Hprov as [Hapi Htab]. rewrite Hapi. cbn [DeleteItem refstore.api].
  unfold refstore.DeleteItem, refstore.withTable.
  cbn [di_TableName di_Key di_ExpressionAttributeNames di_ConditionExpression].
  rewrite Htab.
  cbn [provisionedTable refstore.tKeySchema refstore.tItems createTableInput ct_KeySchema].
  fold tableKeySchema. rewrite keyOf_primaryKey.
  rewrite (resolves_keyPresent _ _ keyNames_type keyNames_id). cbn [negb].
  rewrite (evalExpr_keyPresent _ _ keyNames_type keyNames_id _ _ Hwf).
  by destruct (bool_decide (is_Some (items !! [rowType; id]))).
Qed.

End ProvisionedWrites.

(** ** The row store on the reference datastore: creation *)

Lemma randSeq_tables n w :
  refstore.tables (slug.randSeq refstore.rand_Int63 n w).2 = refstore.tables w.
Proof.
  revert w. induction n as [|n IH]; intros w; [done|].
  cbn [slug.randSeq]. unfold refstore.rand_Int63 at 1.
  destruct (slug.randSeq refstore.rand_Int63 n _) as [rest w2] eqn:Hrec.
  cbn [snd]. specialize (IH {| refstore.tables := refstore.tables w;
                               refstore.randSrc := refstore.randSrc w;
                               refstore.randPos := S (refstore.randPos w) |}).
  rewrite Hrec in IH. exact IH.
Qed.

Lemma randSeq_length n w :
  String.length (slug.randSeq refstore.rand_Int63 n w).1 = n.
Proof.
  revert w. induction n as [|n IH]; intros w; [done|].
  cbn [slug.randSeq]. unfold refstore.rand_Int63 at 1.
  destruct (slug.randSeq refstore.rand_Int63 n _) as [rest w2] eqn:Hrec.
  cbn [fst String.length]. f_equal.
  specialize (IH {| refstore.tables := refstore.tables w;
                    refstore.randSrc := refstore.randSrc w;
                    refstore.randPos := S (refstore.randPos w) |}).
  by rewrite Hrec in IH.
Qed.

Lemma Generate_run rowType w :
  slug.Generate refstore.rand_Int63 rowType w = (Ok (drawID rowType w), afterDraw w).
Proof.
  unfold slug.Generate, drawID, afterDraw.
  by destruct (slug.randSeq refstore.rand_Int63 10 w).
Qed.

Lemma provisioned_afterDraw client w items :
  provisioned client w items → provisioned client (afterDraw w) items.
Proof.
  intros [Hapi Htab]. split; [done|]. unfold afterDraw. by rewrite randSeq_tables.
Qed.

Lemma keyOf_rootItem rowType id label :
  refstore.keyOf tableKeySchema (rootItem rowType id label) = Some [rowType; id].
Proof. by_computation. Qed.

Lemma keyOf_childItem rowType id label parentID columns :
  refstore.keyOf tableKeySchema (childItem rowType id label parentID columns)
  = Some [rowType; id].
Proof.
  apply keyOf_two; unfold childItem; by simplify_map_eq.
Qed.

Lemma select_nonempty ix input items :
  (0 <? length (refstore.select ix input items))%nat = true ↔
  ∃ key item, items !! key = Some item ∧ refstore.selected ix input item = true.
Proof.
  rewrite Nat.ltb_lt. split.
  - intros Hlen. destruct (refstore.select ix input items) as [|item rest] eqn:Hsel;
      [cbn in Hlen; lia|].
    assert (item ∈ refstore.select ix input items) as Hin by (rewrite Hsel; left).
    apply elem_of_select in Hin as [key ?]. eauto.
  - intros (key & item & Hl & Hs).
    assert (item ∈ refstore.select ix input items) as Hin by (apply elem_of_select; eauto).
    destruct (refstore.select ix input items); [by apply elem_of_nil in Hin | cbn; lia].
Qed.

Lemma select_empty ix input items :
  (0 <? length (refstore.select ix input items))%nat = false ↔
  refstore.select ix input items = [].
Proof.
  rewrite Nat.ltb_ge. destruct (refstore.select ix input items); cbn; split; try done; lia.
Qed.

Lemma CreateRow_collision client w items rowType label :
  provisioned client w items →
  someItemWith items "type" rowType "label" label →
  CreateRow refstore.rand_Int63 client rowType label w = (Err ErrCollisionTypeLabel, w).
Proof.
  intros Hprov (key & item & Hl & Ht & Hlab). unfold CreateRow.
  rewrite (bind_Ok _ _ _ _ _ (Query_ByTypeAndLabel _ _ _ Hprov rowType label)).
  unfold bind at 1, lift. cbn [queryItems Items].
  assert ((0 <? length (refstore.select indexByTypeAndLabel
             (queryByTypeAndLabel client rowType label) items))%nat = true) as ->; [|done].
  apply select_nonempty. exists key, item. split; [done|].
  by apply selected_ByTypeAndLabel.
Qed.

Lemma CreateRow_fresh client w items rowType label :
  provisioned client w items → wellFormed items →
  ¬ someItemWith items "type" rowType "label" label →
  CreateRow refstore.rand_Int63 client rowType label w =
    if bool_decide (items !! [rowType; drawID rowType w] = None)
    then (Ok {| RowType := rowType; RowID := drawID rowType w; RowLabel := label;
                RowParentID := ""; RowColumns := ∅ |},
          storeItems client (afterDraw w)
            (<[[rowType; drawID rowType w] := rootItem rowType (drawID rowType w) label]> items))
    else (Err refstore.ConditionalCheckFailedException, afterDraw w).
Proof.
  intros Hprov Hwf Hnone. unfold CreateRow.
  rewrite (bind_Ok _ _ _ _ _ (Query_ByTypeAndLabel _ _ _ Hprov rowType label)).
  unfold bind at 1, lift. cbn [queryItems Items].
  assert ((0 <? length (refstore.select indexByTypeAndLabel
             (queryByTypeAndLabel client rowType label) items))%nat = false) as ->.
  { destruct (0 <? _)%nat eqn:Hlen; [|done]. exfalso. apply Hnone.
    apply select_nonempty in Hlen as (key & item & Hl & Hs).
    apply selected_ByTypeAndLabel in Hs as [Ht Hlab]. by exists key, item. }
  rewrite (bind_Ok _ _ _ _ _ (Generate_run rowType w)).
  pose proof (PutItem_run client (afterDraw w) items (provisioned_afterDraw _ _ _ Hprov) Hwf
                _ _ (keyOf_rootItem rowType (drawID rowType w) label)) as Hput.
  unfold bind. fold (rootItem rowType (drawID rowType w) label).
  change (EAnd (EAttributeNotExists "#type") (EAttributeNotExists "#id")) with keyAbsent.
  rewrite Hput. by destruct (bool_decide _).
Qed.

Lemma itemToRow_rootItem rowType id label :
  itemToRow (rootItem rowType id label) =
  Ok {| RowType := rowType; RowID := id; RowLabel := label;
        RowParentID := ""; RowColumns := ∅ |}.
Proof. by_computation. Qed.

Lemma drawID_shape rowType w :
  ∃ suffix, drawID rowType w = rowType ++ "_" ++ suffix ∧ String.length suffix = 10.
Proof. eexists. split; [reflexivity|]. apply randSeq_length. Qed.

Lemma provisioned_inj client w items items' :
  provisioned client w items → provisioned client w items' → items = items'.
Proof.
  intros [_ H1] [_ H2]. rewrite H1 in H2. by injection H2.
Qed.

(** C2.  [CreateRow] first queries the type/label index.  If some stored
    item has that type and label it fails with [ErrCollisionTypeLabel] and
    leaves the world as it was.  Otherwise it draws the identifier
    [type_suffix] (ten letters) and writes the new item under the
    condition that the primary key is absent: the row is stored and
    returned when the key is free, and the write is refused otherwise.
    The second of two calls in sequence fails with the collision error and
    leaves the world, the first row included, unchanged. *)
Theorem C2_CreateRow client w items rowType label :
  provisioned client w items → wellFormed items →
  let id := drawID rowType w in
  (someItemWith items "type" rowType "label" label →
     CreateRow refstore.rand_Int63 client rowType label w = (Err ErrCollisionTypeLabel, w))
  ∧ (¬ someItemWith items "type" rowType "label" label →
       (∃ suffix, id = rowType ++ "_" ++ suffix ∧ String.length suffix = 10) ∧
       (items !! [rowType; id] = None →
          CreateRow refstore.rand_Int63 client rowType label w =
            (Ok {| RowType := rowType; RowID := id; RowLabel := label;
                   RowParentID := ""; RowColumns := ∅ |},
             storeItems client (afterDraw w)
               (<[[rowType; id] := rootItem rowType id label]> items))) ∧
       (is_Some (items !! [rowType; id]) →
          CreateRow refstore.rand_Int63 client rowType label w =
            (Err refstore.ConditionalCheckFailedException, afterDraw w)))
  ∧ (∀ r w', CreateRow refstore.rand_Int63 client rowType label w = (Ok r, w') →
       CreateRow refstore.rand_Int63 client rowType label w' =
         (Err ErrCollisionTypeLabel, w')).
Proof.
  intros Hprov Hwf id. split; [|split].
  - by apply CreateRow_collision.
  - intros Hnone. pose proof (CreateRow_fresh _ _ _ _ _ Hprov Hwf Hnone) as Hrun.
    fold id in Hrun. split; [apply drawID_shape|]. split.
    + intros Hfree. by rewrite Hrun, bool_decide_eq_true_2.
    + intros [x Hx]. rewrite Hrun, bool_decide_eq_false_2; [done|]. by rewrite Hx.
  - intros r w' Hrun.
    assert (¬ someItemWith items "type" rowType "label" label) as Hnone.
    { intros Hsome. rewrite (CreateRow_collision _ _ _ _ _ Hprov Hsome) in Hrun.
      discriminate. }
    rewrite (CreateRow_fresh _ _ _ _ _ Hprov Hwf Hnone) in Hrun. fold id in Hrun.
    destruct (bool_decide _); [|discriminate]. injection Hrun as _ <-.
    eapply CreateRow_collision.
    + eapply provisioned_storeItems, provisioned_afterDraw, Hprov.
    + exists [rowType; id], (rootItem rowType id label). split; [apply lookup_insert_eq|].
      split; by_computation.
Qed.

Lemma C2_CreateRow_witness :
  provisioned demo.client demo.w1 ∅ ∧ wellFormed ∅ ∧
  CreateRow refstore.rand_Int63 demo.client "organization" "acme" demo.w2
  = (Err ErrCollisionTypeLabel, demo.w2).
Proof.
  assert (provisioned demo.client demo.w1 ∅) as Hprov
    by (split; [reflexivity | by_computation]).
  assert (wellFormed ∅) as Hwf by apply map_Forall_empty.
  split; [exact Hprov|]. split; [exact Hwf|].
  refine (proj2 (proj2 (C2_CreateRow demo.client demo.w1 ∅ "organization" "acme"
                          Hprov Hwf))
            {| RowType := "organization"; RowID := demo.orgID; RowLabel := "acme";
               RowParentID := ""; RowColumns := ∅ |} demo.w2 _).
  by_computation.
Defined.

Lemma PutItem_cases client w items item key :
  provisioned client w items →
  refstore.keyOf tableKeySchema item = Some key →
  PutItem (ddb client)
    {| pi_TableName := tableName client;
       pi_Item := item;
       pi_ExpressionAttributeNames := keyNames;
       pi_ConditionExpression := keyAbsent |} w
  = (Ok tt, storeItems client w (<[key := item]> items)) ∨
  ∃ e, PutItem (ddb client)
    {| pi_TableName := tableName client;
       pi_Item := item;
       pi_ExpressionAttributeNames := keyNames;
       pi_ConditionExpression := keyAbsent |} w = (Err e, w).
Proof.
  intros [Hapi Htab] Hkey. rewrite Hapi. cbn [PutItem refstore.api].
  unfold refstore.PutItem, refstore.withTable.
  cbn [pi_TableName pi_Item pi_ExpressionAttributeNames pi_ConditionExpression].
  rewrite Htab.
  cbn [provisionedTable refstore.tKeySchema refstore.tItems createTableInput ct_KeySchema].
  fold tableKeySchema. rewrite Hkey.
  rewrite (resolves_keyAbsent _ _ keyNames_type keyNames_id). cbn [negb].
  destruct (refstore.evalExpr _ _ _ _); [by left | right; by eexists].
Qed.

Lemma CreateRow_Ok_inv client w items rowType label r w' :
  provisioned client w items →
  CreateRow refstore.rand_Int63 client rowType label w = (Ok r, w') →
  refstore.select indexByTypeAndLabel (queryByTypeAndLabel client rowType label) items = [] ∧
  r = {| RowType := rowType; RowID := drawID rowType w; RowLabel := label;
         RowParentID := ""; RowColumns := ∅ |} ∧
  w' = storeItems client (afterDraw w)
         (<[[rowType; drawID rowType w] := rootItem rowType (drawID rowType w) label]> items).
Proof.
  intros Hprov. unfold CreateRow.
  rewrite (bind_Ok _ _ _ _ _ (Query_ByTypeAndLabel _ _ _ Hprov rowType label)).
  unfold bind at 1, lift. cbn [queryItems Items].
  destruct (0 <? _)%nat eqn:Hlen; [discriminate|].
  apply select_empty in Hlen.
  rewrite (bind_Ok _ _ _ _ _ (Generate_run rowType w)).
  unfold bind. fold (rootItem rowType (drawID rowType w) label).
  change (EAnd (EAttributeNotExists "#type") (EAttributeNotExists "#id")) with keyAbsent.
  destruct (PutItem_cases client (afterDraw w) items _ _
              (provisioned_afterDraw _ _ _ Hprov)
              (keyOf_rootItem rowType (drawID rowType w) label)) as [-> | [e ->]];
    [|discriminate].
  intros [= <- <-]. done.
Qed.

(** C7.  When [CreateRow(type, label)] succeeds with a row of identifier
    [i], [GetRow(type, label)] run in the resulting world succeeds with a
    row of the same identifier. *)
Theorem C7_GetRow_after_CreateRow client w items rowType label r w' :
  provisioned client w items →
  CreateRow refstore.rand_Int63 client rowType label w = (Ok r, w') →
  ∃ r', GetRow client rowType label w' = (Ok r', w') ∧ ID r' = ID r.
Proof.
  intros Hprov Hrun.
  destruct (CreateRow_Ok_inv _ _ _ _ _ _ _ Hprov Hrun) as (Hnil & -> & ->).
  set (id := drawID rowType w). set (item := rootItem rowType id label).
  assert (provisioned client (storeItems client (afterDraw w) (<[[rowType; id] := item]> items))
            (<[[rowType; id] := item]> items)) as Hprov'
    by (eapply provisioned_storeItems, provisioned_afterDraw, Hprov).
  eexists. split.
  - rewrite (GetRow_of_items _ _ _ _ _ _ _
               (Query_ByTypeAndLabel _ _ _ Hprov' rowType label) eq_refl).
    rewrite (select_insert_fresh _ _ _ _ _ Hnil).
    + unfold item. rewrite itemToRow_rootItem. reflexivity.
    + apply selected_ByTypeAndLabel. split; by_computation.
  - reflexivity.
Qed.

Lemma C7_GetRow_after_CreateRow_witness :
  provisioned demo.client demo.w1 ∅ ∧
  CreateRow refstore.rand_Int63 demo.client "organization" "acme" demo.w1
    = (Ok {| RowType := "organization"; RowID := demo.orgID; RowLabel := "acme";
             RowParentID := ""; RowColumns := ∅ |}, demo.w2) ∧
  ∃ r', GetRow demo.client "organization" "acme" demo.w2 = (Ok r', demo.w2) ∧
        ID r' = demo.orgID.
Proof.
  assert (provisioned demo.client demo.w1 ∅) as Hprov
    by (split; [reflexivity | vm_compute; reflexivity]).
  assert (CreateRow refstore.rand_Int63 demo.client "organization" "acme" demo.w1
    = (Ok {| RowType := "organization"; RowID := demo.orgID; RowLabel := "acme";
             RowParentID := ""; RowColumns := ∅ |}, demo.w2)) as Hrun
    by (vm_compute; reflexivity).
  split; [exact Hprov|]. split; [exact Hrun|].
  exact (C7_GetRow_after_CreateRow demo.client demo.w1 ∅ "organization" "acme" _ _
           Hprov Hrun).
Defined.

(** ** The row store on the reference datastore: children *)

Lemma itemToRow_Ok item r :
  itemToRow item = Ok r ↔
  decode_string "type" item = Ok (RowType r) ∧
  decode_string "id" item = Ok (RowID r) ∧
  decode_string "label" item = Ok (RowLabel r) ∧
  decode_string "parent_id" item = Ok (RowParentID r) ∧
  decode_columns "columns" item = Ok (RowColumns r).
Proof.
  unfold itemToRow, attributevalue_UnmarshalMap.
  destruct (decode_string "type" item), (decode_string "id" item),
    (decode_string "label" item), (decode_string "parent_id" item),
    (decode_columns "columns" item); destruct r; cbn;
    split; try discriminate; try (intros (? & ? & ? & ? & ?); discriminate).
  - intros [= -> -> -> -> ->]. done.
  - intros ([= ->] & [= ->] & [= ->] & [= ->] & [= ->]). done.
Qed.

Lemma decode_string_S field item s :
  item !! field = Some (S_ s) → decode_string field item = Ok s.
Proof. intros H. unfold decode_string. by rewrite H. Qed.

Lemma decode_string_Ok field item s :
  decode_string field item = Ok s →
  item !! field = Some (S_ s) ∨
  (s = "" ∧ (item !! field = None ∨ item !! field = Some AttributeValueNil)).
Proof.
  unfold decode_string. destruct (item !! field) as [[| s' | |]|]; try discriminate.
  - intros [= <-]. right. eauto.
  - intros [= <-]. by left.
  - intros [= <-]. right. eauto.
Qed.

Lemma wellFormed_row items t i item :
  wellFormed items → items !! [t; i] = Some item →
  ∃ r, itemToRow item = Ok r ∧ RowType r = t ∧ RowID r = i.
Proof.
  intros Hwf Hl. destruct (Hwf _ _ Hl) as [Hk Hok].
  apply keyOf_table_spec in Hk as (t' & i' & [= <- <-] & Ht & Hi).
  destruct (itemToRow item) as [r|] eqn:Hr; [|discriminate]. exists r. split; [done|].
  apply itemToRow_Ok in Hr as (Hrt & Hri & _).
  rewrite (decode_string_S _ _ _ Ht) in Hrt. rewrite (decode_string_S _ _ _ Hi) in Hri.
  split; congruence.
Qed.

Lemma GetRowByID_run client w items rowType id :
  provisioned client w items →
  GetRowByID client rowType id w =
    match items !! [rowType; id] with
    | None => (Err (Errorf "%w: %q" [id] ErrNotFoundRow), w)
    | Some item => (itemToRow item, w)
    end.
Proof.
  intros Hprov. unfold GetRowByID.
  rewrite (bind_Ok _ _ _ _ _ (GetItem_run _ _ _ Hprov rowType id)). cbn [go_Item].
  by destruct (items !! [rowType; id]).
Qed.

Lemma afterDraw_tables w : refstore.tables (afterDraw w) = refstore.tables w.
Proof. apply randSeq_tables. Qed.

Section CreateChildRuns.
Variables (client : Client refstore.World) (w : refstore.World).
Variable items : gmap (list string) Item.
Variables (rowType label parentType parentID : string) (columns : gmap string iface).
Hypothesis Hprov : provisioned client w items.

Lemma CreateChild_no_parent :
  items !! [parentType; parentID] = None →
  CreateChild refstore.rand_Int63 client rowType label parentType parentID columns w
  = (Err (Errorf "%w: %q" [parentID] ErrNotFoundRow), afterDraw w).
Proof.
  intros Hnone. unfold CreateChild.
  rewrite (bind_Ok _ _ _ _ _ (Generate_run rowType w)).
  apply bind_Err.
  rewrite (GetRowByID_run _ _ _ _ _ (provisioned_afterDraw _ _ _ Hprov)).
  by rewrite Hnone.
Qed.

Lemma CreateChild_with_parent pitem prow :
  items !! [parentType; parentID] = Some pitem → itemToRow pitem = Ok prow →
  CreateChild refstore.rand_Int63 client rowType label parentType parentID columns w
  = if (0 <? length (refstore.select indexByParentAndLabel
                       (queryByParentAndLabel client parentID label) items))%nat
    then (Err ErrCollisionParentLabel, afterDraw w)
    else
      match PutItem (ddb client)
              {| pi_TableName := tableName client;
                 pi_Item := childItem rowType (drawID rowType w) label parentID columns;
                 pi_ExpressionAttributeNames := keyNames;
                 pi_ConditionExpression := keyAbsent |} (afterDraw w) with
      | (Ok _, w') =>
          (Ok {| RowType := rowType; RowID := drawID rowType w; RowLabel := label;
                 RowParentID := ID prow; RowColumns := columns |}, w')
      | (Err e, w') => (Err e, w')
      end.
Proof.
  intros Hp Hrow. unfold CreateChild.
  rewrite (bind_Ok _ _ _ _ _ (Generate_run rowType w)).
  pose proof (provisioned_afterDraw _ _ _ Hprov) as Hprov1.
  assert (GetRowByID client parentType parentID (afterDraw w) = (Ok prow, afterDraw w)) as Hget
    by (rewrite (GetRowByID_run _ _ _ _ _ Hprov1), Hp, Hrow; done).
  rewrite (bind_Ok _ _ _ _ _ Hget).
  rewrite (bind_Ok _ _ _ _ _ (Query_ByParentAndLabel _ _ _ Hprov1 parentID label)).
  unfold bind at 1, lift. cbn [queryItems Items].
  destruct (0 <? _)%nat; [done|].
  unfold bind. fold (childItem rowType (drawID rowType w) label parentID columns).
  change (EAnd (EAttributeNotExists "#type") (EAttributeNotExists "#id")) with keyAbsent.
  cbn [RowType RowID RowLabel RowColumns].
  by destruct (PutItem _ _ _) as [[[]|e] w'].
Qed.

End CreateChildRuns.



(** *** Columns *)

Lemma itemToRow_childItem rowType id label parentID columns :
  itemToRow (childItem rowType id label parentID columns) =
  Ok {| RowType := rowType; RowID := id; RowLabel := label; RowParentID := parentID;
        RowColumns := decode_iface <$> columnsToMap columns |}.
Proof.
  apply itemToRow_Ok. cbn [RowType RowID RowLabel RowParentID RowColumns].
  unfold decode_string, decode_columns, childItem,
    storageKeyType, storageKeyID, storageAttrLabel, storageAttrParentID, storageAttrColumns.
  repeat split; by simplify_map_eq.
Qed.


Lemma decode_ifaceToAttributeValue v :
  decode_iface (ifaceToAttributeValue v) = if supportedKind v then v else iface_nil.
Proof. by destruct v. Qed.




(** ** The row store on the reference datastore: deletion *)

Lemma length_pos_nonempty (s : string) : (0 <? String.length s)%nat = true ↔ s ≠ "".
Proof. destruct s; cbn; split; try done. Qed.

Section DeleteRowRuns.
Variables (client : Client refstore.World) (w : refstore.World).
Variable items : gmap (list string) Item.
Variables (rowType childType id : string).
Hypothesis Hprov : provisioned client w items.

Lemma DeleteRow_has_children :
  childType ≠ "" →
  someItemWith items "type" childType "parent_id" id →
  DeleteRow client rowType childType id w
  = (Err (Errorf "%s %s has children: %w" [rowType; id] ErrCannotDeleteRow), w).
Proof.
  intros Hct (key & item & Hl & Ht & Hp). unfold DeleteRow.
  apply bind_Err. rewrite (proj2 (length_pos_nonempty childType) Hct).
  rewrite (bind_Ok _ _ _ _ _ (Query_ByTypeAndParent _ _ _ Hprov childType id)).
  unfold bind, lift. cbn [queryItems Items].
  assert ((0 <? length (refstore.select indexByTypeAndParent
             (queryByTypeAndParent client childType id) items))%nat = true) as ->; [|done].
  apply select_nonempty. exists key, item. split; [done|].
  by apply selected_ByTypeAndParent.
Qed.

Lemma DeleteRow_no_children :
  wellFormed items →
  childType = "" ∨ ¬ someItemWith items "type" childType "parent_id" id →
  DeleteRow client rowType childType id w
  = if bool_decide (is_Some (items !! [rowType; id]))
    then (Ok tt, storeItems client w (delete [rowType; id] items))
    else (Err refstore.ConditionalCheckFailedException, w).
Proof.
  intros Hwf Hnone. unfold DeleteRow.
  assert ((if (0 <? String.length childType)%nat
           then do output <~ Query (ddb client) (queryByTypeAndParent client childType id) ;;
                do items0 <~ lift (queryItems output) ;;
                if (0 <? length items0)%nat
                then fail (Errorf "%s %s has children: %w" [rowType; id] ErrCannotDeleteRow)
                else ret tt
           else ret tt) w = (Ok tt, w)) as Hcheck.
  { destruct (0 <? String.length childType)%nat eqn:Hlen; [|done].
    apply length_pos_nonempty in Hlen. destruct Hnone as [-> | Hnone]; [done|].
    rewrite (bind_Ok _ _ _ _ _ (Query_ByTypeAndParent _ _ _ Hprov childType id)).
    unfold bind, lift. cbn [queryItems Items].
    destruct (0 <? length _)%nat eqn:Hsel; [|done]. exfalso. apply Hnone.
    apply select_nonempty in Hsel as (key & item & Hl & Hs).
    apply selected_ByTypeAndParent in Hs as [Ht Hp]. by exists key, item. }
  rewrite (bind_Ok _ _ _ _ _ Hcheck).
  change (EAnd (EAttributeExists "#type") (EAttributeExists "#id")) with keyPresent.
  apply (DeleteItem_run _ _ _ Hprov Hwf).
Qed.

End DeleteRowRuns.

(** C4.  With a non-empty [childType] and some stored item of that type
    whose [parent_id] is [id], [DeleteRow] fails with an error wrapping
    [ErrCannotDeleteRow] and leaves the world unchanged.  With an empty
    [childType] or no such item it deletes under the condition that the
    primary key is present: deleting a missing row is an error, and after
    a successful delete [GetRowByID] on the key fails with an error
    wrapping [ErrNotFoundRow]. *)
Theorem C4_DeleteRow client w items rowType childType id :
  provisioned client w items → wellFormed items →
  (childType ≠ "" → someItemWith items "type" childType "parent_id" id →
     ∃ e, DeleteRow client rowType childType id w = (Err e, w) ∧
          errors_Is e ErrCannotDeleteRow = true)
  ∧ (childType = "" ∨ ¬ someItemWith items "type" childType "parent_id" id →
       (items !! [rowType; id] = None →
          DeleteRow client rowType childType id w
          = (Err refstore.ConditionalCheckFailedException, w)) ∧
       (is_Some (items !! [rowType; id]) →
          let w' := storeItems client w (delete [rowType; id] items) in
          DeleteRow client rowType childType id w = (Ok tt, w') ∧
          GetRowByID client rowType id w'
          = (Err (Errorf "%w: %q" [id] ErrNotFoundRow), w') ∧
          errors_Is (Errorf "%w: %q" [id] ErrNotFoundRow) ErrNotFoundRow = true)).
Proof.
  intros Hprov Hwf. split.
  - intros Hct Hsome. eexists. split.
    + by apply (DeleteRow_has_children _ _ items).
    + reflexivity.
  - intros Hnone.
    pose proof (DeleteRow_no_children _ _ _ rowType childType id Hprov Hwf Hnone) as Hrun.
    split.
    + intros Habsent. rewrite Hrun, bool_decide_eq_false_2; [done|].
      rewrite Habsent. by intros [? ?].
    + intros Hpresent w'. subst w'. rewrite Hrun, bool_decide_eq_true_2 by done.
      split; [done|]. split; [|reflexivity].
      rewrite (GetRowByID_run _ _ _ _ _ (provisioned_storeItems _ _ _ _ Hprov)).
      by rewrite lookup_delete_eq.
Qed.

Lemma C4_DeleteRow_witness :
  provisioned demo.client demo.w3 demo.items3 ∧ wellFormed demo.items3 ∧
  ∃ e, DeleteRow demo.client "organization" "team" demo.orgID demo.w3 = (Err e, demo.w3) ∧
       errors_Is e ErrCannotDeleteRow = true.
Proof.
  assert (provisioned demo.client demo.w3 demo.items3) as Hprov
    by (split; [reflexivity | by_computation]).
  assert (wellFormed demo.items3) as Hwf by decide_by_computation.
  split; [exact Hprov|]. split; [exact Hwf|].
  refine (proj1 (C4_DeleteRow demo.client demo.w3 demo.items3 "organization" "team" demo.orgID
                   Hprov Hwf) _ _).
  - discriminate.
  - exists ["team"; demo.teamID], demo.teamItem. repeat split; by_computation.
Defined.

(** ** The row store on the reference datastore: listing *)

Lemma is_substring_empty_r sub : sub ≠ "" → is_substring sub "" = false.
Proof. by destruct sub. Qed.

Lemma evalExpr_EContains_label names values item n v sub r :
  names !! n = Some "label" → values !! v = Some (S_ sub) → sub ≠ "" →
  decode_string "label" item = Ok (RowLabel r) →
  refstore.evalExpr names values item (EContains n v) = is_substring sub (RowLabel r).
Proof.
  intros Hn Hv Hsub Hdec. cbn [refstore.evalExpr].
  rewrite (attr_lookup _ _ _ _ Hn), Hv.
  destruct (decode_string_Ok _ _ _ Hdec) as [-> | [-> [-> | ->]]];
    by rewrite ?is_substring_empty_r.
Qed.

Lemma evalExpr_EEq_parent names values item n v parentID r :
  names !! n = Some "parent_id" → values !! v = Some (S_ parentID) → parentID ≠ "" →
  decode_string "parent_id" item = Ok (RowParentID r) →
  refstore.evalExpr names values item (EEq n v) = true ↔ RowParentID r = parentID.
Proof.
  intros Hn Hv Hne Hdec. rewrite (evalExpr_EEq _ _ _ _ _ _ _ Hn Hv).
  destruct (decode_string_Ok _ _ _ Hdec) as [-> | [Hr [-> | ->]]].
  - split; congruence.
  - split; [discriminate | congruence].
  - split; [discriminate | congruence].
Qed.

Lemma selected_ByType (client : Client refstore.World) rowType labelFilter parentIDFilter
    key item r :
  wellFormedItem key item → itemToRow item = Ok r →
  refstore.selected indexByType (listRowsInput client rowType labelFilter parentIDFilter) item
    = true ↔ rowSelected rowType labelFilter parentIDFilter r.
Proof.
  intros [Hk _] Hr. apply keyOf_table_spec in Hk as (t & i & _ & Ht & _).
  apply itemToRow_Ok in Hr as (Hrt & _ & Hrl & Hrp & _).
  rewrite (decode_string_S _ _ _ Ht) in Hrt. injection Hrt as Hrt.
  unfold refstore.selected, rowSelected.
  cbn [indexByType ix_KeySchema]. rewrite (keyOf_one _ _ _ _ Ht).
  rewrite bool_decide_eq_true_2 by eauto. rewrite andb_true_l, andb_true_iff.
  unfold listRowsInput.
  cbn [q_ExpressionAttributeNames q_ExpressionAttributeValues KeyConditionExpression
       FilterExpression].
  destruct (decide (labelFilter = "")) as [Hlf | Hlf],
           (decide (parentIDFilter = "")) as [Hpf | Hpf].
  - rewrite !bool_decide_eq_false_2 by (intros H; by apply H). cbn [refstore.evalFilter id].
    rewrite (evalExpr_EEq _ _ _ "#type" ":type" "type" rowType) by by_computation.
    rewrite Ht. split.
    + intros [[= ->] _]. split; [congruence|]. split; intros H; by destruct H.
    + intros [<- _]. split; congruence.
  - rewrite (bool_decide_eq_false_2 (labelFilter ≠ "")) by (intros H; by apply H).
    rewrite (bool_decide_eq_true_2 (parentIDFilter ≠ "")) by done.
    cbn [refstore.evalFilter id].
    rewrite (evalExpr_EEq _ _ _ "#type" ":type" "type" rowType) by by_computation.
    rewrite (evalExpr_EEq_parent _ _ _ "#parent_id" ":parent_id" parentIDFilter r)
      by (done || by_computation || by simplify_map_eq).
    rewrite Ht. split.
    + intros [[= ->] Hp]. split; [congruence|]. split; [intros H; by destruct H | done].
    + intros (<- & _ & Hp). split; [congruence | by apply Hp].
  - rewrite (bool_decide_eq_true_2 (labelFilter ≠ "")) by done.
    rewrite (bool_decide_eq_false_2 (parentIDFilter ≠ "")) by (intros H; by apply H).
    cbn [refstore.evalFilter id].
    rewrite (evalExpr_EEq _ _ _ "#type" ":type" "type" rowType)
      by (by_computation || by simplify_map_eq).
    rewrite (evalExpr_EContains_label _ _ _ "#label" ":label" labelFilter r)
      by (done || by_computation || by simplify_map_eq).
    rewrite Ht. split.
    + intros [[= ->] Hl]. split; [congruence|]. split; [done | intros H; by destruct H].
    + intros (<- & Hl & _). split; [congruence | by apply Hl].
  - rewrite (bool_decide_eq_true_2 (labelFilter ≠ "")) by done.
    rewrite (bool_decide_eq_true_2 (parentIDFilter ≠ "")) by done.
    cbn [refstore.evalFilter id].
    rewrite (evalExpr_EEq _ _ _ "#type" ":type" "type" rowType)
      by (by_computation || by simplify_map_eq).
    rewrite evalExpr_EAnd.
    rewrite (evalExpr_EContains_label _ _ _ "#label" ":label" labelFilter r)
      by (done || by_computation || by simplify_map_eq).
    rewrite (evalExpr_EEq_parent _ _ _ "#parent_id" ":parent_id" parentIDFilter r)
      by (done || by_computation || by simplify_map_eq).
    rewrite Ht. split.
    + intros [[= ->] [Hl Hp]]. split; [congruence|]. done.
    + intros (<- & Hl & Hp). split; [congruence|]. split; [by apply Hl | by apply Hp].
Qed.

Lemma itemsToRows_Ok items :
  Forall (λ item, is_Ok (itemToRow item) = true) items →
  ∃ rows, itemsToRows items = Ok rows ∧
          Forall2 (λ item r, itemToRow item = Ok r) items rows.
Proof.
  induction 1 as [|item rest Hok _ (rows & Hrows & Hall)]; cbn [itemsToRows].
  - exists []. split; [done | constructor].
  - destruct (itemToRow item) as [r|] eqn:Hr; [|discriminate].
    rewrite Hrows. exists (r :: rows). split; [done|]. by constructor.
Qed.

Lemma itemsToRows_Err items e :
  itemsToRows items = Err e → ∃ v f, e = UnmarshalTypeError v f.
Proof.
  induction items as [|item rest IH]; cbn [itemsToRows]; [discriminate|].
  destruct (itemToRow item) as [r|e'] eqn:Hr.
  - destruct (itemsToRows rest); [discriminate|]. intros [= <-]. by apply IH.
  - intros [= <-]. unfold itemToRow, attributevalue_UnmarshalMap in Hr.
    unfold decode_string, decode_columns in Hr.
    repeat match type of Hr with
           | context [match ?m !! ?k with _ => _ end] => destruct (m !! k) as [[]|]
           end; try discriminate; injection Hr as <-; eauto.
Qed.

Lemma NoDup_select items ix input :
  wellFormed items → NoDup (refstore.select ix input items).
Proof.
  intros Hwf. unfold refstore.select. apply NoDup_fmap_2_strong.
  - intros [k1 v1] [k2 v2] H1 H2 Heq. cbn in Heq. subst v2.
    apply elem_of_map_to_list, map_lookup_filter_Some in H1 as [H1 _].
    apply elem_of_map_to_list, map_lookup_filter_Some in H2 as [H2 _].
    destruct (Hwf _ _ H1) as [Hk1 _]. destruct (Hwf _ _ H2) as [Hk2 _]. congruence.
  - apply NoDup_map_to_list.
Qed.

Lemma itemToRow_key_inj items k1 k2 item1 item2 r :
  wellFormed items → items !! k1 = Some item1 → items !! k2 = Some item2 →
  itemToRow item1 = Ok r → itemToRow item2 = Ok r → item1 = item2.
Proof.
  intros Hwf H1 H2 Hr1 Hr2.
  destruct (wellFormed_lookup _ _ _ Hwf H1) as (t1 & i1 & -> & Ht1 & Hi1).
  destruct (wellFormed_lookup _ _ _ Hwf H2) as (t2 & i2 & -> & Ht2 & Hi2).
  apply itemToRow_Ok in Hr1 as (Ha1 & Hb1 & _). apply itemToRow_Ok in Hr2 as (Ha2 & Hb2 & _).
  rewrite (decode_string_S _ _ _ Ht1) in Ha1. rewrite (decode_string_S _ _ _ Hi1) in Hb1.
  rewrite (decode_string_S _ _ _ Ht2) in Ha2. rewrite (decode_string_S _ _ _ Hi2) in Hb2.
  assert (t1 = t2) as -> by congruence. assert (i1 = i2) as -> by congruence.
  congruence.
Qed.

Lemma Forall2_NoDup_rows (items : gmap (list string) Item) (l : list Item) (rows : list row) :
  wellFormed items →
  (∀ item, item ∈ l → ∃ key, items !! key = Some item) →
  Forall2 (λ item r, itemToRow item = Ok r) l rows →
  NoDup l → NoDup rows.
Proof.
  intros Hwf Hin Hall. induction Hall as [|item r l rows Hr Hall IH]; intros Hnd.
  - constructor.
  - apply NoDup_cons in Hnd as [Hnotin Hnd]. apply NoDup_cons. split.
    + intros Hrin. apply Hnotin.
      destruct (proj1 (list_elem_of_lookup _ _) Hrin) as [n Hn].
      destruct (Forall2_lookup_r _ _ _ _ _ Hall Hn) as (item' & Hn' & Hr').
      assert (item' ∈ l) as Hin' by (eapply list_elem_of_lookup_2; eauto).
      destruct (Hin item) as [k1 Hk1]; [left|].
      destruct (Hin item') as [k2 Hk2]; [by right|].
      by rewrite (itemToRow_key_inj _ _ _ _ _ _ Hwf Hk1 Hk2 Hr Hr').
    + apply IH; [|done]. intros item' Hin'. apply Hin. by right.
Qed.

Lemma ListRows_run client w items rowType labelFilter parentIDFilter :
  provisioned client w items →
  ListRows client rowType labelFilter parentIDFilter w =
    (itemsToRows (refstore.select indexByType
                    (listRowsInput client rowType labelFilter parentIDFilter) items), w).
Proof.
  intros Hprov.
  apply (ListRows_of_items _ _ _ _ _ _ _ _
           (Query_ByType _ _ _ Hprov rowType labelFilter parentIDFilter) eq_refl).
Qed.

(** What [ListRows] returns in a provisioned world of well-formed items. *)
Lemma ListRows_rows client w items rowType labelFilter parentIDFilter :
  provisioned client w items → wellFormed items →
  ∃ rows,
    ListRows client rowType labelFilter parentIDFilter w = (Ok rows, w) ∧
    NoDup rows ∧
    ∀ r, r ∈ rows ↔
         (∃ key item, items !! key = Some item ∧ itemToRow item = Ok r) ∧
         rowSelected rowType labelFilter parentIDFilter r.
Proof.
  intros Hprov Hwf. rewrite (ListRows_run _ _ _ _ _ _ Hprov).
  set (input := listRowsInput client rowType labelFilter parentIDFilter).
  assert (∀ item, item ∈ refstore.select indexByType input items →
            ∃ key, items !! key = Some item) as Hstored.
  { intros item Hin. apply elem_of_select in Hin as (key & Hl & _). eauto. }
  destruct (itemsToRows_Ok (refstore.select indexByType input items)) as (rows & Hrows & Hall).
  { apply Forall_forall. intros item Hin. destruct (Hstored _ Hin) as [key Hl].
    by destruct (Hwf _ _ Hl). }
  exists rows. split; [by rewrite Hrows|]. split.
  - eapply Forall2_NoDup_rows; eauto using NoDup_select.
  - intros r. split.
    + intros Hin. destruct (proj1 (list_elem_of_lookup _ _) Hin) as [n Hn].
      destruct (Forall2_lookup_r _ _ _ _ _ Hall Hn) as (item & Hn' & Hr).
      assert (item ∈ refstore.select indexByType input items) as Hsel
        by (eapply list_elem_of_lookup_2; eauto).
      apply elem_of_select in Hsel as (key & Hl & Hs). split; [eauto|].
      by apply (selected_ByType client _ _ _ key item r (Hwf _ _ Hl) Hr).
    + intros [(key & item & Hl & Hr) Hsel].
      assert (item ∈ refstore.select indexByType input items) as Hin.
      { apply elem_of_select. exists key. split; [done|].
        by apply (selected_ByType client _ _ _ key item r (Hwf _ _ Hl) Hr). }
      destruct (proj1 (list_elem_of_lookup _ _) Hin) as [n Hn].
      destruct (Forall2_lookup_l _ _ _ _ _ Hall Hn) as (r' & Hn' & Hr').
      assert (r' = r) as -> by congruence. eapply list_elem_of_lookup_2; eauto.
Qed.

(** C9.  [ListRows] returns, each once, exactly the rows of the stored
    items whose type is [rowType] and which pass the filters: a non-empty
    [labelFilter] must occur in the label as a substring, a non-empty
    [parentIDFilter] must equal the parent identifier, both when both are
    given; an empty filter constrains nothing. *)
Theorem C9_ListRows client w items rowType labelFilter parentIDFilter :
  provisioned client w items → wellFormed items →
  ∃ rows,
    ListRows client rowType labelFilter parentIDFilter w = (Ok rows, w) ∧
    NoDup rows ∧
    ∀ r, r ∈ rows ↔
         (∃ key item, items !! key = Some item ∧ itemToRow item = Ok r) ∧
         rowSelected rowType labelFilter parentIDFilter r.
Proof. apply ListRows_rows. Qed.

Lemma C9_ListRows_witness :
  provisioned demo.client demo.w3 demo.items3 ∧ wellFormed demo.items3 ∧
  ∃ rows,
    ListRows demo.client "team" "rod" demo.orgID demo.w3 = (Ok rows, demo.w3) ∧
    NoDup rows ∧
    ∀ r, r ∈ rows ↔
         (∃ key item, demo.items3 !! key = Some item ∧ itemToRow item = Ok r) ∧
         rowSelected "team" "rod" demo.orgID r.
Proof.
  assert (provisioned demo.client demo.w3 demo.items3) as Hprov
    by (split; [reflexivity | by_computation]).
  assert (wellFormed demo.items3) as Hwf by decide_by_computation.
  split; [exact Hprov|]. split; [exact Hwf|].
  exact (C9_ListRows demo.client demo.w3 demo.items3 "team" "rod" demo.orgID Hprov Hwf).
Defined.

Lemma refstore_Query_cases input w :
  (∃ ix t, refstore.Query input w
           = (Ok (Some {| Items := Some (refstore.select ix input (refstore.tItems t)) |}), w))
  ∨ refstore.Query input w = (Err refstore.ResourceNotFoundException, w)
  ∨ refstore.Query input w = (Err refstore.ValidationException, w).
Proof.
  unfold refstore.Query, refstore.withTable.
  destruct (refstore.tables w !! q_TableName input) as [t|]; [|by right; left].
  destruct (refstore.findIndex _ t) as [ix|]; [|by right; right].
  destruct (_ && _); [left; by exists ix, t | by right; right].
Qed.

Lemma ListRows_never_NotFound (client : Client refstore.World) w rowType
    labelFilter parentIDFilter e w' :
  ddb client = refstore.api →
  ListRows client rowType labelFilter parentIDFilter w = (Err e, w') →
  errors_Is e ErrNotFoundRow = false.
Proof.
  intros Hapi. rewrite ListRows_unfold, Hapi. cbn [Query refstore.api].
  unfold bind at 1.
  destruct (refstore_Query_cases
              (listRowsInput client rowType labelFilter parentIDFilter) w)
    as [(ix & t & ->) | [-> | ->]].
  - unfold bind, lift. cbn [queryItems Items].
    destruct (itemsToRows _) as [rows|e'] eqn:Hrows; [discriminate|].
    intros [= <- <-]. by destruct (itemsToRows_Err _ _ Hrows) as (v & f & ->).
  - by intros [= <- <-].
  - by intros [= <- <-].
Qed.

(** C10.  When no stored row of the type passes the filters, [ListRows]
    returns the empty list and no error; and in no world does it fail with
    an error that is or wraps [ErrNotFoundRow]. *)
Theorem C10_ListRows_empty client w items rowType labelFilter parentIDFilter :
  provisioned client w items → wellFormed items →
  (∀ key item r, items !! key = Some item → itemToRow item = Ok r →
                 ¬ rowSelected rowType labelFilter parentIDFilter r) →
  ListRows client rowType labelFilter parentIDFilter w = (Ok [], w) ∧
  ∀ w0 e w0',
    ListRows client rowType labelFilter parentIDFilter w0 = (Err e, w0') →
    errors_Is e ErrNotFoundRow = false.
Proof.
  intros Hprov Hwf Hnone. split.
  - destruct (ListRows_rows client w items rowType labelFilter parentIDFilter Hprov Hwf)
      as (rows & Hrun & _ & Hrows).
    rewrite Hrun. destruct rows as [|r rows]; [done|]. exfalso.
    destruct (proj1 (Hrows r)) as [(key & item & Hl & Hr) Hsel]; [left|].
    by apply (Hnone key item r).
  - intros w0 e w0'. apply ListRows_never_NotFound, Hprov.
Qed.

Lemma C10_ListRows_empty_witness :
  provisioned demo.client demo.w2 demo.items2 ∧ wellFormed demo.items2 ∧
  ListRows demo.client "team" "" "" demo.w2 = (Ok [], demo.w2).
Proof.
  assert (provisioned demo.client demo.w2 demo.items2) as Hprov
    by (split; [reflexivity | by_computation]).
  assert (wellFormed demo.items2) as Hwf by decide_by_computation.
  split; [exact Hprov|]. split; [exact Hwf|].
  refine (proj1 (C10_ListRows_empty demo.client demo.w2 demo.items2 "team" "" "" Hprov Hwf _)).
  intros key item r Hl Hr [Ht _].
  unfold demo.items2 in Hl. apply lookup_singleton_Some in Hl as [_ <-].
  vm_compute in Hr. injection Hr as <-. discriminate Ht.
Defined.

(** ** The row store on the reference datastore: updates *)

Lemma GetChild_run client w items label parentID :
  provisioned client w items →
  ∃ res, GetChild client label parentID w = (res, w).
Proof.
  intros Hprov.
  rewrite (GetChild_of_items _ _ _ _ _ _ _
             (Query_ByParentAndLabel _ _ _ Hprov parentID label) eq_refl).
  eauto.
Qed.

Lemma UpdateItem_keyAbsent_stored client w items names values rowType id update rv :
  provisioned client w items → wellFormed items →
  names !! "#type" = Some "type" → names !! "#id" = Some "id" →
  is_Some (items !! [rowType; id]) →
  UpdateItem (ddb client)
    {| ui_TableName := tableName client;
       ui_Key := primaryKey rowType id;
       UpdateExpression := update;
       ui_ExpressionAttributeNames := names;
       ui_ExpressionAttributeValues := values;
       ui_ConditionExpression := keyAbsent;
       ReturnValues := rv |} w
  = (Err refstore.ConditionalCheckFailedException, w).
Proof.
  intros [Hapi Htab] Hwf Htype Hid Hstored. rewrite Hapi. cbn [UpdateItem refstore.api].
  unfold refstore.UpdateItem, refstore.withTable.
  cbn [ui_TableName ui_Key ui_ExpressionAttributeNames ui_ExpressionAttributeValues
       ui_ConditionExpression].
  rewrite Htab.
  cbn [provisionedTable refstore.tKeySchema refstore.tItems createTableInput ct_KeySchema].
  fold tableKeySchema. rewrite keyOf_primaryKey.
  rewrite (resolves_keyAbsent _ _ Htype Hid). cbn [negb].
  rewrite (evalExpr_keyAbsent _ _ Htype Hid _ _ Hwf).
  rewrite bool_decide_eq_false_2; [done|]. destruct Hstored as [x ->]. done.
Qed.

(** On the reference datastore [UpdateRow] cannot succeed: it first
    requires the row to exist and then writes under the condition that it
    does not.  Every run fails and leaves the world as it was. *)
Lemma UpdateRow_fails client w items rowType id newLabel :
  provisioned client w items → wellFormed items →
  ∃ e, UpdateRow client rowType id newLabel w = (Err e, w).
Proof.
  intros Hprov Hwf. unfold UpdateRow. unfold bind at 1.
  rewrite (GetRowByID_run _ _ _ _ _ Hprov).
  destruct (items !! [rowType; id]) as [item|] eqn:Hl; [|by eexists].
  destruct (itemToRow item) as [this|e]; [|by eexists].
  destruct (GetChild_run client w items newLabel (ParentID this) Hprov) as [res Hres].
  rewrite (bind_Ok _ _ _ _ _ (attempt_run _ _ _ _ Hres)).
  destruct res as [found|err]; [by eexists|].
  destruct (negb (errors_Is err ErrNotFoundRow)); [by eexists|].
  change (EAnd (EAttributeNotExists "#type") (EAttributeNotExists "#id")) with keyAbsent.
  eexists. apply bind_Err.
  apply (UpdateItem_keyAbsent_stored _ _ items); eauto; by_computation.
Qed.

Lemma UpdateRow_never_succeeds client w items rowType id newLabel r w' :
  provisioned client w items → wellFormed items →
  UpdateRow client rowType id newLabel w ≠ (Ok r, w').
Proof.
  intros Hprov Hwf.
  by destruct (UpdateRow_fails client w items rowType id newLabel Hprov Hwf) as [e ->].
Qed.

(** C1, evaluated.  The conditional write of [UpdateRow] and
    [UpdateChild] is guarded by absence of the primary key:
    [UpdateChild] on a key that is not stored succeeds and creates the
    item, while [UpdateRow] and [UpdateChild] on a stored row are refused.
    [UpdateColumn], guarded by presence, refuses the missing key. *)
Theorem C1_update_condition_is_absence :
  itemsOf demo.client demo.w3 !! ["team"; "team_ghost"] = None ∧
  (UpdateChild demo.client "team" "team_ghost" "billing" "organization" demo.orgID
     demo.w3).1
  = Ok {| RowType := "team"; RowID := "team_ghost"; RowLabel := "billing";
          RowParentID := demo.orgID; RowColumns := ∅ |} ∧
  itemsOf demo.client
    (UpdateChild demo.client "team" "team_ghost" "billing" "organization" demo.orgID
       demo.w3).2 !! ["team"; "team_ghost"]
  = Some {[ "type" := S_ "team"; "id" := S_ "team_ghost";
            "label" := S_ "billing"; "parent_id" := S_ demo.orgID ]} ∧
  is_Some (itemsOf demo.client demo.w3 !! ["team"; demo.teamID]) ∧
  (UpdateRow demo.client "team" demo.teamID "billing" demo.w3).1
  = Err refstore.ConditionalCheckFailedException ∧
  (UpdateChild demo.client "team" demo.teamID "billing" "organization" demo.orgID
     demo.w3).1
  = Err refstore.ConditionalCheckFailedException ∧
  (UpdateColumn demo.client "team" "team_ghost" "owner" (iface_string "ops") demo.w3).1
  = Err refstore.ConditionalCheckFailedException.
Proof.
  repeat split; try (vm_compute; reflexivity).
  eexists. vm_compute. reflexivity.
Qed.

(** ** Further lemmas on the reference datastore *)

(** On the reference datastore store construction provisions a missing
    table, empty. *)
Lemma createTableIfNotExists_provisions (client : Client refstore.World) w :
  ddb client = refstore.api →
  refstore.tables w !! tableName client = None →
  ∃ w', createTableIfNotExists client w = (Ok tt, w') ∧ provisioned client w' ∅.
Proof.
  intros Hapi Hnone.
  assert (DescribeTable (ddb client) {| dt_TableName := tableName client |} w
          = (Err refstore.ResourceNotFoundException, w)) as HD.
  { rewrite Hapi. cbn [DescribeTable refstore.api].
    unfold refstore.DescribeTable, refstore.withTable. cbn [dt_TableName].
    by rewrite Hnone. }
  rewrite (createTableIfNotExists_response client _ _ _ _ HD eq_refl).
  rewrite Hapi. cbn [CreateTable refstore.api]. unfold refstore.CreateTable.
  cbn [createTableInput ct_TableName]. rewrite Hnone.
  eexists. split; [reflexivity|]. split; [done|]. cbn. apply lookup_insert_eq.
Qed.

Lemma wellFormed_empty : wellFormed ∅.
Proof. apply map_Forall_empty. Qed.

Lemma wellFormedItem_rootItem rowType id label :
  wellFormedItem [rowType; id] (rootItem rowType id label).
Proof. split; [apply keyOf_rootItem | by rewrite itemToRow_rootItem]. Qed.

Lemma wellFormedItem_childItem rowType id label parentID columns :
  wellFormedItem [rowType; id] (childItem rowType id label parentID columns).
Proof. split; [apply keyOf_childItem | by rewrite itemToRow_childItem]. Qed.

Lemma decode_string_insert_ne field name v item :
  field ≠ name → decode_string field (<[name := v]> item) = decode_string field item.
Proof. intros Hne. unfold decode_string. by rewrite lookup_insert_ne. Qed.

Lemma decode_columns_insert_ne field name v item :
  field ≠ name → decode_columns field (<[name := v]> item) = decode_columns field item.
Proof. intros Hne. unfold decode_columns. by rewrite lookup_insert_ne. Qed.

Lemma itemToRow_insert_columns item r m :
  itemToRow item = Ok r →
  itemToRow (<["columns" := AttributeValueMemberM m]> item)
  = Ok {| RowType := RowType r; RowID := RowID r; RowLabel := RowLabel r;
          RowParentID := RowParentID r; RowColumns := decode_iface <$> m |}.
Proof.
  intros (Ht & Hi & Hl & Hp & _)%itemToRow_Ok. apply itemToRow_Ok.
  cbn [RowType RowID RowLabel RowParentID RowColumns].
  repeat split;
    first [ by rewrite decode_string_insert_ne by done
          | unfold decode_columns; by rewrite lookup_insert_eq ].
Qed.

Lemma UpdateItem_run client w items names values rowType id update cond rv :
  provisioned client w items →
  refstore.resolves names values cond = true →
  UpdateItem (ddb client)
    {| ui_TableName := tableName client;
       ui_Key := primaryKey rowType id;
       UpdateExpression := update;
       ui_ExpressionAttributeNames := names;
       ui_ExpressionAttributeValues := values;
       ui_ConditionExpression := cond;
       ReturnValues := rv |} w
  = if refstore.evalExpr names values (default ∅ (items !! [rowType; id])) cond
    then
      match refstore.applyUpdate names values
              (default (primaryKey rowType id) (items !! [rowType; id])) update with
      | None => (Err refstore.ValidationException, w)
      | Some item =>
          if bool_decide (refstore.keyOf tableKeySchema item = Some [rowType; id])
          then (Ok (Some {| Attributes := match rv with
                                          | ReturnValueAllNew => Some item
                                          | ReturnValueNone => None
                                          end |}),
                storeItems client w (<[[rowType; id] := item]> items))
          else (Err refstore.ValidationException, w)
      end
    else (Err refstore.ConditionalCheckFailedException, w).
Proof.
  intros [Hapi Htab] Hres. rewrite Hapi. cbn [UpdateItem refstore.api].
  unfold refstore.UpdateItem, refstore.withTable.
  cbn [ui_TableName ui_Key ui_ExpressionAttributeNames ui_ExpressionAttributeValues
       ui_ConditionExpression UpdateExpression ReturnValues].
  rewrite Htab.
  cbn [provisionedTable refstore.tKeySchema refstore.tItems createTableInput ct_KeySchema].
  fold tableKeySchema. rewrite keyOf_primaryKey, Hres. cbn [negb].
  destruct (refstore.evalExpr _ _ _ _); [|done].
  destruct (refstore.applyUpdate _ _ _ _) as [item|]; [|done].
  by destruct (bool_decide _).
Qed.

(** * Further properties *)

(** ** Identifiers (package [slug]) *)

Lemma get_elem_of (s : string) : ∀ n c,
  String.get n s = Some c → c ∈ String.list_ascii_of_string s.
Proof.
  induction s as [|a s IH]; intros n c; [done|].
  destruct n as [|n]; cbn [String.get String.list_ascii_of_string].
  - intros [= ->]. left.
  - intros H. right. by apply (IH n).
Qed.

Lemma get_is_Some (s : string) : ∀ n,
  (n < String.length s)%nat → is_Some (String.get n s).
Proof.
  induction s as [|a s IH]; intros n; cbn [String.length String.get]; [lia|].
  destruct n as [|n]; [by eexists|]. intros H. apply IH. lia.
Qed.

Lemma letter_at_letters v :
  (0 ≤ v)%Z → slug.letter_at v ∈ String.list_ascii_of_string slug.letters.
Proof.
  intros Hv. unfold slug.letter_at.
  assert (Z.to_nat (Z.rem v (Z.of_nat (String.length slug.letters)))
          < String.length slug.letters)%nat as Hlt.
  { change (String.length slug.letters) with 26%nat.
    pose proof (Z.rem_bound_pos v 26 Hv ltac:(lia)). lia. }
  destruct (get_is_Some _ _ Hlt) as [c Hc]. rewrite Hc.
  rewrite (proj2 (Z.leb_le 0 v) Hv). by apply (get_elem_of _ _ _ Hc).
Qed.

Lemma randSeq_spec {W} (rand_Int63 : W → Z * W) :
  (∀ w, (0 ≤ (rand_Int63 w).1)%Z) →
  ∀ n w,
    String.length (slug.randSeq rand_Int63 n w).1 = n ∧
    Forall (λ c, c ∈ String.list_ascii_of_string slug.letters)
           (String.list_ascii_of_string (slug.randSeq rand_Int63 n w).1).
Proof.
  intros Hpos. induction n as [|n IH]; intros w; [by split|].
  cbn [slug.randSeq]. pose proof (Hpos w) as Hv.
  destruct (rand_Int63 w) as [v w1]. specialize (IH w1).
  destruct (slug.randSeq rand_Int63 n w1) as [rest w2].
  cbn [fst String.length String.list_ascii_of_string] in *. destruct IH as [IH1 IH2].
  split; [by rewrite IH1|]. constructor; [by apply letter_at_letters|done].
Qed.

(** X1.  [randSeq(n)] returns [n] lower-case letters, whatever the random
    source draws, as long as the draws are not negative (as those of
    [rand.Int63] are); [randSeq(0)] is the empty string. *)
Theorem randSeq_lowercase {W} (rand_Int63 : W → Z * W) (n : nat) (w : W) :
  (∀ w, (0 ≤ (rand_Int63 w).1)%Z) →
  String.length (slug.randSeq rand_Int63 n w).1 = n ∧
  Forall (λ c, c ∈ String.list_ascii_of_string slug.letters)
         (String.list_ascii_of_string (slug.randSeq rand_Int63 n w).1) ∧
  slug.randSeq rand_Int63 0 w = ("", w).
Proof.
  intros Hpos. destruct (randSeq_spec rand_Int63 Hpos n w) as [Hlen Hall]. done.
Qed.

Lemma rand_Int63_nonneg w : (0 ≤ (refstore.rand_Int63 w).1)%Z.
Proof.
  unfold refstore.rand_Int63. cbn [fst]. apply Z.land_nonneg. right.
  unfold refstore.rngMask. lia.
Qed.

Lemma randSeq_lowercase_witness :
  String.length (slug.randSeq refstore.rand_Int63 10 demo.w1).1 = 10%nat ∧
  Forall (λ c, c ∈ String.list_ascii_of_string slug.letters)
         (String.list_ascii_of_string (slug.randSeq refstore.rand_Int63 10 demo.w1).1) ∧
  slug.randSeq refstore.rand_Int63 0 demo.w1 = ("", demo.w1).
Proof.
  exact (randSeq_lowercase refstore.rand_Int63 10 demo.w1 rand_Int63_nonneg).
Defined.

Lemma randSeq_randPos n : ∀ w,
  refstore.randPos (slug.randSeq refstore.rand_Int63 n w).2 = (refstore.randPos w + n)%nat ∧
  refstore.randSrc (slug.randSeq refstore.rand_Int63 n w).2 = refstore.randSrc w.
Proof.
  induction n as [|n IH]; intros w; [cbn; split; [lia|done]|].
  cbn [slug.randSeq]. unfold refstore.rand_Int63 at 1 3.
  specialize (IH {| refstore.tables := refstore.tables w;
                    refstore.randSrc := refstore.randSrc w;
                    refstore.randPos := S (refstore.randPos w) |}).
  destruct (slug.randSeq refstore.rand_Int63 n _) as [rest w2].
  cbn [snd refstore.randPos refstore.randSrc] in *. destruct IH as [-> ->]. split; [lia|done].
Qed.

(** X2.  [Generate(prefix)] with [math/rand] as the random source never
    fails: it returns the prefix, an underscore and ten lower-case
    letters, draws exactly ten numbers and leaves the tables alone. *)
Theorem Generate_shape (prefix : string) (w : refstore.World) :
  ∃ suffix w',
    slug.Generate refstore.rand_Int63 prefix w = (Ok (prefix ++ "_" ++ suffix), w') ∧
    String.length suffix = 10%nat ∧
    Forall (λ c, c ∈ String.list_ascii_of_string slug.letters) (String.list_ascii_of_string suffix) ∧
    refstore.randPos w' = (refstore.randPos w + 10)%nat ∧
    refstore.randSrc w' = refstore.randSrc w ∧
    refstore.tables w' = refstore.tables w.
Proof.
  exists (slug.randSeq refstore.rand_Int63 10 w).1, (afterDraw w).
  split; [apply Generate_run|].
  destruct (randSeq_spec refstore.rand_Int63 rand_Int63_nonneg 10 w) as [Hlen Hall].
  destruct (randSeq_randPos 10 w) as [Hpos Hsrc].
  repeat split; try done; apply randSeq_tables.
Qed.

(** ** Reading what was written *)

(** X3.  [GetRowByID] finds a row exactly when an item is stored under the
    key: it then returns that item as a row, of the type and identifier
    asked for; otherwise it fails with an error wrapping
    [ErrNotFoundRow].  It never changes the world. *)
Theorem GetRowByID_found_iff_stored client w items rowType id :
  provisioned client w items → wellFormed items →
  (items !! [rowType; id] = None →
     GetRowByID client rowType id w = (Err (Errorf "%w: %q" [id] ErrNotFoundRow), w) ∧
     errors_Is (Errorf "%w: %q" [id] ErrNotFoundRow) ErrNotFoundRow = true) ∧
  (∀ item, items !! [rowType; id] = Some item →
     ∃ r, GetRowByID client rowType id w = (Ok r, w) ∧ itemToRow item = Ok r ∧
          Type_ r = rowType ∧ ID r = id) ∧
  (∀ r w', GetRowByID client rowType id w = (Ok r, w') →
     w' = w ∧ ∃ item, items !! [rowType; id] = Some item ∧ itemToRow item = Ok r).
Proof.
  intros Hprov Hwf. rewrite (GetRowByID_run _ _ _ _ _ Hprov). split; [|split].
  - intros ->. done.
  - intros item Hl. rewrite Hl.
    destruct (wellFormed_row _ _ _ _ Hwf Hl) as (r & Hr & Ht & Hi).
    exists r. by rewrite Hr.
  - intros r w'. destruct (items !! [rowType; id]) as [item|]; [|discriminate].
    intros [= Hr <-]. split; [done|]. by exists item.
Qed.

Lemma GetRowByID_found_iff_stored_witness :
  ∃ r, GetRowByID demo.client "organization" demo.orgID demo.w2 = (Ok r, demo.w2) ∧
       itemToRow demo.orgItem = Ok r ∧ Type_ r = "organization" ∧ ID r = demo.orgID.
Proof.
  assert (provisioned demo.client demo.w2 demo.items2) as Hprov
    by (split; [reflexivity | by_computation]).
  assert (wellFormed demo.items2) as Hwf by decide_by_computation.
  refine (proj1 (proj2 (GetRowByID_found_iff_stored demo.client demo.w2 demo.items2
                          "organization" demo.orgID Hprov Hwf)) demo.orgItem _).
  by_computation.
Defined.

(** X4.  A row that [CreateRow] returned is read back unchanged by
    [GetRowByID]: the type and label given, no parent, no columns. *)
Theorem GetRowByID_after_CreateRow client w items rowType label r w' :
  provisioned client w items →
  CreateRow refstore.rand_Int63 client rowType label w = (Ok r, w') →
  GetRowByID client rowType (ID r) w' = (Ok r, w') ∧
  Type_ r = rowType ∧ Label r = label ∧ ParentID r = "" ∧ Columns_ r = ∅.
Proof.
  intros Hprov Hrun.
  destruct (CreateRow_Ok_inv _ _ _ _ _ _ _ Hprov Hrun) as (_ & -> & ->).
  split; [|done].
  rewrite (GetRowByID_run _ _ _ _ _
             (provisioned_storeItems _ _ _ _ (provisioned_afterDraw _ _ _ Hprov))).
  unfold ID. cbn [RowID]. by rewrite lookup_insert_eq, itemToRow_rootItem.
Qed.

Lemma GetRowByID_after_CreateRow_witness :
  GetRowByID demo.client "organization" demo.orgID demo.w2
  = (Ok {| RowType := "organization"; RowID := demo.orgID; RowLabel := "acme";
           RowParentID := ""; RowColumns := ∅ |}, demo.w2).
Proof.
  assert (provisioned demo.client demo.w1 ∅) as Hprov
    by (split; [reflexivity | by_computation]).
  refine (proj1 (GetRowByID_after_CreateRow demo.client demo.w1 ∅ "organization" "acme"
                   {| RowType := "organization"; RowID := demo.orgID; RowLabel := "acme";
                      RowParentID := ""; RowColumns := ∅ |} demo.w2 Hprov _)).
  by_computation.
Defined.

(** What [CreateChild] does in a provisioned world of well-formed items. *)
Lemma CreateChild_run client w items rowType label parentType parentID columns :
  provisioned client w items → wellFormed items →
  CreateChild refstore.rand_Int63 client rowType label parentType parentID columns w =
    match items !! [parentType; parentID] with
    | None => (Err (Errorf "%w: %q" [parentID] ErrNotFoundRow), afterDraw w)
    | Some _ =>
        if (0 <? length (refstore.select indexByParentAndLabel
                           (queryByParentAndLabel client parentID label) items))%nat
        then (Err ErrCollisionParentLabel, afterDraw w)
        else if bool_decide (items !! [rowType; drawID rowType w] = None)
        then (Ok {| RowType := rowType; RowID := drawID rowType w; RowLabel := label;
                    RowParentID := parentID; RowColumns := columns |},
              storeItems client (afterDraw w)
                (<[[rowType; drawID rowType w] :=
                     childItem rowType (drawID rowType w) label parentID columns]> items))
        else (Err refstore.ConditionalCheckFailedException, afterDraw w)
    end.
Proof.
  intros Hprov Hwf.
  destruct (items !! [parentType; parentID]) as [pitem|] eqn:Hp.
  2:{ by apply (CreateChild_no_parent _ _ items). }
  destruct (wellFormed_row _ _ _ _ Hwf Hp) as (prow & Hrow & _ & Hid).
  rewrite (CreateChild_with_parent _ _ _ _ _ _ _ _ Hprov _ _ Hp Hrow).
  destruct (0 <? _)%nat; [done|].
  rewrite (PutItem_run client (afterDraw w) items (provisioned_afterDraw _ _ _ Hprov) Hwf
             _ _ (keyOf_childItem rowType (drawID rowType w) label parentID columns)).
  unfold ID. rewrite Hid. by destruct (bool_decide _).
Qed.

Lemma supportedColumns_round_trip columns :
  supportedColumns columns → decode_iface <$> columnsToMap columns = columns.
Proof.
  intros Hsup. apply map_eq. intros k. unfold columnsToMap. rewrite !lookup_fmap.
  destruct (columns !! k) as [v|] eqn:Hk; [|done]. cbn.
  by rewrite decode_ifaceToAttributeValue, (Hsup _ _ Hk).
Qed.

(** X5.  A row that [CreateChild] returned carries what was passed in; when
    its columns are strings and [[]string]s, reading it back, by
    [GetChild] under its parent and label or by [GetRowByID], gives the
    very same row. *)
Theorem GetChild_after_CreateChild client w items rowType label parentType parentID
    columns r w' :
  provisioned client w items → wellFormed items → supportedColumns columns →
  CreateChild refstore.rand_Int63 client rowType label parentType parentID columns w
    = (Ok r, w') →
  Type_ r = rowType ∧ Label r = label ∧ ParentID r = parentID ∧ Columns_ r = columns ∧
  GetChild client label parentID w' = (Ok r, w') ∧
  GetRowByID client rowType (ID r) w' = (Ok r, w').
Proof.
  intros Hprov Hwf Hsup. rewrite (CreateChild_run _ _ _ _ _ _ _ _ Hprov Hwf).
  destruct (items !! [parentType; parentID]) as [pitem|]; [|discriminate].
  destruct (0 <? _)%nat eqn:Hlen; [discriminate|]. apply select_empty in Hlen.
  destruct (bool_decide _); [|discriminate]. intros [= <- <-].
  do 4 (split; [done|]).
  set (id := drawID rowType w).
  set (item := childItem rowType id label parentID columns).
  assert (provisioned client (storeItems client (afterDraw w) (<[[rowType; id] := item]> items))
            (<[[rowType; id] := item]> items)) as Hprov'
    by (eapply provisioned_storeItems, provisioned_afterDraw, Hprov).
  split.
  - rewrite (GetChild_of_items _ _ _ _ _ _ _
               (Query_ByParentAndLabel _ _ _ Hprov' parentID label) eq_refl).
    rewrite (select_insert_fresh _ _ _ _ _ Hlen).
    + unfold item. by rewrite itemToRow_childItem, (supportedColumns_round_trip _ Hsup).
    + apply selected_ByParentAndLabel. split; by_computation.
  - rewrite (GetRowByID_run _ _ _ _ _ Hprov'). unfold ID. cbn [RowID].
    rewrite lookup_insert_eq. unfold item.
    by rewrite itemToRow_childItem, (supportedColumns_round_trip _ Hsup).
Qed.

Lemma GetChild_after_CreateChild_witness :
  let r := {| RowType := "team"; RowID := demo.teamID; RowLabel := "product";
              RowParentID := demo.orgID; RowColumns := tour.ownerColumns |} in
  let w' := (CreateChild refstore.rand_Int63 demo.client "team" "product" "organization"
               demo.orgID tour.ownerColumns demo.w2).2 in
  Type_ r = "team" ∧ Label r = "product" ∧ ParentID r = demo.orgID ∧
  Columns_ r = tour.ownerColumns ∧
  GetChild demo.client "product" demo.orgID w' = (Ok r, w') ∧
  GetRowByID demo.client "team" (ID r) w' = (Ok r, w').
Proof.
  assert (provisioned demo.client demo.w2 demo.items2) as Hprov
    by (split; [reflexivity | by_computation]).
  assert (wellFormed demo.items2) as Hwf by decide_by_computation.
  refine (GetChild_after_CreateChild demo.client demo.w2 demo.items2 "team" "product"
            "organization" demo.orgID tour.ownerColumns _ _ Hprov Hwf _ _).
  - apply (bool_decide_unpack _). by_computation.
  - by_computation.
Defined.

(** X6.  Deleting, without a child check, the row that [CreateRow] just
    returned succeeds and leaves the table with the items it had before
    the row was created. *)
Theorem DeleteRow_after_CreateRow client w items rowType label r w' :
  provisioned client w items → wellFormed items →
  CreateRow refstore.rand_Int63 client rowType label w = (Ok r, w') →
  ∃ w'', DeleteRow client rowType "" (ID r) w' = (Ok tt, w'') ∧
         provisioned client w'' items.
Proof.
  intros Hprov Hwf Hrun.
  destruct (CreateRow_Ok_inv _ _ _ _ _ _ _ Hprov Hrun) as (Hnil & -> & ->).
  set (id := drawID rowType w). set (item := rootItem rowType id label).
  assert (items !! [rowType; id] = None) as Hfresh.
  { revert Hrun. rewrite (CreateRow_fresh _ _ _ _ _ Hprov Hwf).
    - destruct (bool_decide _) eqn:Hb; [|discriminate]. by apply bool_decide_eq_true in Hb.
    - intros (key & it & Hl & Ht & Hlab).
      apply select_nil with (key := key) (item := it) in Hnil; [|done].
      assert (refstore.selected indexByTypeAndLabel
                (queryByTypeAndLabel client rowType label) it = true) as Hs
        by (by apply selected_ByTypeAndLabel).
      congruence. }
  assert (provisioned client (storeItems client (afterDraw w) (<[[rowType; id] := item]> items))
            (<[[rowType; id] := item]> items)) as Hprov'
    by (eapply provisioned_storeItems, provisioned_afterDraw, Hprov).
  assert (wellFormed (<[[rowType; id] := item]> items)) as Hwf'.
  { apply map_Forall_insert_2; [|done].
    unfold item. split; [apply keyOf_rootItem | by rewrite itemToRow_rootItem]. }
  eexists. split.
  - unfold ID. cbn [RowID]. fold id.
    rewrite (DeleteRow_no_children _ _ _ rowType "" id Hprov' Hwf' (or_introl eq_refl)).
    rewrite lookup_insert_eq, bool_decide_eq_true_2 by eauto. reflexivity.
  - rewrite delete_insert_id by done. apply (provisioned_storeItems _ _ _ _ Hprov').
Qed.

Lemma DeleteRow_after_CreateRow_witness :
  ∃ w'', DeleteRow demo.client "organization" "" demo.orgID demo.w2 = (Ok tt, w'') ∧
         provisioned demo.client w'' ∅.
Proof.
  assert (provisioned demo.client demo.w1 ∅) as Hprov
    by (split; [reflexivity | by_computation]).
  refine (DeleteRow_after_CreateRow demo.client demo.w1 ∅ "organization" "acme"
            {| RowType := "organization"; RowID := demo.orgID; RowLabel := "acme";
               RowParentID := ""; RowColumns := ∅ |} demo.w2 Hprov _ _).
  - apply map_Forall_empty.
  - by_computation.
Defined.

(** ** Updates on the reference datastore *)

Lemma keyOf_insert_columns item key v :
  refstore.keyOf tableKeySchema item = Some key →
  refstore.keyOf tableKeySchema (<["columns" := v]> item) = Some key.
Proof.
  intros (t & i & -> & Ht & Hi)%keyOf_table_spec. apply keyOf_table_spec.
  exists t, i. by rewrite !lookup_insert_ne.
Qed.

Lemma UpdateColumns_run client w items rowType rowID columns :
  provisioned client w items → wellFormed items →
  UpdateColumns client rowType rowID columns w =
    match items !! [rowType; rowID] with
    | None => (Err refstore.ConditionalCheckFailedException, w)
    | Some item =>
        (Ok tt, storeItems client w
                  (<[[rowType; rowID] :=
                       <["columns" := AttributeValueMemberM (columnsToMap columns)]> item]>
                     items))
    end.
Proof.
  intros Hprov Hwf. unfold UpdateColumns, bind, ret.
  change (EAnd (EAttributeExists "#type") (EAttributeExists "#id")) with keyPresent.
  erewrite UpdateItem_run; [|exact Hprov|apply resolves_keyPresent; by_computation].
  erewrite evalExpr_keyPresent; [|by_computation|by_computation|exact Hwf].
  destruct (items !! [rowType; rowID]) as [item|] eqn:Hl.
  2:{ by rewrite bool_decide_eq_false_2 by (by intros [? ?]). }
  rewrite bool_decide_eq_true_2 by eauto. cbn [default from_option id].
  assert (refstore.applyUpdate
            {[ "#columns" := storageAttrColumns; "#type" := storageKeyType;
               "#id" := storageKeyID ]}
            {[ ":new_columns" := AttributeValueMemberM (columnsToMap columns) ]}
            item [(["#columns"], ":new_columns")]
          = Some (<["columns" := AttributeValueMemberM (columnsToMap columns)]> item)) as ->
    by by_computation.
  rewrite bool_decide_eq_true_2; [done|].
  apply keyOf_insert_columns. by destruct (Hwf _ _ Hl).
Qed.

Lemma UpdateColumn_run client w items rowType rowID columnName columnValue :
  provisioned client w items → wellFormed items →
  UpdateColumn client rowType rowID columnName columnValue w =
    match items !! [rowType; rowID] with
    | None => (Err refstore.ConditionalCheckFailedException, w)
    | Some item =>
        match item !! "columns" with
        | Some (AttributeValueMemberM m) =>
            (Ok tt, storeItems client w
                      (<[[rowType; rowID] :=
                           <["columns" := AttributeValueMemberM
                               (<[columnName := ifaceToAttributeValue columnValue]> m)]>
                             item]> items))
        | _ => (Err refstore.ValidationException, w)
        end
    end.
Proof.
  intros Hprov Hwf. unfold UpdateColumn, bind, ret.
  change (EAnd (EAttributeExists "#type") (EAttributeExists "#id")) with keyPresent.
  erewrite UpdateItem_run; [|exact Hprov|apply resolves_keyPresent; by_computation].
  erewrite evalExpr_keyPresent; [|by_computation|by_computation|exact Hwf].
  destruct (items !! [rowType; rowID]) as [item|] eqn:Hl.
  2:{ by rewrite bool_decide_eq_false_2 by (by intros [? ?]). }
  rewrite bool_decide_eq_true_2 by eauto. cbn [default from_option id].
  cbn [refstore.applyUpdate]. unfold refstore.applySet. cbn [fst snd].
  rewrite lookup_singleton_eq.
  assert (∀ name, ({[ "#columns" := storageAttrColumns; "#key" := name;
                      "#type" := storageKeyType; "#id" := storageKeyID ]}
                   : gmap string string) !! "#columns" = Some "columns") as ->
    by (intros; by_computation).
  assert (∀ name, ({[ "#columns" := storageAttrColumns; "#key" := name;
                      "#type" := storageKeyType; "#id" := storageKeyID ]}
                   : gmap string string) !! "#key" = Some name) as ->
    by (intros; by_computation).
  destruct (item !! "columns") as [[| | |m]|]; try done.
  rewrite bool_decide_eq_true_2; [done|].
  apply keyOf_insert_columns. by destruct (Hwf _ _ Hl).
Qed.

(** X7.  [UpdateColumns] replaces the columns of a stored row as a whole and
    leaves its other fields alone: with strings and [[]string]s as the new
    columns, the row then reads back with exactly those.  On a key that
    is not stored it fails and writes nothing. *)
Theorem UpdateColumns_replaces client w items rowType rowID columns :
  provisioned client w items → wellFormed items →
  (items !! [rowType; rowID] = None →
     UpdateColumns client rowType rowID columns w
     = (Err refstore.ConditionalCheckFailedException, w)) ∧
  (∀ item r, items !! [rowType; rowID] = Some item → itemToRow item = Ok r →
     supportedColumns columns →
     let item' := <["columns" := AttributeValueMemberM (columnsToMap columns)]> item in
     let w' := storeItems client w (<[[rowType; rowID] := item']> items) in
     UpdateColumns client rowType rowID columns w = (Ok tt, w') ∧
     GetRowByID client rowType rowID w' = (Ok (withColumns r columns), w')).
Proof.
  intros Hprov Hwf. rewrite (UpdateColumns_run _ _ _ _ _ _ Hprov Hwf). split.
  - by intros ->.
  - intros item r Hl Hr Hsup item' w'. subst item' w'. rewrite Hl. split; [done|].
    rewrite (GetRowByID_run _ _ _ _ _ (provisioned_storeItems _ _ _ _ Hprov)).
    rewrite lookup_insert_eq.
    by rewrite (itemToRow_insert_columns _ _ _ Hr), (supportedColumns_round_trip _ Hsup).
Qed.

Lemma UpdateColumns_replaces_witness :
  let item' := <["columns" := AttributeValueMemberM
                                (columnsToMap {[ "owner" := iface_string "dev" ]})]>
                 demo.teamItem in
  let w' := storeItems demo.client demo.w3 (<[["team"; demo.teamID] := item']> demo.items3) in
  UpdateColumns demo.client "team" demo.teamID {[ "owner" := iface_string "dev" ]} demo.w3
  = (Ok tt, w') ∧
  GetRowByID demo.client "team" demo.teamID w'
  = (Ok {| RowType := "team"; RowID := demo.teamID; RowLabel := "product";
           RowParentID := demo.orgID;
           RowColumns := {[ "owner" := iface_string "dev" ]} |}, w').
Proof.
  assert (provisioned demo.client demo.w3 demo.items3) as Hprov
    by (split; [reflexivity | by_computation]).
  assert (wellFormed demo.items3) as Hwf by decide_by_computation.
  refine (proj2 (UpdateColumns_replaces demo.client demo.w3 demo.items3 "team"
                   demo.teamID {[ "owner" := iface_string "dev" ]} Hprov Hwf)
            demo.teamItem
            {| RowType := "team"; RowID := demo.teamID; RowLabel := "product";
               RowParentID := demo.orgID;
               RowColumns := decode_iface <$> columnsToMap demo.teamColumns |}
            _ _ _); [by_computation | by_computation |].
  apply (bool_decide_unpack _). by_computation.
Defined.

(** X8.  [UpdateColumn] with a string or a [[]string] sets that one column of
    a stored row that has a columns map and leaves the other columns, the
    other fields and every other item alone.  On a key that is not stored
    it fails and writes nothing. *)
Theorem UpdateColumn_sets_one client w items rowType rowID columnName columnValue :
  provisioned client w items → wellFormed items →
  (items !! [rowType; rowID] = None →
     UpdateColumn client rowType rowID columnName columnValue w
     = (Err refstore.ConditionalCheckFailedException, w)) ∧
  (∀ item m r, items !! [rowType; rowID] = Some item →
     item !! "columns" = Some (AttributeValueMemberM m) → itemToRow item = Ok r →
     supportedKind columnValue = true →
     ∃ w' r',
       UpdateColumn client rowType rowID columnName columnValue w = (Ok tt, w') ∧
       GetRowByID client rowType rowID w' = (Ok r', w') ∧
       Type_ r' = Type_ r ∧ ID r' = ID r ∧ Label r' = Label r ∧ ParentID r' = ParentID r ∧
       Columns_ r' = <[columnName := columnValue]> (Columns_ r) ∧
       ∀ key, key ≠ [rowType; rowID] → itemsOf client w' !! key = items !! key).
Proof.
  intros Hprov Hwf. rewrite (UpdateColumn_run _ _ _ _ _ _ _ Hprov Hwf). split.
  - by intros ->.
  - intros item m r Hl Hm Hr Hsup. rewrite Hl, Hm.
    set (item' := <["columns" := AttributeValueMemberM
                      (<[columnName := ifaceToAttributeValue columnValue]> m)]> item).
    pose proof (provisioned_storeItems client w items (<[[rowType; rowID] := item']> items)
                  Hprov) as Hprov'.
    eexists _, _. split; [reflexivity|]. split.
    { rewrite (GetRowByID_run _ _ _ _ _ Hprov'), lookup_insert_eq. unfold item'.
      by rewrite (itemToRow_insert_columns _ _ _ Hr). }
    do 4 (split; [done|]). split.
    + unfold Columns_. cbn [RowColumns].
      rewrite fmap_insert, decode_ifaceToAttributeValue, Hsup.
      f_equal. apply itemToRow_Ok in Hr as (_ & _ & _ & _ & Hc).
      unfold decode_columns in Hc. rewrite Hm in Hc. congruence.
    + intros key Hne. unfold itemsOf. destruct Hprov' as [_ ->].
      cbn [provisionedTable refstore.tItems from_option]. by rewrite lookup_insert_ne.
Qed.

Lemma UpdateColumn_sets_one_witness :
  ∃ w' r',
    UpdateColumn demo.client "team" demo.teamID "owner" (iface_string "dev") demo.w3
    = (Ok tt, w') ∧
    GetRowByID demo.client "team" demo.teamID w' = (Ok r', w') ∧
    Type_ r' = "team" ∧ ID r' = demo.teamID ∧ Label r' = "product" ∧
    ParentID r' = demo.orgID ∧
    Columns_ r' = <["owner" := iface_string "dev"]>
                    (decode_iface <$> columnsToMap demo.teamColumns) ∧
    ∀ key, key ≠ ["team"; demo.teamID] → itemsOf demo.client w' !! key = demo.items3 !! key.
Proof.
  assert (provisioned demo.client demo.w3 demo.items3) as Hprov
    by (split; [reflexivity | by_computation]).
  assert (wellFormed demo.items3) as Hwf by decide_by_computation.
  refine (proj2 (UpdateColumn_sets_one demo.client demo.w3 demo.items3 "team" demo.teamID
                   "owner" (iface_string "dev") Hprov Hwf)
            demo.teamItem (columnsToMap demo.teamColumns)
            {| RowType := "team"; RowID := demo.teamID; RowLabel := "product";
               RowParentID := demo.orgID;
               RowColumns := decode_iface <$> columnsToMap demo.teamColumns |}
            _ _ _ eq_refl); by_computation.
Defined.

(** X9.  A row that [CreateRow] returned has no columns map, and
    [UpdateColumn] on it (with a string or a [[]string]) is refused as an
    invalid update, writing nothing; once [UpdateColumns] has given the
    row a columns map of such values, [UpdateColumn] succeeds. *)
Theorem UpdateColumn_after_CreateRow client w items rowType label r w' columnName
    columnValue :
  provisioned client w items → wellFormed items →
  supportedKind columnValue = true →
  CreateRow refstore.rand_Int63 client rowType label w = (Ok r, w') →
  UpdateColumn client rowType (ID r) columnName columnValue w'
  = (Err refstore.ValidationException, w') ∧
  ∀ columns, supportedColumns columns → ∃ w2 w3,
    UpdateColumns client rowType (ID r) columns w' = (Ok tt, w2) ∧
    UpdateColumn client rowType (ID r) columnName columnValue w2 = (Ok tt, w3).
Proof.
  intros Hprov Hwf _ Hrun.
  destruct (CreateRow_Ok_inv _ _ _ _ _ _ _ Hprov Hrun) as (_ & -> & ->).
  unfold ID. cbn [RowID].
  set (id := drawID rowType w). set (item := rootItem rowType id label).
  set (items1 := <[[rowType; id] := item]> items).
  assert (provisioned client (storeItems client (afterDraw w) items1) items1) as Hprov1
    by (eapply provisioned_storeItems, provisioned_afterDraw, Hprov).
  assert (wellFormed items1) as Hwf1.
  { apply map_Forall_insert_2; [|done]. unfold item.
    split; [apply keyOf_rootItem | by rewrite itemToRow_rootItem]. }
  assert (items1 !! [rowType; id] = Some item) as Hl1 by apply lookup_insert_eq.
  split.
  - rewrite (UpdateColumn_run _ _ _ _ _ _ _ Hprov1 Hwf1), Hl1. reflexivity.
  - intros columns _.
    set (item2 := <["columns" := AttributeValueMemberM (columnsToMap columns)]> item).
    set (items2 := <[[rowType; id] := item2]> items1).
    assert (provisioned client
              (storeItems client (storeItems client (afterDraw w) items1) items2) items2)
      as Hprov2 by (eapply provisioned_storeItems, Hprov1).
    assert (wellFormed items2) as Hwf2.
    { apply map_Forall_insert_2; [|done]. unfold item2, item.
      split; [apply keyOf_insert_columns, keyOf_rootItem|].
      by rewrite (itemToRow_insert_columns _ _ _ (itemToRow_rootItem rowType id label)). }
    eexists _, _. split.
    + rewrite (UpdateColumns_run _ _ _ _ _ _ Hprov1 Hwf1), Hl1. reflexivity.
    + rewrite (UpdateColumn_run _ _ _ _ _ _ _ Hprov2 Hwf2).
      unfold items2. rewrite lookup_insert_eq. unfold item2.
      rewrite lookup_insert_eq. reflexivity.
Qed.

Lemma UpdateColumn_after_CreateRow_witness :
  UpdateColumn demo.client "organization" demo.orgID "owner" (iface_string "ops") demo.w2
  = (Err refstore.ValidationException, demo.w2).
Proof.
  assert (provisioned demo.client demo.w1 ∅) as Hprov
    by (split; [reflexivity | by_computation]).
  refine (proj1 (UpdateColumn_after_CreateRow demo.client demo.w1 ∅ "organization" "acme"
                   {| RowType := "organization"; RowID := demo.orgID; RowLabel := "acme";
                      RowParentID := ""; RowColumns := ∅ |} demo.w2
                   "owner" (iface_string "ops") Hprov _ eq_refl _)).
  - apply map_Forall_empty.
  - by_computation.
Defined.

Lemma GetChild_on_items client w items label parentID :
  provisioned client w items →
  GetChild client label parentID w =
    (match refstore.select indexByParentAndLabel
             (queryByParentAndLabel client parentID label) items with
     | [] => Err (Errorf "%w with parent ID %q and label %q" [parentID; label] ErrNotFoundRow)
     | [item] => itemToRow item
     | _ => Err (Errorf "%w: parent ID %q and label %q" [parentID; label] ErrTooManyFound)
     end, w).
Proof.
  intros Hprov.
  apply (GetChild_of_items _ _ _ _ _ _ _
           (Query_ByParentAndLabel _ _ _ Hprov parentID label) eq_refl).
Qed.

Lemma GetRow_on_items client w items rowType label :
  provisioned client w items →
  GetRow client rowType label w =
    (match refstore.select indexByTypeAndLabel
             (queryByTypeAndLabel client rowType label) items with
     | [] => Err (Errorf "%w: type %q and label %q" [rowType; label] ErrNotFoundRow)
     | [item] => itemToRow item
     | _ => Err (Errorf "%w: type %q and label %q" [rowType; label] ErrTooManyFound)
     end, w).
Proof.
  intros Hprov.
  apply (GetRow_of_items _ _ _ _ _ _ _
           (Query_ByTypeAndLabel _ _ _ Hprov rowType label) eq_refl).
Qed.

Lemma select_stored ix input items item :
  wellFormed items → item ∈ refstore.select ix input items →
  ∃ key r, items !! key = Some item ∧ itemToRow item = Ok r ∧
           refstore.selected ix input item = true.
Proof.
  intros Hwf (key & Hl & Hs)%elem_of_select.
  destruct (Hwf _ _ Hl) as [_ Hok].
  destruct (itemToRow item) as [r|] eqn:Hr; [|discriminate]. by exists key, r.
Qed.

(** What [UpdateRow] does in a provisioned world of well-formed items. *)
Lemma UpdateRow_run client w items rowType id newLabel :
  provisioned client w items → wellFormed items →
  UpdateRow client rowType id newLabel w =
    (match items !! [rowType; id] with
     | None => Err (Errorf "%w: %q" [id] ErrNotFoundRow)
     | Some item =>
         match itemToRow item with
         | Err e => Err e
         | Ok this =>
             match refstore.select indexByParentAndLabel
                     (queryByParentAndLabel client (ParentID this) newLabel) items with
             | [] => Err refstore.ConditionalCheckFailedException
             | [_] => Err ErrCollisionParentLabel
             | _ => Err (Errorf "%w: parent ID %q and label %q" [ParentID this; newLabel]
                           ErrTooManyFound)
             end
         end
     end, w).
Proof.
  intros Hprov Hwf. unfold UpdateRow. unfold bind at 1.
  rewrite (GetRowByID_run _ _ _ _ _ Hprov).
  destruct (items !! [rowType; id]) as [item|] eqn:Hl; [|done].
  destruct (itemToRow item) as [this|e]; [|done].
  rewrite (bind_Ok _ _ _ _ _
             (attempt_run _ _ _ _ (GetChild_on_items _ _ _ newLabel (ParentID this) Hprov))).
  destruct (refstore.select _ _ items) as [|found [|found' rest]] eqn:Hsel.
  - rewrite errors_Is_Errorf. cbn [negb].
    change (EAnd (EAttributeNotExists "#type") (EAttributeNotExists "#id")) with keyAbsent.
    apply bind_Err.
    apply (UpdateItem_keyAbsent_stored _ _ items); eauto; by_computation.
  - assert (found ∈ refstore.select indexByParentAndLabel
              (queryByParentAndLabel client (ParentID this) newLabel) items) as Hin
      by (rewrite Hsel; left).
    destruct (select_stored _ _ _ _ Hwf Hin) as (key & r & _ & -> & _). done.
  - assert (errors_Is (Errorf "%w: parent ID %q and label %q" [ParentID this; newLabel]
                         ErrTooManyFound) ErrNotFoundRow = false) as -> by reflexivity.
    done.
Qed.



(** What [UpdateChild] does in a provisioned world of well-formed items. *)
Lemma UpdateChild_run client w items childType childID newChildLabel parentType
    newParentID :
  provisioned client w items → wellFormed items →
  UpdateChild client childType childID newChildLabel parentType newParentID w =
    match items !! [parentType; newParentID] with
    | None => (Err (Errorf "%w: %q" [newParentID] ErrNotFoundRow), w)
    | Some _ =>
        match refstore.select indexByParentAndLabel
                (queryByParentAndLabel client newParentID newChildLabel) items with
        | [] =>
            if bool_decide (items !! [childType; childID] = None)
            then (Ok {| RowType := childType; RowID := childID; RowLabel := newChildLabel;
                        RowParentID := newParentID; RowColumns := ∅ |},
                  storeItems client w
                    (<[[childType; childID] :=
                         childUpdated childType childID newChildLabel newParentID]> items))
            else (Err refstore.ConditionalCheckFailedException, w)
        | [_] => (Err ErrCollisionParentLabel, w)
        | _ => (Err (Errorf "%w: parent ID %q and label %q" [newParentID; newChildLabel]
                       ErrTooManyFound), w)
        end
    end.
Proof.
  intros Hprov Hwf. unfold UpdateChild. unfold bind at 1.
  rewrite (GetRowByID_run _ _ _ _ _ Hprov).
  destruct (items !! [parentType; newParentID]) as [pitem|] eqn:Hp; [|done].
  destruct (wellFormed_row _ _ _ _ Hwf Hp) as (prow & -> & _).
  rewrite (bind_Ok _ _ _ _ _
             (attempt_run _ _ _ _ (GetChild_on_items _ _ _ newChildLabel newParentID Hprov))).
  destruct (refstore.select _ _ items) as [|found [|found' rest]] eqn:Hsel.
  - rewrite errors_Is_Errorf. cbn [negb].
    change (EAnd (EAttributeNotExists "#type") (EAttributeNotExists "#id")) with keyAbsent.
    unfold bind at 1.
    erewrite UpdateItem_run; [|exact Hprov|apply resolves_keyAbsent; by_computation].
    erewrite evalExpr_keyAbsent; [|by_computation|by_computation|exact Hwf].
    destruct (items !! [childType; childID]) as [item|] eqn:Hl.
    { by rewrite !bool_decide_eq_false_2 by done. }
    rewrite !bool_decide_eq_true_2 by done. cbn [default from_option id].
    assert (refstore.applyUpdate
              {[ "#label" := storageAttrLabel; "#parent_id" := storageAttrParentID;
                 "#type" := storageKeyType; "#id" := storageKeyID ]}
              {[ ":new_label" := S_ newChildLabel; ":new_parent_id" := S_ newParentID ]}
              (primaryKey childType childID)
              [(["#label"], ":new_label"); (["#parent_id"], ":new_parent_id")]
            = Some (childUpdated childType childID newChildLabel newParentID)) as ->
      by by_computation.
    rewrite bool_decide_eq_true_2 by by_computation.
    unfold bind, lift. cbn [updateAttributes Attributes].
    assert (itemToRow (childUpdated childType childID newChildLabel newParentID)
            = Ok {| RowType := childType; RowID := childID; RowLabel := newChildLabel;
                    RowParentID := newParentID; RowColumns := ∅ |}) as ->
      by by_computation.
    done.
  - assert (found ∈ refstore.select indexByParentAndLabel
              (queryByParentAndLabel client newParentID newChildLabel) items) as Hin
      by (rewrite Hsel; left).
    destruct (select_stored _ _ _ _ Hwf Hin) as (key & r & _ & -> & _). done.
  - assert (errors_Is (Errorf "%w: parent ID %q and label %q" [newParentID; newChildLabel]
                         ErrTooManyFound) ErrNotFoundRow = false) as -> by reflexivity.
    done.
Qed.



(** ** What the writing operations keep, as transitions *)

Lemma select_positive ix input items :
  (0 <? length (refstore.select ix input items))%nat = false ↔
  ∀ key item, items !! key = Some item → refstore.selected ix input item = false.
Proof.
  rewrite <- select_nil. destruct (refstore.select ix input items); cbn; split; done.
Qed.

Lemma not_someItemWith_ByTypeAndLabel (client : Client refstore.World) items rowType label :
  refstore.select indexByTypeAndLabel (queryByTypeAndLabel client rowType label) items = [] →
  ¬ someItemWith items "type" rowType "label" label.
Proof.
  intros Hsel (key & it & Hk & Ht & Hlab).
  apply select_nil with (key := key) (item := it) in Hsel; [|done].
  assert (refstore.selected indexByTypeAndLabel
            (queryByTypeAndLabel client rowType label) it = true) as Hs
    by (by apply selected_ByTypeAndLabel).
  congruence.
Qed.

Lemma not_someItemWith_ByParentAndLabel (client : Client refstore.World) items parentID
    label :
  refstore.select indexByParentAndLabel (queryByParentAndLabel client parentID label) items
    = [] →
  ¬ someItemWith items "parent_id" parentID "label" label.
Proof.
  intros Hsel (key & it & Hk & Ht & Hlab).
  apply select_nil with (key := key) (item := it) in Hsel; [|done].
  assert (refstore.selected indexByParentAndLabel
            (queryByParentAndLabel client parentID label) it = true) as Hs
    by (by apply selected_ByParentAndLabel).
  congruence.
Qed.

Section Steps.
Variables (client : Client refstore.World) (w : refstore.World).
Variable items : gmap (list string) Item.
Hypothesis Hprov : provisioned client w items.
Hypothesis Hwf : wellFormed items.

Lemma CreateRow_step rowType label :
  ∃ items', provisioned client (CreateRow refstore.rand_Int63 client rowType label w).2 items' ∧
            step items items'.
Proof.
  destruct (refstore.select indexByTypeAndLabel
              (queryByTypeAndLabel client rowType label) items) as [|it rest] eqn:Hsel.
  - pose proof (not_someItemWith_ByTypeAndLabel _ _ _ _ Hsel) as Hnone.
    rewrite (CreateRow_fresh client w items rowType label Hprov Hwf Hnone).
    destruct (bool_decide _) eqn:Hb; cbn [snd].
    + apply bool_decide_eq_true in Hb. eexists. split.
      * apply (provisioned_storeItems _ _ items), provisioned_afterDraw, Hprov.
      * by apply step_CreateRow.
    + exists items. split; [by apply provisioned_afterDraw | constructor].
  - rewrite (CreateRow_collision client w items rowType label Hprov).
    + exists items. split; [done | constructor].
    + assert (it ∈ refstore.select indexByTypeAndLabel
                (queryByTypeAndLabel client rowType label) items) as Hin
        by (rewrite Hsel; left).
      apply elem_of_select in Hin as (key & Hk & Hs).
      apply selected_ByTypeAndLabel in Hs as [Ht Hlab]. by exists key, it.
Qed.

Lemma CreateChild_step rowType label parentType parentID columns :
  ∃ items',
    provisioned client
      (CreateChild refstore.rand_Int63 client rowType label parentType parentID columns w).2
      items' ∧
    step items items'.
Proof.
  pose proof (provisioned_afterDraw _ _ _ Hprov) as Hprov1.
  rewrite (CreateChild_run _ _ _ _ _ _ _ _ Hprov Hwf).
  destruct (items !! [parentType; parentID]) as [pitem|] eqn:Hp.
  2:{ exists items. split; [done | constructor]. }
  destruct (0 <? _)%nat eqn:Hlen; [exists items; split; [done | constructor]|].
  apply select_empty in Hlen.
  destruct (bool_decide _) eqn:Hb; cbn [snd]; [|exists items; split; [done | constructor]].
  apply bool_decide_eq_true in Hb. eexists. split.
  - apply (provisioned_storeItems _ _ items), Hprov1.
  - apply (step_CreateChild _ _ _ _ parentType); [done|by rewrite Hp|].
    by apply (not_someItemWith_ByParentAndLabel client).
Qed.

Lemma UpdateChild_step childType childID newChildLabel parentType newParentID :
  ∃ items',
    provisioned client
      (UpdateChild client childType childID newChildLabel parentType newParentID w).2 items' ∧
    step items items'.
Proof.
  rewrite (UpdateChild_run _ _ _ _ _ _ _ _ Hprov Hwf).
  destruct (items !! [parentType; newParentID]) as [pitem|] eqn:Hp.
  2:{ exists items. split; [done | constructor]. }
  destruct (refstore.select _ _ items) as [|found [|found' rest]] eqn:Hsel;
    try (exists items; split; [done | constructor]).
  destruct (bool_decide _) eqn:Hb; cbn [snd]; [|exists items; split; [done | constructor]].
  apply bool_decide_eq_true in Hb. eexists. split.
  - apply (provisioned_storeItems _ _ items), Hprov.
  - apply (step_UpdateChild _ _ _ _ parentType); [done|by rewrite Hp|].
    by apply (not_someItemWith_ByParentAndLabel client).
Qed.

Lemma UpdateColumn_step rowType rowID columnName columnValue :
  ∃ items',
    provisioned client (UpdateColumn client rowType rowID columnName columnValue w).2 items' ∧
    step items items'.
Proof.
  rewrite (UpdateColumn_run _ _ _ _ _ _ _ Hprov Hwf).
  destruct (items !! [rowType; rowID]) as [item|] eqn:Hl.
  2:{ exists items. split; [done | constructor]. }
  destruct (item !! "columns") as [[| | |m]|];
    try (exists items; split; [done | constructor]).
  eexists. split; [apply (provisioned_storeItems _ _ items), Hprov|].
  by apply step_columns.
Qed.

Lemma UpdateColumns_step rowType rowID columns :
  ∃ items',
    provisioned client (UpdateColumns client rowType rowID columns w).2 items' ∧
    step items items'.
Proof.
  rewrite (UpdateColumns_run _ _ _ _ _ _ Hprov Hwf).
  destruct (items !! [rowType; rowID]) as [item|] eqn:Hl.
  2:{ exists items. split; [done | constructor]. }
  eexists. split; [apply (provisioned_storeItems _ _ items), Hprov|].
  by apply step_columns.
Qed.

Lemma DeleteRow_step rowType childType id :
  ∃ items', provisioned client (DeleteRow client rowType childType id w).2 items' ∧
            step items items'.
Proof.
  assert (∀ Hnone : childType = "" ∨ ¬ someItemWith items "type" childType "parent_id" id,
            ∃ items', provisioned client (DeleteRow client rowType childType id w).2 items' ∧
                      step items items') as Hdelete.
  { intros Hnone.
    rewrite (DeleteRow_no_children _ _ _ rowType childType id Hprov Hwf Hnone).
    destruct (bool_decide _) eqn:Hb; cbn [snd]; [|exists items; split; [done | constructor]].
    apply bool_decide_eq_true in Hb. eexists. split.
    - apply (provisioned_storeItems _ _ items), Hprov.
    - by apply step_DeleteRow. }
  destruct (decide (childType = "")) as [Hct|Hct]; [by apply Hdelete; left|].
  destruct (refstore.select indexByTypeAndParent
              (queryByTypeAndParent client childType id) items) as [|it rest] eqn:Hsel.
  - apply Hdelete. right. intros (key & it & Hk & Ht & Hpar).
    apply select_nil with (key := key) (item := it) in Hsel; [|done].
    assert (refstore.selected indexByTypeAndParent
              (queryByTypeAndParent client childType id) it = true) as Hs
      by (by apply selected_ByTypeAndParent).
    congruence.
  - rewrite (DeleteRow_has_children _ _ items rowType childType id Hprov Hct).
    + exists items. split; [done | constructor].
    + assert (it ∈ refstore.select indexByTypeAndParent
                (queryByTypeAndParent client childType id) items) as Hin
        by (rewrite Hsel; left).
      apply elem_of_select in Hin as (key & Hk & Hs).
      apply selected_ByTypeAndParent in Hs as [Ht Hpar]. by exists key, it.
Qed.

(** Every call changes the items by one of the transitions of [step]. *)
Lemma afterCall_step call :
  ∃ items', provisioned client (afterCall client w call) items' ∧ step items items'.
Proof.
  destruct call; cbn [afterCall].
  - apply CreateRow_step.
  - apply CreateChild_step.
  - rewrite (UpdateRow_run _ _ _ _ _ _ Hprov Hwf). exists items. split; [done | constructor].
  - apply UpdateChild_step.
  - apply UpdateColumn_step.
  - apply UpdateColumns_step.
  - apply DeleteRow_step.
Qed.

End Steps.

Lemma wellFormedItem_insert_columns key item m :
  wellFormedItem key item →
  wellFormedItem key (<["columns" := AttributeValueMemberM m]> item).
Proof.
  intros [Hk Hok]. split; [by apply keyOf_insert_columns|].
  destruct (itemToRow item) as [r|] eqn:Hr; [|discriminate].
  by rewrite (itemToRow_insert_columns _ _ _ Hr).
Qed.

Lemma step_wellFormed items items' :
  wellFormed items → step items items' → wellFormed items'.
Proof.
  intros Hwf Hstep. destruct Hstep as [| | | |rowType rowID item m Hl|]; [done|..].
  - apply map_Forall_insert_2; [|done].
    apply wellFormedItem_rootItem.
  - apply map_Forall_insert_2; [|done]. apply wellFormedItem_childItem.
  - apply map_Forall_insert_2; [|done]. split; by_computation.
  - apply map_Forall_insert_2; [|done].
    apply wellFormedItem_insert_columns, (Hwf _ _ Hl).
  - by apply map_Forall_delete.
Qed.

Lemma uniqueChildLabels_insert_fresh items key item parentID label :
  uniqueChildLabels items → items !! key = None →
  item !! "parent_id" = Some (S_ parentID) → item !! "label" = Some (S_ label) →
  ¬ someItemWith items "parent_id" parentID "label" label →
  uniqueChildLabels (<[key := item]> items).
Proof.
  intros Huniq Hfresh Hp Hlab Hnone k1 k2 i1 i2 p l Hl1 Hl2 Hp1 Hlab1 Hp2 Hlab2.
  destruct (decide (k1 = key)) as [->|Hne1], (decide (k2 = key)) as [->|Hne2]; [done|..].
  - rewrite lookup_insert_eq in Hl1. injection Hl1 as <-.
    rewrite lookup_insert_ne in Hl2 by done.
    exfalso. apply Hnone. exists k2, i2. split; [done|]. split; congruence.
  - rewrite lookup_insert_eq in Hl2. injection Hl2 as <-.
    rewrite lookup_insert_ne in Hl1 by done.
    exfalso. apply Hnone. exists k1, i1. split; [done|]. split; congruence.
  - rewrite lookup_insert_ne in Hl1, Hl2 by done. by apply (Huniq k1 k2 i1 i2 p l).
Qed.

Lemma step_uniqueChildLabels items items' :
  uniqueChildLabels items → step items items' → uniqueChildLabels items'.
Proof.
  intros Huniq Hstep.
  destruct Hstep as [|rowType id label Hfresh Hnone| | |rowType rowID item m Hl|rowType id Hl];
    [done|..].
  - intros k1 k2 i1 i2 p l Hl1 Hl2 Hp1 Hlab1 Hp2 Hlab2.
    destruct (decide (k1 = [rowType; id])) as [->|Hne1].
    { rewrite lookup_insert_eq in Hl1. injection Hl1 as <-. discriminate Hp1. }
    destruct (decide (k2 = [rowType; id])) as [->|Hne2].
    { rewrite lookup_insert_eq in Hl2. injection Hl2 as <-. discriminate Hp2. }
    rewrite lookup_insert_ne in Hl1, Hl2 by done. by apply (Huniq k1 k2 i1 i2 p l).
  - by apply (uniqueChildLabels_insert_fresh _ _ _ parentID label).
  - by apply (uniqueChildLabels_insert_fresh _ _ _ newParentID newChildLabel).
  - assert (∀ k i, <[[rowType; rowID] :=
                       <[storageAttrColumns := AttributeValueMemberM m]> item]> items !! k
                   = Some i →
              ∃ i0, items !! k = Some i0 ∧ i !! "parent_id" = i0 !! "parent_id" ∧
                    i !! "label" = i0 !! "label") as Hsame.
    { intros k i. destruct (decide (k = [rowType; rowID])) as [->|Hne].
      - rewrite lookup_insert_eq. intros [= <-]. exists item.
        unfold storageAttrColumns. by rewrite !lookup_insert_ne.
      - rewrite lookup_insert_ne by done. intros Hk. by exists i. }
    intros k1 k2 i1 i2 p l Hl1 Hl2 Hp1 Hlab1 Hp2 Hlab2.
    destruct (Hsame _ _ Hl1) as (j1 & Hj1 & Hpj1 & Hlj1).
    destruct (Hsame _ _ Hl2) as (j2 & Hj2 & Hpj2 & Hlj2).
    apply (Huniq k1 k2 j1 j2 p l); congruence.
  - intros k1 k2 i1 i2 p l Hl1 Hl2. apply lookup_delete_Some in Hl1 as [_ Hl1].
    apply lookup_delete_Some in Hl2 as [_ Hl2]. by apply (Huniq k1 k2 i1 i2 p l).
Qed.

(** Every world the writing operations reach from a provisioned table of
    well-formed items (an empty one, to begin with) is again one. *)
Lemma afterCalls_keeps_wellFormed client calls : ∀ w items,
  provisioned client w items → wellFormed items →
  ∃ items', provisioned client (afterCalls client w calls) items' ∧ wellFormed items'.
Proof.
  induction calls as [|call calls IH]; intros w items Hprov Hwf; [by exists items|].
  destruct (afterCall_step client w items Hprov Hwf call) as (items1 & Hprov1 & Hstep).
  apply (IH _ items1 Hprov1). by apply (step_wellFormed items).
Qed.

Lemma afterCalls_invariant client calls : ∀ w items,
  provisioned client w items → wellFormed items → uniqueChildLabels items →
  ∃ items', provisioned client (afterCalls client w calls) items' ∧
            wellFormed items' ∧ uniqueChildLabels items'.
Proof.
  induction calls as [|call calls IH]; intros w items Hprov Hwf Huniq; [by exists items|].
  destruct (afterCall_step client w items Hprov Hwf call) as (items1 & Hprov1 & Hstep).
  apply (IH _ items1 Hprov1); [by apply (step_wellFormed items) |
                               by apply (step_uniqueChildLabels items)].
Qed.

Lemma uniqueChildLabels_empty : uniqueChildLabels ∅.
Proof. intros k1 k2 i1 i2 p l Hl1. by rewrite lookup_empty in Hl1. Qed.

Lemma select_at_most_one (client : Client refstore.World) items parentID label :
  uniqueChildLabels items →
  (length (refstore.select indexByParentAndLabel
             (queryByParentAndLabel client parentID label) items) ≤ 1)%nat.
Proof.
  intros Huniq. unfold refstore.select. rewrite length_fmap.
  set (P := λ kv : list string * Item,
              refstore.selected indexByParentAndLabel
                (queryByParentAndLabel client parentID label) kv.2 = true).
  pose proof (NoDup_fst_map_to_list (filter P items)) as Hnd.
  assert (∀ k i, (k, i) ∈ map_to_list (filter P items) →
            items !! k = Some i ∧ i !! "parent_id" = Some (S_ parentID) ∧
            i !! "label" = Some (S_ label)) as Hin.
  { intros k i Hki. apply elem_of_map_to_list, map_lookup_filter_Some in Hki as [Hk Hs].
    split; [done|]. by apply (selected_ByParentAndLabel client). }
  destruct (map_to_list (filter P items)) as [|[k1 i1] [|[k2 i2] rest]]; cbn; [lia..|].
  exfalso.
  destruct (Hin k1 i1) as (Hl1 & Hp1 & Hlab1); [left|].
  destruct (Hin k2 i2) as (Hl2 & Hp2 & Hlab2); [right; left|].
  pose proof (Huniq k1 k2 i1 i2 parentID label Hl1 Hl2 Hp1 Hlab1 Hp2 Hlab2) as ->.
  cbn in Hnd. apply NoDup_cons in Hnd as [Hnotin _]. apply Hnotin. left.
Qed.

(** X12.  Whatever writing operations have run on a provisioned table of
    well-formed items, with whatever results, every stored item still
    converts to a row: [ListRows] succeeds for every type and filter, and
    [GetRowByID] either returns a row of the type and identifier asked for
    or fails with an error wrapping [ErrNotFoundRow]. *)
Theorem reads_succeed_after_calls client w items calls :
  provisioned client w items → wellFormed items →
  let w' := afterCalls client w calls in
  (∀ rowType labelFilter parentIDFilter,
     ∃ rows, ListRows client rowType labelFilter parentIDFilter w' = (Ok rows, w')) ∧
  (∀ rowType id,
     (∃ r, GetRowByID client rowType id w' = (Ok r, w') ∧ Type_ r = rowType ∧ ID r = id) ∨
     (∃ e, GetRowByID client rowType id w' = (Err e, w') ∧
           errors_Is e ErrNotFoundRow = true)).
Proof.
  intros Hprov Hwf w'. subst w'.
  destruct (afterCalls_keeps_wellFormed client calls w items Hprov Hwf)
    as (items' & Hprov' & Hwf').
  split.
  - intros rowType labelFilter parentIDFilter.
    destruct (ListRows_rows client _ items' rowType labelFilter parentIDFilter Hprov' Hwf')
      as (rows & Hrun & _). by exists rows.
  - intros rowType id. rewrite (GetRowByID_run _ _ _ _ _ Hprov').
    destruct (items' !! [rowType; id]) as [item|] eqn:Hl.
    + left. destruct (wellFormed_row _ _ _ _ Hwf' Hl) as (r & Hr & Ht & Hi).
      exists r. by rewrite Hr.
    + right. eexists. split; [reflexivity|]. apply errors_Is_Errorf.
Qed.

Lemma reads_succeed_after_calls_witness :
  ∃ rows,
    ListRows demo.client "team" "prod" ""
      (afterCalls demo.client demo.w1 tour.calls)
    = (Ok rows, afterCalls demo.client demo.w1 tour.calls).
Proof.
  assert (provisioned demo.client demo.w1 ∅) as Hprov
    by (split; [reflexivity | by_computation]).
  exact (proj1 (reads_succeed_after_calls demo.client demo.w1 ∅ tour.calls Hprov
                  (map_Forall_empty _)) "team" "prod" "").
Defined.

(** X13.  No sequence of writing operations makes two stored items share a
    parent and a label: on a table that started without such a pair,
    [GetChild] returns a row or fails with an error wrapping
    [ErrNotFoundRow], never with [ErrTooManyFound]. *)
Theorem GetChild_never_too_many client w items calls label parentID :
  provisioned client w items → wellFormed items → uniqueChildLabels items →
  let w' := afterCalls client w calls in
  (∃ r, GetChild client label parentID w' = (Ok r, w') ∧
        Label r = label ∧ ParentID r = parentID) ∨
  (∃ e, GetChild client label parentID w' = (Err e, w') ∧
        errors_Is e ErrNotFoundRow = true ∧ errors_Is e ErrTooManyFound = false).
Proof.
  intros Hprov Hwf Huniq w'. subst w'.
  destruct (afterCalls_invariant client calls w items Hprov Hwf Huniq)
    as (items' & Hprov' & Hwf' & Huniq').
  rewrite (GetChild_on_items _ _ _ _ _ Hprov').
  pose proof (select_at_most_one client items' parentID label Huniq') as Hlen.
  destruct (refstore.select _ _ items') as [|found [|found' rest]] eqn:Hsel.
  - right. eexists. split; [reflexivity|]. split; [apply errors_Is_Errorf | reflexivity].
  - left.
    assert (found ∈ refstore.select indexByParentAndLabel
              (queryByParentAndLabel client parentID label) items') as Hin
      by (rewrite Hsel; left).
    destruct (select_stored _ _ _ _ Hwf' Hin) as (key & r & _ & Hr & Hs).
    apply selected_ByParentAndLabel in Hs as [Hp Hlab].
    exists r. rewrite Hr. split; [done|].
    apply itemToRow_Ok in Hr as (_ & _ & Hl & Hpar & _).
    rewrite (decode_string_S _ _ _ Hlab) in Hl. rewrite (decode_string_S _ _ _ Hp) in Hpar.
    unfold Label, ParentID. split; congruence.
  - cbn in Hlen. lia.
Qed.

Lemma GetChild_never_too_many_witness :
  (∃ r, GetChild demo.client "product" demo.orgID
          (afterCalls demo.client demo.w1 tour.calls)
        = (Ok r, afterCalls demo.client demo.w1 tour.calls) ∧
        Label r = "product" ∧ ParentID r = demo.orgID) ∨
  (∃ e, GetChild demo.client "product" demo.orgID
          (afterCalls demo.client demo.w1 tour.calls)
        = (Err e, afterCalls demo.client demo.w1 tour.calls) ∧
        errors_Is e ErrNotFoundRow = true ∧ errors_Is e ErrTooManyFound = false).
Proof.
  assert (provisioned demo.client demo.w1 ∅) as Hprov
    by (split; [reflexivity | by_computation]).
  exact (GetChild_never_too_many demo.client demo.w1 ∅ tour.calls "product" demo.orgID
           Hprov (map_Forall_empty _) uniqueChildLabels_empty).
Defined.




(** ** A new store *)

Lemma select_empty_table ix input : refstore.select ix input ∅ = [].
Proof. unfold refstore.select. by rewrite map_filter_empty, map_to_list_empty. Qed.

(** X15.  Store construction against a service that lacks the table creates
    it, empty: every listing is then empty, every [GetRow] and
    [GetRowByID] reports not found, and constructing the store a second
    time changes nothing. *)
Theorem NewClient_creates_empty_table {Config : Type}
    (config_LoadDefaultConfig : string → string → result Config)
    (profile awsRegion table arn : string) (cfg : Config) (w : refstore.World) :
  config_LoadDefaultConfig profile awsRegion = Ok cfg →
  refstore.tables w !! table = None →
  let client := refClient awsRegion table arn in
  let construct :=
    NewClient config_LoadDefaultConfig (λ _, refstore.api) profile awsRegion table arn in
  ∃ w', construct w = (Ok client, w') ∧
        provisioned client w' ∅ ∧
        (∀ rowType labelFilter parentIDFilter,
           ListRows client rowType labelFilter parentIDFilter w' = (Ok [], w')) ∧
        (∀ rowType label,
           ∃ e, GetRow client rowType label w' = (Err e, w') ∧
                errors_Is e ErrNotFoundRow = true) ∧
        (∀ rowType id,
           ∃ e, GetRowByID client rowType id w' = (Err e, w') ∧
                errors_Is e ErrNotFoundRow = true) ∧
        construct w' = (Ok client, w').
Proof.
  intros Hcfg Hnone client construct. subst construct client. unfold refClient.
  set (client := {| region := awsRegion; tableName := table; keyARN := arn;
                    ddb := refstore.api |}).
  destruct (createTableIfNotExists_provisions client w eq_refl Hnone) as (w' & Hrun & Hprov).
  exists w'. split.
  { rewrite (NewClient_run _ _ _ _ _ _ _ _ Hcfg). cbv beta. fold client. by rewrite Hrun. }
  split; [done|]. split; [|split; [|split]].
  - intros rowType labelFilter parentIDFilter.
    by rewrite (ListRows_run _ _ _ _ _ _ Hprov), select_empty_table.
  - intros rowType label. rewrite (GetRow_on_items _ _ _ _ _ Hprov), select_empty_table.
    eexists. split; [reflexivity|]. apply errors_Is_Errorf.
  - intros rowType id. rewrite (GetRowByID_run _ _ _ _ _ Hprov), lookup_empty.
    eexists. split; [reflexivity|]. apply errors_Is_Errorf.
  - rewrite (NewClient_run _ _ _ _ _ _ _ _ Hcfg). cbv beta. fold client.
    assert (DescribeTable (ddb client) {| dt_TableName := tableName client |} w'
            = (Ok tt, w')) as HD.
    { destruct Hprov as [_ Htab]. cbn [ddb client refClient DescribeTable refstore.api].
      unfold refstore.DescribeTable, refstore.withTable. cbn [dt_TableName].
      by rewrite Htab. }
    by rewrite (createTableIfNotExists_exists client _ _ HD).
Qed.

Lemma NewClient_creates_empty_table_witness :
  ∃ w', NewClient (Config := unit) (λ _ _, Ok tt) (λ _, refstore.api)
          "default" "us-west-2" "tree" "arn:aws:kms:us-west-2:000000000000:key/k" demo.w0
        = (Ok demo.client, w') ∧
        provisioned demo.client w' ∅ ∧
        (∀ rowType labelFilter parentIDFilter,
           ListRows demo.client rowType labelFilter parentIDFilter w' = (Ok [], w')) ∧
        (∀ rowType label,
           ∃ e, GetRow demo.client rowType label w' = (Err e, w') ∧
                errors_Is e ErrNotFoundRow = true) ∧
        (∀ rowType id,
           ∃ e, GetRowByID demo.client rowType id w' = (Err e, w') ∧
                errors_Is e ErrNotFoundRow = true) ∧
        NewClient (Config := unit) (λ _ _, Ok tt) (λ _, refstore.api)
          "default" "us-west-2" "tree" "arn:aws:kms:us-west-2:000000000000:key/k" w'
        = (Ok demo.client, w').
Proof.
  exact (NewClient_creates_empty_table (Config := unit) (λ _ _, Ok tt)
           "default" "us-west-2" "tree" "arn:aws:kms:us-west-2:000000000000:key/k"
           tt demo.w0 eq_refl eq_refl).
Defined.

(** ** Failing queries, for any datastore *)

(** X16.  When the datastore fails the index query of an operation, or answers
    it with a nil output or nil items, the operation returns that error
    (or [ErrNilQueryOutput]) as it is and calls the datastore no more:
    [CreateRow] draws no identifier and writes nothing, [DeleteRow]
    deletes nothing. *)
Theorem query_failure_is_returned {W} (rand_Int63 : W → Z * W) (client : Client W)
    (input : QueryInput) (w : W) (res : result (option QueryOutput)) (w1 : W) (e : error) :
  Query (ddb client) input w = (res, w1) →
  match res with Err e' => e' = e | Ok output => queryItems output = Err e end →
  (∀ rowType label, input = queryByTypeAndLabel client rowType label →
     GetRow client rowType label w = (Err e, w1) ∧
     CreateRow rand_Int63 client rowType label w = (Err e, w1)) ∧
  (∀ label parentID, input = queryByParentAndLabel client parentID label →
     GetChild client label parentID w = (Err e, w1)) ∧
  (∀ rowType labelFilter parentIDFilter,
     input = listRowsInput client rowType labelFilter parentIDFilter →
     ListRows client rowType labelFilter parentIDFilter w = (Err e, w1)) ∧
  (∀ rowType childType id, childType ≠ "" →
     input = queryByTypeAndParent client childType id →
     DeleteRow client rowType childType id w = (Err e, w1)).
Proof.
  intros HQ Hres.
  assert (∀ A (k : list Item → St W A),
            (do output <~ Query (ddb client) input ;;
             do items <~ lift (queryItems output) ;; k items) w = (Err e, w1)) as Hfail.
  { intros A k. unfold bind at 1. rewrite HQ. destruct res as [output|e'].
    - unfold bind, lift. by rewrite Hres.
    - by rewrite Hres. }
  split; [|split; [|split]].
  - intros rowType label ->. split; apply Hfail.
  - intros label parentID ->. apply Hfail.
  - intros rowType labelFilter parentIDFilter ->. rewrite ListRows_unfold. apply Hfail.
  - intros rowType childType id Hct ->. unfold DeleteRow.
    rewrite (proj2 (length_pos_nonempty childType) Hct). apply bind_Err, Hfail.
Qed.

Lemma query_failure_is_returned_witness :
  GetRow demo.client "team" "product" demo.w0
    = (Err refstore.ResourceNotFoundException, demo.w0) ∧
  CreateRow refstore.rand_Int63 demo.client "team" "product" demo.w0
    = (Err refstore.ResourceNotFoundException, demo.w0).
Proof.
  refine (proj1 (query_failure_is_returned refstore.rand_Int63 demo.client
                   (queryByTypeAndLabel demo.client "team" "product") demo.w0
                   (Err refstore.ResourceNotFoundException) demo.w0
                   refstore.ResourceNotFoundException _ eq_refl) "team" "product" eq_refl).
  by_computation.
Defined.

(** ** The getters agree with each other *)

Lemma is_substring_refl s : is_substring s s = true.
Proof.
  destruct s as [|a s]; [done|]. cbn [is_substring]. apply orb_true_iff. left.
  apply prefix_spec. exists "". clear. induction (String a s) as [|b t IH]; [done|].
  by rewrite append_cons, <- IH.
Qed.

Lemma one_selected_row ix input items item :
  wellFormed items → refstore.select ix input items = [item] →
  ∃ key t i r, key = [t; i] ∧ items !! key = Some item ∧ itemToRow item = Ok r ∧
               RowType r = t ∧ RowID r = i ∧ refstore.selected ix input item = true.
Proof.
  intros Hwf Hsel.
  assert (item ∈ refstore.select ix input items) as Hin by (rewrite Hsel; left).
  apply elem_of_select in Hin as (key & Hl & Hs).
  destruct (wellFormed_lookup _ _ _ Hwf Hl) as (t & i & -> & _).
  destruct (wellFormed_row _ _ _ _ Hwf Hl) as (r & Hr & Ht & Hi).
  by exists [t; i], t, i, r.
Qed.

(** X17.  A row that [GetRow] or [GetChild] returns is a stored row: it has the
    type and label (the label and parent) asked for, [GetRowByID] returns
    the same row for its type and identifier, and [ListRows] for its type,
    filtered by that label and parent, contains it. *)
Theorem getters_agree client w items :
  provisioned client w items → wellFormed items →
  (∀ rowType label r w',
     GetRow client rowType label w = (Ok r, w') →
     w' = w ∧ Type_ r = rowType ∧ Label r = label ∧
     GetRowByID client rowType (ID r) w = (Ok r, w) ∧
     ∃ rows, ListRows client rowType label "" w = (Ok rows, w) ∧ r ∈ rows) ∧
  (∀ label parentID r w',
     GetChild client label parentID w = (Ok r, w') →
     w' = w ∧ Label r = label ∧ ParentID r = parentID ∧
     GetRowByID client (Type_ r) (ID r) w = (Ok r, w) ∧
     ∃ rows, ListRows client (Type_ r) label parentID w = (Ok rows, w) ∧ r ∈ rows).
Proof.
  intros Hprov Hwf. split.
  - intros rowType label r w'. rewrite (GetRow_on_items _ _ _ _ _ Hprov).
    destruct (refstore.select _ _ items) as [|item [|item' rest]] eqn:Hsel; [discriminate| |discriminate].
    intros [= Hr <-]. split; [done|].
    destruct (one_selected_row _ _ _ _ Hwf Hsel) as (key & t & i & r' & -> & Hl & Hr' & Ht & Hi & Hs).
    rewrite Hr in Hr'. injection Hr' as <-.
    apply selected_ByTypeAndLabel in Hs as [Htype Hlab].
    apply itemToRow_Ok in Hr as Hfields. destruct Hfields as (Hrt & _ & Hrl & _ & _).
    rewrite (decode_string_S _ _ _ Htype) in Hrt. rewrite (decode_string_S _ _ _ Hlab) in Hrl.
    assert (RowType r = rowType) as Hrt' by congruence.
    assert (RowLabel r = label) as Hrl' by congruence.
    split; [done|]. split; [done|]. split.
    + rewrite (GetRowByID_run _ _ _ _ _ Hprov). unfold ID. rewrite Hi, <- Hrt', Ht, Hl. by rewrite Hr.
    + destruct (ListRows_rows client w items rowType label "" Hprov Hwf)
        as (rows & Hrun & _ & Hrows).
      exists rows. split; [done|]. apply Hrows. split; [by exists [t; i], item|].
      split; [done|]. split; [|done]. intros _. rewrite Hrl'. apply is_substring_refl.
  - intros label parentID r w'. rewrite (GetChild_on_items _ _ _ _ _ Hprov).
    destruct (refstore.select _ _ items) as [|item [|item' rest]] eqn:Hsel; [discriminate| |discriminate].
    intros [= Hr <-]. split; [done|].
    destruct (one_selected_row _ _ _ _ Hwf Hsel) as (key & t & i & r' & -> & Hl & Hr' & Ht & Hi & Hs).
    rewrite Hr in Hr'. injection Hr' as <-.
    apply selected_ByParentAndLabel in Hs as [Hpar Hlab].
    apply itemToRow_Ok in Hr as Hfields. destruct Hfields as (_ & _ & Hrl & Hrp & _).
    rewrite (decode_string_S _ _ _ Hpar) in Hrp. rewrite (decode_string_S _ _ _ Hlab) in Hrl.
    assert (RowParentID r = parentID) as Hrp' by congruence.
    assert (RowLabel r = label) as Hrl' by congruence.
    split; [done|]. split; [done|]. split.
    + rewrite (GetRowByID_run _ _ _ _ _ Hprov). unfold ID, Type_. rewrite Hi, Ht, Hl. by rewrite Hr.
    + destruct (ListRows_rows client w items (Type_ r) label parentID Hprov Hwf)
        as (rows & Hrun & _ & Hrows).
      exists rows. split; [done|]. apply Hrows. split; [by exists [t; i], item|].
      split; [done|]. split; [|done]. intros _. rewrite Hrl'. apply is_substring_refl.
Qed.

Lemma getters_agree_witness :
  let r := {| RowType := "team"; RowID := demo.teamID; RowLabel := "product";
              RowParentID := demo.orgID;
              RowColumns := decode_iface <$> columnsToMap demo.teamColumns |} in
  demo.w3 = demo.w3 ∧ Label r = "product" ∧ ParentID r = demo.orgID ∧
  GetRowByID demo.client (Type_ r) (ID r) demo.w3 = (Ok r, demo.w3) ∧
  ∃ rows, ListRows demo.client (Type_ r) "product" demo.orgID demo.w3 = (Ok rows, demo.w3) ∧
          r ∈ rows.
Proof.
  assert (provisioned demo.client demo.w3 demo.items3) as Hprov
    by (split; [reflexivity | by_computation]).
  assert (wellFormed demo.items3) as Hwf by decide_by_computation.
  refine (proj2 (getters_agree demo.client demo.w3 demo.items3 Hprov Hwf)
            "product" demo.orgID _ demo.w3 _).
  by_computation.
Defined.

(** ** Creating and deleting, composed *)

Lemma wellFormed_insert_rootItem items rowType id label :
  wellFormed items → wellFormed (<[[rowType; id] := rootItem rowType id label]> items).
Proof.
  intros Hwf. apply map_Forall_insert_2; [apply wellFormedItem_rootItem | done].
Qed.

Lemma wellFormed_insert_childItem items rowType id label parentID columns :
  wellFormed items →
  wellFormed (<[[rowType; id] := childItem rowType id label parentID columns]> items).
Proof.
  intros Hwf. apply map_Forall_insert_2; [apply wellFormedItem_childItem | done].
Qed.

Lemma CreateChild_Ok_world client w items rowType label parentType parentID columns r w' :
  provisioned client w items → wellFormed items →
  CreateChild refstore.rand_Int63 client rowType label parentType parentID columns w
    = (Ok r, w') →
  is_Some (items !! [parentType; parentID]) ∧
  r = {| RowType := rowType; RowID := drawID rowType w; RowLabel := label;
         RowParentID := parentID; RowColumns := columns |} ∧
  w' = storeItems client (afterDraw w)
         (<[[rowType; drawID rowType w] :=
              childItem rowType (drawID rowType w) label parentID columns]> items).
Proof.
  intros Hprov Hwf. rewrite (CreateChild_run _ _ _ _ _ _ _ _ Hprov Hwf).
  destruct (items !! [parentType; parentID]) as [pitem|]; [|discriminate].
  destruct (0 <? _)%nat; [discriminate|].
  destruct (bool_decide _); [|discriminate]. intros [= <- <-]. eauto.
Qed.

(** X18.  Creating the same thing twice collides: after a successful
    [CreateRow(type, label)] a second one fails with
    [ErrCollisionTypeLabel] and changes nothing; after a successful
    [CreateChild] a second one with the same label and parent fails with
    [ErrCollisionParentLabel] and writes nothing. *)
Theorem creating_twice_collides client w items :
  provisioned client w items → wellFormed items →
  (∀ rowType label r w',
     CreateRow refstore.rand_Int63 client rowType label w = (Ok r, w') →
     CreateRow refstore.rand_Int63 client rowType label w'
     = (Err ErrCollisionTypeLabel, w')) ∧
  (∀ rowType label parentType parentID columns r w' rowType2 columns2,
     CreateChild refstore.rand_Int63 client rowType label parentType parentID columns w
       = (Ok r, w') →
     CreateChild refstore.rand_Int63 client rowType2 label parentType parentID columns2 w'
     = (Err ErrCollisionParentLabel, afterDraw w') ∧
     itemsOf client (afterDraw w') = itemsOf client w').
Proof.
  intros Hprov Hwf. split.
  - intros rowType label r w' Hrun.
    destruct (CreateRow_Ok_inv _ _ _ _ _ _ _ Hprov Hrun) as (_ & _ & ->).
    eapply CreateRow_collision.
    + eapply provisioned_storeItems, provisioned_afterDraw, Hprov.
    + eexists _, _. split; [apply lookup_insert_eq|]. split; by_computation.
  - intros rowType label parentType parentID columns r w' rowType2 columns2 Hrun.
    destruct (CreateChild_Ok_world _ _ _ _ _ _ _ _ _ _ Hprov Hwf Hrun) as ([pitem Hp] & _ & ->).
    set (key := [rowType; drawID rowType w]).
    set (item := childItem rowType (drawID rowType w) label parentID columns).
    assert (provisioned client (storeItems client (afterDraw w) (<[key := item]> items))
              (<[key := item]> items)) as Hprov'
      by (eapply provisioned_storeItems, provisioned_afterDraw, Hprov).
    split; [|unfold itemsOf; by rewrite afterDraw_tables].
    rewrite (CreateChild_run _ _ _ _ _ _ _ _ Hprov'
               (wellFormed_insert_childItem _ _ _ _ _ _ Hwf)).
    assert (is_Some (<[key := item]> items !! [parentType; parentID])) as [? ->].
    { destruct (decide (key = [parentType; parentID])) as [<-|Hne].
      - rewrite lookup_insert_eq. eauto.
      - rewrite lookup_insert_ne by done. eauto. }
    assert ((0 <? length (refstore.select indexByParentAndLabel
               (queryByParentAndLabel client parentID label) (<[key := item]> items)))%nat
            = true) as ->; [|done].
    apply select_nonempty. exists key, item. split; [apply lookup_insert_eq|].
    apply selected_ByParentAndLabel. split; by_computation.
Qed.

Lemma creating_twice_collides_witness :
  CreateRow refstore.rand_Int63 demo.client "organization" "acme" demo.w2
  = (Err ErrCollisionTypeLabel, demo.w2).
Proof.
  assert (provisioned demo.client demo.w1 ∅) as Hprov
    by (split; [reflexivity | by_computation]).
  refine (proj1 (creating_twice_collides demo.client demo.w1 ∅ Hprov (map_Forall_empty _))
            "organization" "acme"
            {| RowType := "organization"; RowID := demo.orgID; RowLabel := "acme";
               RowParentID := ""; RowColumns := ∅ |} demo.w2 _).
  by_computation.
Defined.

(** X19.  A created row is listed: after a successful [CreateRow] the listing
    of its type filtered by its label contains the returned row; after a
    successful [CreateChild] with strings and [[]string]s as columns the
    listing of its type filtered by its label and parent contains the
    returned row. *)
Theorem created_rows_are_listed client w items :
  provisioned client w items → wellFormed items →
  (∀ rowType label r w',
     CreateRow refstore.rand_Int63 client rowType label w = (Ok r, w') →
     ∃ rows, ListRows client rowType label "" w' = (Ok rows, w') ∧ r ∈ rows) ∧
  (∀ rowType label parentType parentID columns r w',
     supportedColumns columns →
     CreateChild refstore.rand_Int63 client rowType label parentType parentID columns w
       = (Ok r, w') →
     ∃ rows, ListRows client rowType label parentID w' = (Ok rows, w') ∧ r ∈ rows).
Proof.
  intros Hprov Hwf. split.
  - intros rowType label r w' Hrun.
    destruct (CreateRow_Ok_inv _ _ _ _ _ _ _ Hprov Hrun) as (_ & -> & ->).
    set (key := [rowType; drawID rowType w]).
    set (item := rootItem rowType (drawID rowType w) label).
    assert (provisioned client (storeItems client (afterDraw w) (<[key := item]> items))
              (<[key := item]> items)) as Hprov'
      by (eapply provisioned_storeItems, provisioned_afterDraw, Hprov).
    destruct (ListRows_rows client _ _ rowType label "" Hprov'
                (wellFormed_insert_rootItem _ _ _ _ Hwf)) as (rows & Hlist & _ & Hrows).
    exists rows. split; [done|]. apply Hrows. split.
    + exists key, item. split; [apply lookup_insert_eq|]. apply itemToRow_rootItem.
    + split; [done|]. split; [|done]. intros _. apply is_substring_refl.
  - intros rowType label parentType parentID columns r w' Hsup Hrun.
    destruct (CreateChild_Ok_world _ _ _ _ _ _ _ _ _ _ Hprov Hwf Hrun) as (_ & -> & ->).
    set (key := [rowType; drawID rowType w]).
    set (item := childItem rowType (drawID rowType w) label parentID columns).
    assert (provisioned client (storeItems client (afterDraw w) (<[key := item]> items))
              (<[key := item]> items)) as Hprov'
      by (eapply provisioned_storeItems, provisioned_afterDraw, Hprov).
    destruct (ListRows_rows client _ _ rowType label parentID Hprov'
                (wellFormed_insert_childItem _ _ _ _ _ _ Hwf)) as (rows & Hlist & _ & Hrows).
    exists rows. split; [done|]. apply Hrows. split.
    + exists key, item. split; [apply lookup_insert_eq|]. unfold item.
      by rewrite itemToRow_childItem, (supportedColumns_round_trip _ Hsup).
    + split; [done|]. split; [|done]. intros _. apply is_substring_refl.
Qed.

Lemma created_rows_are_listed_witness :
  ∃ rows, ListRows demo.client "organization" "acme" "" demo.w2 = (Ok rows, demo.w2) ∧
          {| RowType := "organization"; RowID := demo.orgID; RowLabel := "acme";
             RowParentID := ""; RowColumns := ∅ |} ∈ rows.
Proof.
  assert (provisioned demo.client demo.w1 ∅) as Hprov
    by (split; [reflexivity | by_computation]).
  refine (proj1 (created_rows_are_listed demo.client demo.w1 ∅ Hprov (map_Forall_empty _))
            "organization" "acme" _ demo.w2 _).
  by_computation.
Defined.

(** X20.  The identifier of a created row is its type, an underscore and ten
    lower-case letters. *)
Theorem created_ids_carry_the_type client w items :
  provisioned client w items → wellFormed items →
  ∀ r w',
    (∃ rowType label,
       CreateRow refstore.rand_Int63 client rowType label w = (Ok r, w')) ∨
    (∃ rowType label parentType parentID columns,
       CreateChild refstore.rand_Int63 client rowType label parentType parentID columns w
         = (Ok r, w')) →
    ∃ suffix, ID r = Type_ r ++ "_" ++ suffix ∧ String.length suffix = 10%nat ∧
              Forall (λ c, c ∈ String.list_ascii_of_string slug.letters)
                     (String.list_ascii_of_string suffix).
Proof.
  intros Hprov Hwf r w' Hrun.
  assert (∃ rowType, Type_ r = rowType ∧ ID r = drawID rowType w) as (rowType & -> & ->).
  { destruct Hrun as [(rowType & label & Hrun) | (rowType & label & pt & p & cols & Hrun)].
    - destruct (CreateRow_Ok_inv _ _ _ _ _ _ _ Hprov Hrun) as (_ & -> & _). by exists rowType.
    - destruct (CreateChild_Ok_world _ _ _ _ _ _ _ _ _ _ Hprov Hwf Hrun) as (_ & -> & _).
      by exists rowType. }
  exists (slug.randSeq refstore.rand_Int63 10 w).1. split; [done|].
  apply (randSeq_spec refstore.rand_Int63 rand_Int63_nonneg 10 w).
Qed.

Lemma created_ids_carry_the_type_witness :
  ∃ suffix, demo.orgID = "organization" ++ "_" ++ suffix ∧ String.length suffix = 10%nat ∧
            Forall (λ c, c ∈ String.list_ascii_of_string slug.letters)
                   (String.list_ascii_of_string suffix).
Proof.
  assert (provisioned demo.client demo.w1 ∅) as Hprov
    by (split; [reflexivity | by_computation]).
  refine (created_ids_carry_the_type demo.client demo.w1 ∅ Hprov (map_Forall_empty _)
            {| RowType := "organization"; RowID := demo.orgID; RowLabel := "acme";
               RowParentID := ""; RowColumns := ∅ |} demo.w2 _).
  left. exists "organization", "acme". by_computation.
Defined.

(** X21.  [DeleteRow] deletes the one row and nothing else: called without a
    child type, or with one of which the row has no children, it leaves
    every other row, the row's children included, reading back as before,
    while the row itself is no longer found and can take no new
    children. *)
Theorem DeleteRow_deletes_only_the_row client w items rowType childType id :
  provisioned client w items → wellFormed items →
  is_Some (items !! [rowType; id]) →
  childType = "" ∨ ¬ someItemWith items "type" childType "parent_id" id →
  ∃ w', DeleteRow client rowType childType id w = (Ok tt, w') ∧
        (∀ otherType otherID, [otherType; otherID] ≠ [rowType; id] →
           GetRowByID client otherType otherID w'
           = ((GetRowByID client otherType otherID w).1, w')) ∧
        (∃ e, GetRowByID client rowType id w' = (Err e, w') ∧
              errors_Is e ErrNotFoundRow = true) ∧
        (∀ newType label columns,
           ∃ e w'', CreateChild refstore.rand_Int63 client newType label rowType id columns w'
                    = (Err e, w'') ∧ errors_Is e ErrNotFoundRow = true).
Proof.
  intros Hprov Hwf Hstored Hnone.
  rewrite (DeleteRow_no_children _ _ _ rowType childType id Hprov Hwf Hnone).
  rewrite bool_decide_eq_true_2 by done.
  pose proof (provisioned_storeItems client w items (delete [rowType; id] items) Hprov)
    as Hprov'.
  eexists. split; [reflexivity|]. split; [|split].
  - intros otherType otherID Hne.
    rewrite (GetRowByID_run _ _ _ _ _ Hprov'), (GetRowByID_run _ _ _ _ _ Hprov).
    rewrite lookup_delete_ne by done. by destruct (items !! [otherType; otherID]).
  - rewrite (GetRowByID_run _ _ _ _ _ Hprov'), lookup_delete_eq.
    eexists. split; [reflexivity|]. apply errors_Is_Errorf.
  - intros newType label columns.
    rewrite (CreateChild_no_parent _ _ _ _ _ _ _ _ Hprov' (lookup_delete_eq _ _)).
    eexists _, _. split; [reflexivity|]. apply errors_Is_Errorf.
Qed.

Lemma DeleteRow_deletes_only_the_row_witness :
  ∃ w', DeleteRow demo.client "organization" "" demo.orgID demo.w3 = (Ok tt, w') ∧
        (∀ otherType otherID, [otherType; otherID] ≠ ["organization"; demo.orgID] →
           GetRowByID demo.client otherType otherID w'
           = ((GetRowByID demo.client otherType otherID demo.w3).1, w')) ∧
        (∃ e, GetRowByID demo.client "organization" demo.orgID w' = (Err e, w') ∧
              errors_Is e ErrNotFoundRow = true) ∧
        (∀ newType label columns,
           ∃ e w'', CreateChild refstore.rand_Int63 demo.client newType label
                      "organization" demo.orgID columns w'
                    = (Err e, w'') ∧ errors_Is e ErrNotFoundRow = true).
Proof.
  assert (provisioned demo.client demo.w3 demo.items3) as Hprov
    by (split; [reflexivity | by_computation]).
  assert (wellFormed demo.items3) as Hwf by decide_by_computation.
  refine (DeleteRow_deletes_only_the_row demo.client demo.w3 demo.items3 "organization" ""
            demo.orgID Hprov Hwf _ (or_introl eq_refl)).
  eexists. by_computation.
Defined.

(** ** The provider *)

Lemma HasError_app a b :
  provider.HasError (a ++ b)%list = provider.HasError a || provider.HasError b.
Proof. unfold provider.HasError. apply existsb_app. Qed.

Lemma HasError_elem d a :
  d ∈ a → provider.Severity_ d = provider.SeverityError → provider.HasError a = true.
Proof.
  intros Hin Hsev. unfold provider.HasError. apply existsb_exists. exists d.
  split; [by apply list_elem_of_In | by apply bool_decide_eq_true].
Qed.

Lemma Append_spec a b :
  (∀ d, d ∈ provider.Append a b ↔ d ∈ a ∨ d ∈ b) ∧
  provider.HasError (provider.Append a b) = provider.HasError a || provider.HasError b.
Proof.
  revert a. induction b as [|x b IH]; intros a; cbn [provider.Append foldl].
  - split; [|by rewrite orb_false_r]. intros d. split; [by left|]. intros [?|?]; [done|].
    by apply elem_of_nil in H.
  - fold (provider.Append (if bool_decide (x ∈ a) then a else (a ++ [x])%list) b).
    destruct (IH (if bool_decide (x ∈ a) then a else (a ++ [x])%list)) as [IHin IHerr].
    destruct (bool_decide (x ∈ a)) eqn:Hx.
    + apply bool_decide_eq_true in Hx. split.
      * intros d. rewrite IHin, elem_of_cons. split; [tauto|]. intros [?|[->|?]]; tauto.
      * rewrite IHerr. cbn [provider.HasError existsb].
        destruct (bool_decide (provider.Severity_ x = provider.SeverityError)) eqn:Hs;
          [|done].
        apply bool_decide_eq_true in Hs. rewrite (HasError_elem x a Hx Hs). done.
    + split.
      * intros d. rewrite IHin, elem_of_app, list_elem_of_singleton, elem_of_cons. tauto.
      * rewrite IHerr, HasError_app. cbn [provider.HasError existsb].
        by rewrite orb_false_r, orb_assoc.
Qed.

Lemma HasError_Append a b :
  provider.HasError (provider.Append a b) = provider.HasError a || provider.HasError b.
Proof. apply Append_spec. Qed.

Lemma elem_of_Append a b d : d ∈ provider.Append a b ↔ d ∈ a ∨ d ∈ b.
Proof. apply Append_spec. Qed.

Lemma HasError_AddAttributeError d path summary detail :
  provider.HasError (provider.AddAttributeError d path summary detail) = true.
Proof. unfold provider.AddAttributeError. rewrite HasError_Append. apply orb_true_r. Qed.

Lemma HasError_AddError d summary detail :
  provider.HasError (provider.AddError d summary detail) = true.
Proof. unfold provider.AddError. rewrite HasError_Append. apply orb_true_r. Qed.

Lemma HasError_unknown (c : bool) d path summary detail :
  provider.HasError (if c then provider.AddAttributeError d path summary detail else d)
  = c || provider.HasError d.
Proof.
  destruct c; [apply HasError_AddAttributeError | done].
Qed.

Lemma elem_of_unknown (c : bool) d path summary detail x :
  x ∈ d → x ∈ (if c then provider.AddAttributeError d path summary detail else d).
Proof.
  intros Hx. destruct c; [|done]. apply elem_of_Append. by left.
Qed.

Section ConfigureProperties.
Context {W Config : Type}.
Variable config_LoadDefaultConfig : string → string → result Config.
Variable dynamodb_NewFromConfig : Config → dynamodb_Client W.
Variable error_Error : error → string.

(** X22.  [Configure] hands a client to the data sources and resources exactly
    when it ends without an error diagnostic: either the response carries
    an error and its two data fields are untouched, or it carries none
    and both fields hold the client that [NewClient] returned for the
    four configured strings. *)
Theorem Configure_client_iff_no_error (req : provider.ConfigureRequest)
    (resp : provider.ConfigureResponse (Client W)) (w : W) :
  let config := (provider.Config_Get req).1 in
  let out := provider.Configure config_LoadDefaultConfig dynamodb_NewFromConfig error_Error req resp w in
  (provider.HasError (provider.resp_Diagnostics out.1) = true ∧
   provider.DataSourceData out.1 = provider.DataSourceData resp ∧
   provider.ResourceData out.1 = provider.ResourceData resp) ∨
  (provider.HasError (provider.resp_Diagnostics out.1) = false ∧
   ∃ client, NewClient config_LoadDefaultConfig dynamodb_NewFromConfig
               (provider.ValueString (provider.AWSProfile config))
               (provider.ValueString (provider.AWSRegion config))
               (provider.ValueString (provider.TableName config))
               (provider.ValueString (provider.KMSKeyARN config)) w
             = (Ok client, out.2) ∧
             provider.DataSourceData out.1 = Some client ∧
             provider.ResourceData out.1 = Some client).
Proof.
  intros config out. subst config out. unfold provider.Configure.
  destruct (provider.Config_Get req) as [config diags]. cbn [fst].
  destruct (provider.HasError (provider.Append _ diags)) eqn:H0; [by left|].
  match goal with |- context [if provider.HasError ?d then _ else _] =>
    destruct (provider.HasError d) eqn:H4 end; [by left|].
  destruct (NewClient _ _ _ _ _ _ w) as [[client|err] w'].
  - cbn [fst snd]. rewrite H4. right. split; [done|]. by exists client.
  - cbn [fst snd]. rewrite HasError_AddError. left. split; [apply HasError_AddError|done].
Qed.

(** X23.  [Configure] never calls [NewClient], and so never touches the
    datastore, when decoding the configuration reported an error, the
    response already carried one, or any of the four settings is unknown:
    it reports an error and leaves the data fields alone.  Past the
    decoding, every unknown setting gets its own attribute error. *)
Theorem Configure_unknown_setting (req : provider.ConfigureRequest)
    (resp : provider.ConfigureResponse (Client W)) (w : W) :
  let config := (provider.Config_Get req).1 in
  let decoded := provider.Append (provider.resp_Diagnostics resp) (provider.Config_Get req).2 in
  let out := provider.Configure config_LoadDefaultConfig dynamodb_NewFromConfig error_Error req resp w in
  let unknown name summary detail :=
    {| provider.Severity_ := provider.SeverityError; provider.Summary := summary;
       provider.Detail := detail; provider.AttributePath := Some name |} in
  provider.HasError decoded
  || provider.IsUnknown (provider.AWSProfile config)
  || provider.IsUnknown (provider.AWSRegion config)
  || provider.IsUnknown (provider.TableName config)
  || provider.IsUnknown (provider.KMSKeyARN config) = true →
  out.2 = w ∧
  provider.HasError (provider.resp_Diagnostics out.1) = true ∧
  provider.DataSourceData out.1 = provider.DataSourceData resp ∧
  provider.ResourceData out.1 = provider.ResourceData resp ∧
  (provider.HasError decoded = false →
   (provider.IsUnknown (provider.AWSProfile config) = true →
      unknown "profile" "Unknown profile"
        "Cannot configure the provider client with an unknown profile."
      ∈ provider.resp_Diagnostics out.1) ∧
   (provider.IsUnknown (provider.AWSRegion config) = true →
      unknown "region" "Unknown region"
        "Cannot configure the provider client with an unknown region."
      ∈ provider.resp_Diagnostics out.1) ∧
   (provider.IsUnknown (provider.TableName config) = true →
      unknown "table_name" "Unknown table name"
        "Cannot configure the provider client with an unknown DynamoDB storage table name."
      ∈ provider.resp_Diagnostics out.1) ∧
   (provider.IsUnknown (provider.KMSKeyARN config) = true →
      unknown "kms_key_arn" "Unknown KMS Key ARN"
        "Cannot configure the provider client with an unknown KMS Key ARN."
      ∈ provider.resp_Diagnostics out.1)).
Proof.
  intros config decoded out unknown. subst config decoded out unknown.
  unfold provider.Configure.
  destruct (provider.Config_Get req) as [config diags]. cbn [fst snd].
  set (d0 := provider.Append (provider.resp_Diagnostics resp) diags).
  intros Hany. destruct (provider.HasError d0) eqn:H0.
  { cbn [fst snd provider.setDiagnostics provider.resp_Diagnostics
         provider.DataSourceData provider.ResourceData].
    repeat split; try done. }
  cbn [orb] in Hany.
  match goal with |- context [if provider.HasError ?d then _ else _] =>
    set (d4 := d); assert (provider.HasError d4 = true) as H4 end.
  { subst d4. rewrite !HasError_unknown, H0, orb_false_r.
    destruct (provider.IsUnknown (provider.AWSProfile config)),
      (provider.IsUnknown (provider.AWSRegion config)),
      (provider.IsUnknown (provider.TableName config)),
      (provider.IsUnknown (provider.KMSKeyARN config)); done. }
  rewrite H4.
  cbn [fst snd provider.setDiagnostics provider.resp_Diagnostics
       provider.DataSourceData provider.ResourceData].
  do 4 (split; [done|]). intros _. subst d4.
  unfold provider.providerAttrAWSProfile, provider.providerAttrAWSRegion,
    provider.providerAttrTableName, provider.providerAttrKeyARN.
  split; [|split; [|split]]; intros ->.
  - do 3 apply elem_of_unknown. apply elem_of_Append. right. left.
  - do 2 apply elem_of_unknown. apply elem_of_Append. right. left.
  - apply elem_of_unknown. apply elem_of_Append. right. left.
  - apply elem_of_Append. right. left.
Qed.

End ConfigureProperties.

Lemma Configure_unknown_setting_witness :
  let out :=
    provider.Configure (W := refstore.World) (Config := unit)
      (λ _ _, Ok tt) (λ _, refstore.api) (λ _, "error")
      {| provider.Config_Get :=
           ({| provider.AWSProfile := provider.StringValue "default";
               provider.AWSRegion := provider.StringUnknown;
               provider.TableName := provider.StringValue "tree";
               provider.KMSKeyARN := provider.StringUnknown |}, []) |}
      {| provider.DataSourceData := None; provider.ResourceData := None;
         provider.resp_Diagnostics := [] |}
      demo.w0 in
  out.2 = demo.w0 ∧
  provider.HasError (provider.resp_Diagnostics out.1) = true ∧
  provider.DataSourceData out.1 = None ∧
  provider.ResourceData out.1 = None.
Proof.
  pose proof (Configure_unknown_setting (W := refstore.World) (Config := unit)
                (λ _ _, Ok tt) (λ _, refstore.api) (λ _, "error")
                {| provider.Config_Get :=
                     ({| provider.AWSProfile := provider.StringValue "default";
                         provider.AWSRegion := provider.StringUnknown;
                         provider.TableName := provider.StringValue "tree";
                         provider.KMSKeyARN := provider.StringUnknown |}, []) |}
                {| provider.DataSourceData := None; provider.ResourceData := None;
                   provider.resp_Diagnostics := [] |}
                demo.w0 eq_refl) as (H1 & H2 & H3 & H4 & _).
  exact (conj H1 (conj H2 (conj H3 H4))).
Defined.
